(** * RebellBot: market-data service and trading engine

    A shallow embedding of [src/RebellBot/services.py] (with the constants it
    reads from [src/RebellBot/config.py]) and the properties of its
    specification that can be settled on it.

    Conventions of the embedding.
    - A Python exception is a value of [PyExc]; code that can raise returns a
      [PyResult].  Methods that mutate [self] run in the state-and-exception
      monad [Eff S], so that a [try]/[except] keeps the mutations made before
      the exception, as Python does.
    - What the process tells the outside world (log records, frames written
      to the websocket, sleeps) is recorded in ghost fields of the state.
    - What the outside world answers (the broker's client, the websocket
      peer, pandas, scikit-learn, the clock, and the interpreter's own
      [str.upper], which follows the Unicode tables) is an explicit
      argument.
    - [float] is an abstract type with its operations ([PyFloat]); no theorem
      about the code relies on a law of the arithmetic. *)

From Stdlib Require Import ZArith QArith Qabs Lqa String Ascii List Lia.
From stdpp Require Import gmap strings list fin_maps fin_sets.

Local Open Scope Z_scope.
Local Open Scope string_scope.
Local Open Scope list_scope.

(* ===================================================================== *)
(** * Python values, exceptions and effects                               *)
(* ===================================================================== *)

(** The exceptions the code can meet.  [ExternalError] stands for whatever a
    collaborator raises (network client, websocket peer, pandas,
    scikit-learn); every constructor is an instance of [Exception].  What is
    not an [Exception] (the cancellation of a task, [CancelledError], which
    [except Exception] does not catch) is not modelled. *)
Inductive PyExc : Type :=
| StopIteration
| ValueError (msg : string)
| KeyError (key : string)
| AttributeError (msg : string)
| TypeError (msg : string)
| IndexError (msg : string)
| ExternalError (msg : string).

(** [str(e)]. *)
Definition str_exc (e : PyExc) : string :=
  match e with
  | StopIteration => ""
  | ValueError msg => msg
  | KeyError key => "'" ++ key ++ "'"
  | AttributeError msg => msg
  | TypeError msg => msg
  | IndexError msg => msg
  | ExternalError msg => msg
  end.

Inductive PyResult (A : Type) : Type :=
| Ok (a : A)
| Raise (e : PyExc).
Arguments Ok {A} a.
Arguments Raise {A} e.

(** [d[k]] on a dict with string keys. *)
Definition getitem {V} (d : gmap string V) (k : string) : PyResult V :=
  match d !! k with
  | Some v => Ok v
  | None => Raise (KeyError k)
  end.

(** State and exceptions: [S -> result * S]. *)
Definition Eff (S A : Type) : Type := S -> PyResult A * S.

Definition ret {S A} (a : A) : Eff S A := fun s => (Ok a, s).

Definition bind {S A B} (c : Eff S A) (k : A -> Eff S B) : Eff S B :=
  fun s => match c s with
           | (Ok a, s') => k a s'
           | (Raise e, s') => (Raise e, s')
           end.

Definition raise {S A} (e : PyExc) : Eff S A := fun s => (Raise e, s).

(** Lifts a computation without side effect on [self]. *)
Definition lift {S A} (r : PyResult A) : Eff S A := fun s => (r, s).

Definition get {S} : Eff S S := fun s => (Ok s, s).

Definition modify {S} (f : S -> S) : Eff S unit := fun s => (Ok tt, f s).

(** [try: body  except Exception as e: handler(e)]. *)
Definition try_except {S A} (body : Eff S A) (handler : PyExc -> Eff S A) : Eff S A :=
  fun s => match body s with
           | (Ok a, s') => (Ok a, s')
           | (Raise e, s') => handler e s'
           end.

(** [with ctx: body]: [close] runs on both exits. *)
Definition with_closing {S A} (body : Eff S A) (close : S -> S) : Eff S A :=
  fun s => match body s with (r, s') => (r, close s') end.

Declare Scope eff_scope.
Delimit Scope eff_scope with eff.
Notation "x <- c ;; k" := (bind c (fun x => k))
  (at level 100, c at next level, right associativity) : eff_scope.
Notation "c ;;; k" := (bind c (fun _ => k))
  (at level 100, right associativity) : eff_scope.

(** [for x in xs: body(x)]. *)
Fixpoint for_each {S A} (xs : list A) (body : A -> Eff S unit) : Eff S unit :=
  match xs with
  | [] => ret tt
  | x :: rest => (body x ;;; for_each rest body)%eff
  end.

(** [[f(x) for x in xs]] where [f] can raise. *)
Fixpoint comprehension {A B} (f : A -> PyResult B) (xs : list A) : PyResult (list B) :=
  match xs with
  | [] => Ok []
  | x :: rest =>
      match f x with
      | Raise e => Raise e
      | Ok y => match comprehension f rest with
                | Raise e => Raise e
                | Ok ys => Ok (y :: ys)
                end
      end
  end.

(** The operations of [float] that the code uses. *)
Class PyFloat (F : Type) : Type := {
  f_of_int : Z -> F;            (* float(n), the implicit conversion *)
  f_add : F -> F -> F;
  f_sub : F -> F -> F;
  f_mul : F -> F -> F;
  f_div : F -> F -> F;
  f_1e9 : F                     (* the literal 1e9 *)
}.

(** [logging]: level and message. *)
Inductive LogLevel : Type := INFO | ERROR.
Record LogRecord : Type := { levelname : LogLevel; message : string }.

Definition Time : Type := Z.

(* ===================================================================== *)
(** * config.py                                                           *)
(* ===================================================================== *)

Inductive CandleInterval : Type :=
| CANDLE_INTERVAL_5_MIN
| CANDLE_INTERVAL_HOUR
| CANDLE_INTERVAL_DAY.

(** A strategy profile, [Config.STRATEGY_PARAMS[mode]]: a dict of which any
    key can be missing. *)
Record Params : Type := {
  days : option Z;
  interval : option CandleInterval;
  min_candles : option Z;
  ema : option Z;
  rsi : option Z;
  atr : option Z
}.

(** The attributes of class [Config] that services.py reads.
    [STRATEGY_PARAMS] is read by [analyze] and is not defined by config.py
    (which defines [STRATEGY]): it is [None] when the attribute is absent.
    [RISK_MANAGEMENT] is the dict as it is, its values floats. *)
Record Config {F : Type} : Type := {
  ML_features : list string;
  ML_training_days : Z;
  ML_training_interval : CandleInterval;
  ML_retrain_hours : Z;
  STREAMING_ws_url : string;
  STREAMING_depth : Z;
  STREAMING_max_subscriptions : Z;
  STREAMING_reconnect_timeout : Z;
  STRATEGY_PARAMS : option (gmap string Params);
  RISK_MANAGEMENT : gmap string F
}.
Arguments Config F : clear implicits.

(* ===================================================================== *)
(** * MarketDataService                                                   *)
(* ===================================================================== *)

(** [tinkoff.invest.Quotation]: integer units and billionths. *)
Record Quotation : Type := { units : Z; nano : Z }.

(** [tinkoff.invest.HistoricCandle], the fields the code reads. *)
Record HistoricCandle : Type := {
  c_open : Quotation;
  c_high : Quotation;
  c_low : Quotation;
  c_close : Quotation;
  c_volume : Z
}.

(** An element of [data["bids"]] or [data["asks"]].  The code reads
    [l.price.units], [l.price.nano] and [l.quantity]: [LevelObj] is an object
    that has these attributes, [LevelPlain] a value that has no attribute
    [price] (whatever [json.loads] yields: dict, list, str, number, None). *)
Inductive Level : Type :=
| LevelObj (price : Quotation) (quantity : Z)
| LevelPlain.

(** The dict handed to [_process_orderbook]; a key can be missing. *)
Record Payload : Type := {
  p_figi : option string;
  p_bids : option (list Level);
  p_asks : option (list Level)
}.

(** A frame read from the websocket, as [json.loads] and the subscripts
    [data["event"]], [data["payload"]] see it. *)
Inductive Message : Type :=
| Undecodable
| Decoded (event : option string) (payload : option Payload).

(** The frame [json.dumps({"event": ..., "figi": ..., "depth": ...})]. *)
Record Frame : Type := { fr_event : string; fr_figi : string; fr_depth : Z }.

(** A websocket connection: how many more [send] calls the peer accepts
    before [send] raises ([None]: no limit), and what is still to be read,
    each frame with the clock's reading when it is processed; reading raises
    [read_error] once the inbox is drained, if there is one, and otherwise
    the iteration ends as the peer closes the connection. *)
Record WebSocket : Type := {
  ws_id : nat;
  send_credit : option nat;
  inbox : list (Time * Message);
  read_error : option PyExc
}.

(** The outcome of [websockets.connect(...)]. *)
Inductive Attempt : Type :=
| Refused (e : PyExc)
| Accepted (w : WebSocket).

Section Market.
Context {F : Type} `{PyFloat F}.
Variable cfg : Config F.

(** A stored order book: [{"bids": [...], "asks": [...], "timestamp": ...}]. *)
Record OrderBookEntry : Type := {
  bids : list (F * Z);
  asks : list (F * Z);
  timestamp : Time
}.

(** The attributes of a [MarketDataService] ([lock] serialises coroutines
    that all run on one event loop and has no state of its own here), and
    the ghost record of what was written to the wire, logged and slept. *)
Record MarketDataService : Type := {
  orderbooks : gmap string OrderBookEntry;
  candles_cache : gmap string (list HistoricCandle);
  subscriptions : gset string;
  ws : option WebSocket;
  wire : list (nat * Frame);
  svc_log : list LogRecord;
  slept : list Z
}.

(** [__init__]. *)
Definition init_service : MarketDataService :=
  {| orderbooks := ∅; candles_cache := ∅; subscriptions := ∅; ws := None;
     wire := []; svc_log := []; slept := [] |}.

Definition set_orderbooks (f : gmap string OrderBookEntry -> gmap string OrderBookEntry)
    (s : MarketDataService) : MarketDataService :=
  {| orderbooks := f (orderbooks s); candles_cache := candles_cache s;
     subscriptions := subscriptions s; ws := ws s; wire := wire s;
     svc_log := svc_log s; slept := slept s |}.

Definition set_subscriptions (f : gset string -> gset string)
    (s : MarketDataService) : MarketDataService :=
  {| orderbooks := orderbooks s; candles_cache := candles_cache s;
     subscriptions := f (subscriptions s); ws := ws s; wire := wire s;
     svc_log := svc_log s; slept := slept s |}.

Definition set_ws (w : option WebSocket) (s : MarketDataService) : MarketDataService :=
  {| orderbooks := orderbooks s; candles_cache := candles_cache s;
     subscriptions := subscriptions s; ws := w; wire := wire s;
     svc_log := svc_log s; slept := slept s |}.

Definition emit (w : nat) (fr : Frame) (s : MarketDataService) : MarketDataService :=
  {| orderbooks := orderbooks s; candles_cache := candles_cache s;
     subscriptions := subscriptions s; ws := ws s; wire := wire s ++ [(w, fr)];
     svc_log := svc_log s; slept := slept s |}.

Definition log_svc (r : LogRecord) (s : MarketDataService) : MarketDataService :=
  {| orderbooks := orderbooks s; candles_cache := candles_cache s;
     subscriptions := subscriptions s; ws := ws s; wire := wire s;
     svc_log := svc_log s ++ [r]; slept := slept s |}.

Definition sleep (t : Z) (s : MarketDataService) : MarketDataService :=
  {| orderbooks := orderbooks s; candles_cache := candles_cache s;
     subscriptions := subscriptions s; ws := ws s; wire := wire s;
     svc_log := svc_log s; slept := slept s ++ [t] |}.

(** [q.units + q.nano / 1e9]. *)
Definition _convert_quotation (q : Quotation) : F :=
  f_add (f_of_int (units q)) (f_div (f_of_int (nano q)) f_1e9).

(** [(l.price.units + l.price.nano / 1e9, l.quantity)]. *)
Definition level_pair (l : Level) : PyResult (F * Z) :=
  match l with
  | LevelObj price quantity => Ok (_convert_quotation price, quantity)
  | LevelPlain => Raise (AttributeError "object has no attribute 'price'")
  end.

Definition subscribe_frame (figi : string) : Frame :=
  {| fr_event := "orderbook:subscribe"; fr_figi := figi;
     fr_depth := STREAMING_depth cfg |}.

(** [await self.ws.send(json.dumps(fr))]. *)
Definition ws_send (fr : Frame) : Eff MarketDataService unit :=
  fun s =>
    match ws s with
    | None => (Raise (AttributeError "'NoneType' object has no attribute 'send'"), s)
    | Some w =>
        match send_credit w with
        | Some O => (Raise (ExternalError "ConnectionClosed"), s)
        | Some (S n) =>
            (Ok tt, emit (ws_id w) fr
                      (set_ws (Some {| ws_id := ws_id w; send_credit := Some n;
                                       inbox := inbox w; read_error := read_error w |}) s))
        | None => (Ok tt, emit (ws_id w) fr s)
        end
    end.

(** [_resubscribe]: one frame per element of [self.subscriptions], in the
    order in which the set is iterated. *)
Definition _resubscribe : Eff MarketDataService unit :=
  (s <- get ;;
   for_each (elements (subscriptions s)) (fun figi => ws_send (subscribe_frame figi)))%eff.

(** The dict built at lines 68-74, before it is stored. *)
Definition build_snapshot (data : Payload) (now : Time) : PyResult OrderBookEntry :=
  match p_bids data with
  | None => Raise (KeyError "bids")
  | Some bs =>
      match comprehension level_pair bs with
      | Raise e => Raise e
      | Ok bids' =>
          match p_asks data with
          | None => Raise (KeyError "asks")
          | Some as_ =>
              match comprehension level_pair as_ with
              | Raise e => Raise e
              | Ok asks' => Ok {| bids := bids'; asks := asks'; timestamp := now |}
              end
          end
      end
  end.

(** [_process_orderbook]: [self.orderbooks[data["figi"]] = {...}]; the
    right-hand side is evaluated first, then the subscript. *)
Definition _process_orderbook (data : Payload) (now : Time) : Eff MarketDataService unit :=
  (snap <- lift (build_snapshot data now) ;;
   figi <- lift (match p_figi data with
                 | Some f => Ok f
                 | None => Raise (KeyError "figi")
                 end) ;;
   modify (set_orderbooks (fun m => <[figi := snap]> m)))%eff.

(** One turn of the [async for] loop of [_stream_handler]. *)
Definition handle_message (tm : Time * Message) : Eff MarketDataService unit :=
  let now := fst tm in
  match snd tm with
  | Undecodable => raise (ValueError "JSONDecodeError")
  | Decoded None _ => raise (KeyError "event")
  | Decoded (Some ev) payload =>
      if String.eqb ev "orderbook"
      then match payload with
           | None => raise (KeyError "payload")
           | Some data => _process_orderbook data now
           end
      else ret tt
  end.

(** [_stream_handler]: reads the connection until it ends. *)
Definition _stream_handler : Eff MarketDataService unit :=
  (s <- get ;;
   match ws s with
   | None => raise (TypeError "'async for' requires an object with __aiter__ method, got NoneType")
   | Some w =>
       for_each (inbox w) handle_message ;;;
       match read_error w with
       | Some e => raise e
       | None => ret tt
       end
   end)%eff.

(** The websocket is closed when its [async with] block is left; the
    attribute [self.ws] keeps the closed object. *)
Definition close_ws (s : MarketDataService) : MarketDataService :=
  match ws s with
  | None => s
  | Some w => set_ws (Some {| ws_id := ws_id w; send_credit := Some O;
                              inbox := []; read_error := read_error w |}) s
  end.

(** The [try] block of one turn of [while True], lines 37-43. *)
Definition streaming_try (a : Attempt) : Eff MarketDataService unit :=
  match a with
  | Refused e => raise e
  | Accepted w =>
      with_closing
        (modify (set_ws (Some w)) ;;;
         _resubscribe ;;;
         _stream_handler)%eff
        close_ws
  end.

(** One turn of [while True] in [start_streaming]: the [try] block and the
    handler of lines 44-46. *)
Definition streaming_turn (a : Attempt) : Eff MarketDataService unit :=
  try_except
    (streaming_try a)
    (fun e =>
       modify (log_svc {| levelname := ERROR;
                          message := "Ошибка подключения: " ++ str_exc e |}) ;;;
       modify (sleep (STREAMING_reconnect_timeout cfg)))%eff.

(** [start_streaming] never returns; this is its run over the connection
    attempts it has made so far. *)
Fixpoint start_streaming (attempts : list Attempt) : Eff MarketDataService unit :=
  match attempts with
  | [] => ret tt
  | a :: rest => (streaming_turn a ;;; start_streaming rest)%eff
  end.

(** [subscribe]. *)
Definition subscribe (figi : string) : Eff MarketDataService unit :=
  (s <- get ;;
   if decide (figi ∈ subscriptions s)
   then ret tt
   else
     modify (set_subscriptions (fun subs => {[figi]} ∪ subs)) ;;;
     match ws s with
     | Some _ => ws_send (subscribe_frame figi)
     | None => ret tt
     end)%eff.

(** The levels of an update as objects. *)
Definition levels_of (l : list (Quotation * Z)) : list Level :=
  map (fun qn => LevelObj (fst qn) (snd qn)) l.

(** [for figi in figis: await subscribe(figi)]. *)
Definition subscribe_all (figis : list string) : Eff MarketDataService unit :=
  for_each figis subscribe.

(** What [start_streaming] and the handling of frames leave alone. *)
Definition same_subscriptions_and_wire (s s' : MarketDataService) : Prop :=
  subscriptions s' = subscriptions s /\ wire s' = wire s.

(** The peer accepts [n] more frames. *)
Definition accepts (w : WebSocket) (n : nat) : Prop :=
  match send_credit w with
  | None => True
  | Some credit => (n <= credit)%nat
  end.

End Market.

(* ===================================================================== *)
(** * The collaborators of the engine                                     *)
(* ===================================================================== *)

(** An item of [client.instruments.shares(...).instruments]. *)
Record Share : Type := { sh_figi : string; sh_ticker : string; sh_name : string }.

(** What the libraries and services outside the repository answer.
    - [shares], [get_candles]: the broker's client.
    - [ta_ema xs n] is [ta.ema(pd.Series(xs), length=n).iloc[-1]], and
      likewise [ta_rsi], [ta_atr] (pandas_ta).
    - [pd_columns rows] is the frame of lines 156-168 once the row dicts are
      built; [pd_concat], [pd_select], [pd_column] are [pd.concat(data)],
      [frame[names]] and [frame[name]] (pandas).
    - [new_model] is the call of [model_class] on the keywords
      [model_params]; [fit m X y] gives the object as the call leaves it and
      the exception it raised, if any (the call mutates the object in
      place); [truth m] is [bool(m)];
      [predict m row] is [m.predict([row])[0]] and [predict_proba m row] is
      [m.predict_proba([row])[0][1]]; [score_pct m X y] is the text of
      [m.score(X, y)] under the format [.2%] (scikit-learn).
    - [strftime t] is [t.strftime("%Y-%m-%d %H:%M")].
    - [str_upper t] is [t.upper()], Python's [str.upper]: it follows the
      Unicode case mapping and can change the length of the text, so it is
      taken from the interpreter and nothing is assumed of it.  A [str] is
      held as its UTF-8 bytes; equality of texts is equality of bytes. *)
Record World {F Model DataFrame : Type} : Type := {
  shares : PyResult (list Share);
  get_candles : string -> Z -> CandleInterval -> PyResult (list HistoricCandle);
  ta_ema : list F -> Z -> PyResult F;
  ta_rsi : list F -> Z -> PyResult F;
  ta_atr : list F -> list F -> list F -> Z -> PyResult F;
  pd_columns : list (F * F * F * F * Z) -> PyResult DataFrame;
  pd_concat : list DataFrame -> PyResult DataFrame;
  pd_select : DataFrame -> list string -> PyResult DataFrame;
  pd_column : DataFrame -> string -> PyResult DataFrame;
  new_model : PyResult Model;
  fit : Model -> DataFrame -> DataFrame -> Model * option PyExc;
  score_pct : Model -> DataFrame -> DataFrame -> PyResult string;
  truth : Model -> PyResult bool;
  predict : Model -> list F -> PyResult Z;
  predict_proba : Model -> list F -> PyResult F;
  strftime : Time -> string;
  str_upper : string -> string
}.
Arguments World F Model DataFrame : clear implicits.

(** What [str.upper] gives on a text of ASCII characters: the letters a-z
    become A-Z, everything else stays.  It stands for [str_upper] in the
    worlds of the examples, whose texts are ASCII; on other texts
    [str.upper] differs from it (it maps the Cyrillic and the long s, for
    instance), which is why the engine takes [str_upper] from the world. *)
Definition ascii_upper_char (c : ascii) : ascii :=
  let n := nat_of_ascii c in
  if ((97 <=? n)%nat && (n <=? 122)%nat)%bool then ascii_of_nat (n - 32) else c.

Fixpoint ascii_upper (s : string) : string :=
  match s with
  | EmptyString => EmptyString
  | String c rest => String (ascii_upper_char c) (ascii_upper rest)
  end.

(** A coroutine object: the value of a call to an [async def] before it is
    awaited.  [await] runs it. *)
Inductive Coroutine (A : Type) : Type := coroutine (run : PyResult A).
Arguments coroutine {A} run.

Definition await {A} (c : Coroutine A) : PyResult A :=
  match c with coroutine run => run end.

(** [c[:n]] on a coroutine object.  In [await f()[:n]] the subscript binds
    tighter than [await] (the operand of [await] is a primary, and a slicing
    is a primary), and a coroutine object has no [__getitem__]. *)
Definition slice_coroutine {A} (c : Coroutine (list A)) (n : nat)
    : PyResult (Coroutine (list A)) :=
  Raise (TypeError "'coroutine' object is not subscriptable").

(** [xs[-1]]. *)
Definition last_item {A} (xs : list A) : PyResult A :=
  match last xs with
  | Some x => Ok x
  | None => Raise (IndexError "list index out of range")
  end.

(** The values of the dicts that [analyze] returns. *)
Inductive Value {F : Type} : Type :=
| VStr (s : string)
| VInt (n : Z)
| VFloat (x : F).
Arguments Value F : clear implicits.

(** The sort keys of [get_top_instruments]: a str taken from the dict, or
    the default, the int [0]. *)
Inductive SortKey : Type :=
| KStr (s : string)
| KInt (n : Z).

(** [a < b] on sort keys; str and int do not compare. *)
Definition key_lt (a b : SortKey) : PyResult bool :=
  match a, b with
  | KInt m, KInt n => Ok (Z.ltb m n)
  | KStr s, KStr t => Ok (match String.compare s t with Lt => true | _ => false end)
  | KStr _, KInt _ => Raise (TypeError "'<' not supported between instances of 'str' and 'int'")
  | KInt _, KStr _ => Raise (TypeError "'<' not supported between instances of 'int' and 'str'")
  end.

(** [sorted(xs, key=key, reverse=True)].  The sort is stable, also under
    [reverse=True]: elements whose keys are equal keep the order of [xs].
    [insert_desc x sorted] puts [x], which stood before every element of
    [sorted], behind the elements whose key is greater than its own. *)
Fixpoint insert_desc {A} (key : A -> SortKey) (x : A) (sorted : list A)
    : PyResult (list A) :=
  match sorted with
  | [] => Ok [x]
  | y :: rest =>
      match key_lt (key x) (key y) with
      | Raise e => Raise e
      | Ok true =>
          match insert_desc key x rest with
          | Raise e => Raise e
          | Ok rest' => Ok (y :: rest')
          end
      | Ok false => Ok (x :: y :: rest)
      end
  end.

Fixpoint sorted_desc {A} (key : A -> SortKey) (xs : list A) : PyResult (list A) :=
  match xs with
  | [] => Ok []
  | x :: rest =>
      match sorted_desc key rest with
      | Raise e => Raise e
      | Ok rest' => insert_desc key x rest'
      end
  end.

(* ===================================================================== *)
(** * MarketDataService: the two queries, and TradingEngine               *)
(* ===================================================================== *)

Section Engine.
Context {F Model DataFrame : Type} `{PyFloat F}.
Variable cfg : Config F.
Variable world : World F Model DataFrame.

(** The dict that [get_instruments] builds for a share: four keys. *)
Definition instrument_dict (item : Share) : gmap string string :=
  <["figi" := sh_figi item]>
    (<["ticker" := sh_ticker item]>
       (<["name" := sh_name item]>
          (<["type" := "акция"]> ∅))).

(** [MarketDataService.get_instruments]. *)
Definition get_instruments : PyResult (list (gmap string string)) :=
  match shares world with
  | Raise e => Raise e
  | Ok items => Ok (map instrument_dict items)
  end.

(** [MarketDataService.get_historical_candles]. *)
Definition get_historical_candles (figi : string) (days : Z) (interval : CandleInterval)
    : PyResult (list HistoricCandle) :=
  get_candles world figi days interval.

(** The attributes of a [TradingEngine] that its methods read or write, and
    the ghost record of what was logged.  [market] is used for its two
    queries only, which read no attribute of the service. *)
Record TradingEngine : Type := {
  ml_model : option Model;
  last_trained : option Time;
  positions : gmap string Z;
  eng_log : list LogRecord
}.

(** [__init__], before the task [_init_ml] runs. *)
Definition init_engine : TradingEngine :=
  {| ml_model := None; last_trained := None; positions := ∅; eng_log := [] |}.

Definition set_ml_model (m : option Model) (s : TradingEngine) : TradingEngine :=
  {| ml_model := m; last_trained := last_trained s; positions := positions s;
     eng_log := eng_log s |}.

Definition set_last_trained (t : option Time) (s : TradingEngine) : TradingEngine :=
  {| ml_model := ml_model s; last_trained := t; positions := positions s;
     eng_log := eng_log s |}.

Definition log_eng (lvl : LogLevel) (msg : string) (s : TradingEngine) : TradingEngine :=
  {| ml_model := ml_model s; last_trained := last_trained s; positions := positions s;
     eng_log := eng_log s ++ [{| levelname := lvl; message := msg |}] |}.

(** The row dicts of [_prepare_training_data], lines 156-162. *)
Definition training_row (c : HistoricCandle) : F * F * F * F * Z :=
  (_convert_quotation (c_open c), _convert_quotation (c_high c),
   _convert_quotation (c_low c), _convert_quotation (c_close c), c_volume c).

(** [_prepare_training_data]. *)
Definition _prepare_training_data (candles : list HistoricCandle) : PyResult DataFrame :=
  pd_columns world (map training_row candles).

(** Lines 131-138 of [train_model]: the frames of the instruments, in
    order. *)
Fixpoint training_frames (instruments : list (gmap string string))
    : PyResult (list DataFrame) :=
  match instruments with
  | [] => Ok []
  | instr :: rest =>
      match getitem instr "figi" with
      | Raise e => Raise e
      | Ok figi =>
          match get_historical_candles figi (ML_training_days cfg)
                  (ML_training_interval cfg) with
          | Raise e => Raise e
          | Ok candles =>
              match _prepare_training_data candles with
              | Raise e => Raise e
              | Ok df =>
                  match training_frames rest with
                  | Raise e => Raise e
                  | Ok dfs => Ok (df :: dfs)
                  end
              end
          end
      end
  end.

(** Lines 129-149 of [train_model]: what follows the assignment of
    [instruments]. *)
Definition train_on (now : Time) (instruments : list (gmap string string))
    : Eff TradingEngine unit :=
  (data <- lift (training_frames instruments) ;;
   full_data <- lift (pd_concat world data) ;;
   X <- lift (pd_select world full_data (ML_features cfg)) ;;
   y <- lift (pd_column world full_data "target") ;;
   m <- lift (new_model world) ;;
   modify (set_ml_model (Some m)) ;;;
   let fitted := fit world m X y in
   modify (set_ml_model (Some (fst fitted))) ;;;
   match snd fitted with
   | Some e => raise e
   | None =>
       modify (set_last_trained (Some now)) ;;;
       pct <- lift (score_pct world (fst fitted) X y) ;;
       modify (log_eng INFO ("✅ Модель обучена. Точность: " ++ pct))
   end)%eff.

(** The [try] block of [train_model], lines 127-149.  Line 128 is
    [await self.market.get_instruments()[:5]]: the call yields a coroutine
    object, the slice is taken of that object, and the result of the slice
    is what would be awaited. *)
Definition train_model_body (now : Time) : Eff TradingEngine unit :=
  (modify (log_eng INFO "🔄 Начало обучения модели...") ;;;
   instruments <- lift (match slice_coroutine (coroutine get_instruments) 5 with
                        | Raise e => Raise e
                        | Ok c => await c
                        end) ;;
   train_on now instruments)%eff.

(** [train_model]: no exception leaves it; a failure is logged. *)
Definition train_model (now : Time) : Eff TradingEngine unit :=
  try_except (train_model_body now)
    (fun e => modify (log_eng ERROR ("❌ Ошибка обучения: " ++ str_exc e))).

(** [_init_ml] never returns; this is its run over the clock readings of
    the trainings it has made so far (a sleep of [retrain_hours] hours
    separates two of them). *)
Fixpoint _init_ml (nows : list Time) : Eff TradingEngine unit :=
  match nows with
  | [] => ret tt
  | now :: rest => (train_model now ;;; _init_ml rest)%eff
  end.

(** The dict [analysis] of [_technical_analysis]; the key [ml_confidence] is
    the one that [analyze] may add. *)
Record Analysis : Type := {
  an_ema : F;
  an_rsi : F;
  an_atr : F;
  an_decision : string;
  an_stop_loss : F;
  an_take_profit : F;
  an_ml_confidence : option F
}.

(** [_technical_analysis]; the [0.0] that the dict display gives to
    [stop_loss] and [take_profit] is overwritten at lines 237-238. *)
Definition _technical_analysis (candles : list HistoricCandle) (params : Params)
    : PyResult Analysis :=
  let closes := map (fun c => _convert_quotation (c_close c)) candles in
  let highs := map (fun c => _convert_quotation (c_high c)) candles in
  let lows := map (fun c => _convert_quotation (c_low c)) candles in
  match ema params with
  | None => Raise (KeyError "ema")
  | Some n_ema =>
  match ta_ema world closes n_ema with
  | Raise e => Raise e
  | Ok v_ema =>
  match rsi params with
  | None => Raise (KeyError "rsi")
  | Some n_rsi =>
  match ta_rsi world closes n_rsi with
  | Raise e => Raise e
  | Ok v_rsi =>
  match atr params with
  | None => Raise (KeyError "atr")
  | Some n_atr =>
  match ta_atr world highs lows closes n_atr with
  | Raise e => Raise e
  | Ok v_atr =>
  match last_item closes with
  | Raise e => Raise e
  | Ok last_price =>
  match getitem (RISK_MANAGEMENT cfg) "stop_loss_multiplier" with
  | Raise e => Raise e
  | Ok sl_mult =>
  match getitem (RISK_MANAGEMENT cfg) "take_profit_multiplier" with
  | Raise e => Raise e
  | Ok tp_mult =>
      Ok {| an_ema := v_ema; an_rsi := v_rsi; an_atr := v_atr;
            an_decision := "Держать";
            an_stop_loss := f_sub last_price (f_mul v_atr sl_mult);
            an_take_profit := f_add last_price (f_mul v_atr tp_mult);
            an_ml_confidence := None |}
  end end end end end end end end end.

(** [features[k]] for the dict [features] of lines 194-199. *)
Definition feature (a : Analysis) (volume : Z) (k : string) : PyResult F :=
  if String.eqb k "ema" then Ok (an_ema a)
  else if String.eqb k "rsi" then Ok (an_rsi a)
  else if String.eqb k "atr" then Ok (an_atr a)
  else if String.eqb k "volume" then Ok (f_of_int volume)
  else Raise (KeyError k).

(** Lines 193-203 of [analyze] when [self.ml_model] is not [None]. *)
Definition ml_analysis (m : Model) (candles : list HistoricCandle) (a : Analysis)
    : PyResult Analysis :=
  match truth world m with
  | Raise e => Raise e
  | Ok false => Ok a
  | Ok true =>
  match last_item candles with
  | Raise e => Raise e
  | Ok c =>
  match comprehension (feature a (c_volume c)) (ML_features cfg) with
  | Raise e => Raise e
  | Ok row =>
  match predict world m row with
  | Raise e => Raise e
  | Ok ml_pred =>
  match predict_proba world m row with
  | Raise e => Raise e
  | Ok proba =>
      Ok {| an_ema := an_ema a; an_rsi := an_rsi a; an_atr := an_atr a;
            an_decision := if Z.eqb ml_pred 1 then "Покупать" else "Продавать";
            an_stop_loss := an_stop_loss a;
            an_take_profit := an_take_profit a;
            an_ml_confidence := Some (f_mul proba (f_of_int 100)) |}
  end end end end end.

(** [next(i for i in instruments if i["ticker"] == ticker)]. *)
Fixpoint next_match (instruments : list (gmap string string)) (ticker : string)
    : PyResult (gmap string string) :=
  match instruments with
  | [] => Raise StopIteration
  | i :: rest =>
      match getitem i "ticker" with
      | Raise e => Raise e
      | Ok t => if String.eqb t ticker then Ok i else next_match rest ticker
      end
  end.

(** [Config.STRATEGY_PARAMS[mode]]. *)
Definition strategy_params (mode : string) : PyResult Params :=
  match STRATEGY_PARAMS cfg with
  | None => Raise (AttributeError "type object 'Config' has no attribute 'STRATEGY_PARAMS'")
  | Some table => getitem table mode
  end.

(** The dict returned at lines 206-214. *)
Definition result_dict (ticker : string) (a : Analysis) (price : F) (now : Time)
    : gmap string (Value F) :=
  <["ticker" := VStr (str_upper world ticker)]>
    (<["decision" := VStr (an_decision a)]>
       (<["confidence" := match an_ml_confidence a with
                          | Some x => VFloat x
                          | None => VInt 0
                          end]>
          (<["price" := VFloat price]>
             (<["stop_loss" := VFloat (an_stop_loss a)]>
                (<["take_profit" := VFloat (an_take_profit a)]>
                   (<["timestamp" := VStr (strftime world now)]> ∅)))))).

(** The dict returned at line 218. *)
Definition error_dict (e : PyExc) : gmap string (Value F) :=
  <["error" := VStr (str_exc e)]> ∅.

(** The [try] block of [analyze], lines 174-214. *)
Definition analyze_body (ticker mode : string) (now : Time)
    : Eff TradingEngine (gmap string (Value F)) :=
  (instruments <- lift (await (coroutine get_instruments)) ;;
   instrument <- lift (next_match instruments (str_upper world ticker)) ;;
   params <- lift (strategy_params mode) ;;
   figi <- lift (getitem instrument "figi") ;;
   n_days <- lift (match days params with
                   | Some d => Ok d | None => Raise (KeyError "days") end) ;;
   ival <- lift (match interval params with
                 | Some i => Ok i | None => Raise (KeyError "interval") end) ;;
   candles <- lift (get_historical_candles figi n_days ival) ;;
   needed <- lift (match min_candles params with
                   | Some n => Ok n | None => Raise (KeyError "min_candles") end) ;;
   if Z.ltb (Z.of_nat (length candles)) needed
   then raise (ValueError "Недостаточно данных")
   else
     analysis <- lift (_technical_analysis candles params) ;;
     s <- get ;;
     analysis' <- lift (match ml_model s with
                        | None => Ok analysis
                        | Some m => ml_analysis m candles analysis
                        end) ;;
     c <- lift (last_item candles) ;;
     ret (result_dict ticker analysis' (_convert_quotation (c_close c)) now))%eff.

(** [analyze]: no exception leaves it; a failure is logged and returned as
    a dict with the single key [error]. *)
Definition analyze (ticker mode : string) (now : Time)
    : Eff TradingEngine (gmap string (Value F)) :=
  try_except (analyze_body ticker mode now)
    (fun e =>
       modify (log_eng ERROR ("Ошибка анализа: " ++ str_exc e)) ;;;
       ret (error_dict e))%eff.

(** [x.get("volume", 0)]. *)
Definition volume_key (x : gmap string string) : SortKey :=
  match x !! "volume" with
  | Some v => KStr v
  | None => KInt 0
  end.

(** [get_top_instruments]; it has no [try], an exception leaves it. *)
Definition get_top_instruments : PyResult (list (gmap string string)) :=
  match await (coroutine get_instruments) with
  | Raise e => Raise e
  | Ok instruments =>
      match sorted_desc volume_key instruments with
      | Raise e => Raise e
      | Ok l => Ok (take 5 l)
      end
  end.

End Engine.

(* ===================================================================== *)
(** * config.py as it is, and an exact arithmetic for examples           *)
(* ===================================================================== *)

(** The class [Config] of config.py: it has no attribute [STRATEGY_PARAMS]
    and its [RISK_MANAGEMENT] has the three keys below. *)
Definition shipped_config {F} `{PyFloat F} : Config F :=
  {| ML_features := ["ema"; "rsi"; "atr"; "volume"];
     ML_training_days := 30;
     ML_training_interval := CANDLE_INTERVAL_HOUR;
     ML_retrain_hours := 6;
     STREAMING_ws_url := "wss://api-invest.tinkoff.ru/openapi/md/v1/md-openapi/ws";
     STREAMING_depth := 10;
     STREAMING_max_subscriptions := 50;
     STREAMING_reconnect_timeout := 5;
     STRATEGY_PARAMS := None;
     RISK_MANAGEMENT :=
       <["max_daily_loss" := f_of_int 2]>
         (<["position_size" := f_div (f_of_int 3) (f_of_int 2)]>
            (<["slippage" := f_div (f_of_int 1) (f_of_int 10)]> ∅)) |}.

(** Rational numbers as an arithmetic without rounding, to run the
    definitions on examples. *)
#[export] Instance Q_float : PyFloat Q :=
  {| f_of_int := inject_Z; f_add := Qplus; f_sub := Qminus; f_mul := Qmult;
     f_div := Qdiv; f_1e9 := inject_Z 1000000000 |}.

(* ===================================================================== *)
(** * The indicators of the feature step                                 *)
(* ===================================================================== *)

Module FeatureEngine.
Local Open Scope Q_scope.

(** Modelled from the spec: the feature step of the code,
    [_technical_analysis], takes RSI and ATR from [ta.rsi] and [ta.atr] of
    pandas_ta, whose source is not in the repository.  The definitions below
    follow section 4.4 of the specification, over the rational numbers. *)
Record Candle : Type := {
  openTime : Z;
  open : Q;
  high : Q;
  low : Q;
  close : Q;
  volume : Q
}.

(** Modelled from the spec: an indicator is computed, or the candles are
    too few ("fewer candles => InsufficientData failure"). *)
Inductive Outcome : Type :=
| Computed (value : Q)
| InsufficientData.

(** Modelled from the spec: the gain of a close against the previous one. *)
Definition gain (prev cur : Q) : Q := if Qle_bool prev cur then cur - prev else 0.

(** Modelled from the spec: the loss of a close against the previous one. *)
Definition loss (prev cur : Q) : Q := if Qle_bool prev cur then 0 else prev - cur.

(** [f] on each element and its successor. *)
Fixpoint pairwise {A B} (f : A -> A -> B) (xs : list A) : list B :=
  match xs with
  | a :: rest => match rest with
                 | b :: _ => f a b :: pairwise f rest
                 | [] => []
                 end
  | [] => []
  end.

Definition Qsum (xs : list Q) : Q := fold_right Qplus 0 xs.

(** Modelled from the spec: the simple average. *)
Definition mean (xs : list Q) : Q := Qsum xs / inject_Z (Z.of_nat (length xs)).

(** Modelled from the spec: Wilder's smoothed average over [n] periods, the
    simple average of the first [n] values, then
    [avg := (avg * (n - 1) + x) / n] for each later value [x]. *)
Definition wilder (n : nat) (xs : list Q) : Q :=
  fold_left
    (fun avg x => (avg * (inject_Z (Z.of_nat n) - 1) + x) / inject_Z (Z.of_nat n))
    (drop n xs) (mean (take n xs)).

(** Modelled from the spec: "Wilder's smoothed average gain/loss over
    [length] periods", the gains. *)
Definition avg_gain (n : nat) (candles : list Candle) : Q :=
  wilder n (pairwise gain (map close candles)).

(** Modelled from the spec: the same average of the losses. *)
Definition avg_loss (n : nat) (candles : list Candle) : Q :=
  wilder n (pairwise loss (map close candles)).

(** Modelled from the spec: "RSI = 100 - 100/(1+avgGain/avgLoss);
    avgLoss=0 => RSI=100", and "at least length+1 candles; fewer candles =>
    InsufficientData". *)
Definition rsi (n : nat) (candles : list Candle) : Outcome :=
  if (length candles <? n + 1)%nat then InsufficientData
  else if Qeq_bool (avg_loss n candles) 0 then Computed 100
  else Computed (100 - 100 / (1 + avg_gain n candles / avg_loss n candles)).

Definition Qmax (a b : Q) : Q := if Qle_bool a b then b else a.

(** Modelled from the spec: "true range = max(high-low, |high-prevClose|,
    |low-prevClose|)". *)
Definition true_range (prev c : Candle) : Q :=
  Qmax (high c - low c)
    (Qmax (Qabs (high c - close prev)) (Qabs (low c - close prev))).

(** Modelled from the spec: "ATR(length): Wilder-smoothed average of true
    range". *)
Definition atr (n : nat) (candles : list Candle) : Outcome :=
  if (length candles <? n + 1)%nat then InsufficientData
  else Computed (wilder n (pairwise true_range candles)).

End FeatureEngine.

(* ===================================================================== *)
(** * Data of the examples                                               *)
(* ===================================================================== *)

Definition sber : string := "BBG004730N88".
Definition gazp : string := "BBG004730RP0".

(** An update for [sber]: one bid at 250.5, one ask at 251. *)
Definition sber_update : Payload :=
  {| p_figi := Some sber;
     p_bids := Some (levels_of [({| units := 250; nano := 500000000 |}, 10)]);
     p_asks := Some (levels_of [({| units := 251; nano := 0 |}, 7)]) |}.

Definition sber_snapshot : @OrderBookEntry Q :=
  {| bids := [(_convert_quotation {| units := 250; nano := 500000000 |}, 10)];
     asks := [(_convert_quotation {| units := 251; nano := 0 |}, 7)];
     timestamp := 1700000000 |}.

(** A service subscribed to two instruments, not yet connected. *)
Definition two_subscriptions : @MarketDataService Q :=
  set_subscriptions (fun _ => {[sber; gazp]}) init_service.

Definition peer : WebSocket :=
  {| ws_id := 1; send_credit := None; inbox := []; read_error := None |}.

(** 51 figis, all different. *)
Definition figis51 : list string :=
  map (fun n => String (ascii_of_nat n) EmptyString) (seq 40 51).

Definition sber_share : Share :=
  {| sh_figi := sber; sh_ticker := "SBER"; sh_name := "Sberbank" |}.
Definition gazp_share : Share :=
  {| sh_figi := gazp; sh_ticker := "GAZP"; sh_name := "Gazprom" |}.

Definition flat_candle : HistoricCandle :=
  {| c_open := {| units := 250; nano := 0 |};
     c_high := {| units := 252; nano := 500000000 |};
     c_low := {| units := 249; nano := 0 |};
     c_close := {| units := 251; nano := 0 |};
     c_volume := 1000 |}.

(** A profile table as [analyze] expects it, and the two multipliers. *)
Definition demo_config : Config Q :=
  {| ML_features := ["ema"; "rsi"; "atr"; "volume"];
     ML_training_days := 30;
     ML_training_interval := CANDLE_INTERVAL_HOUR;
     ML_retrain_hours := 6;
     STREAMING_ws_url := "wss://api-invest.tinkoff.ru/openapi/md/v1/md-openapi/ws";
     STREAMING_depth := 10;
     STREAMING_max_subscriptions := 50;
     STREAMING_reconnect_timeout := 5;
     STRATEGY_PARAMS :=
       Some (<["short_term" := {| days := Some 1;
                                  interval := Some CANDLE_INTERVAL_5_MIN;
                                  min_candles := Some 72;
                                  ema := Some 9; rsi := Some 14; atr := Some 14 |}]> ∅);
     RISK_MANAGEMENT :=
       <["stop_loss_multiplier" := inject_Z 2]>
         (<["take_profit_multiplier" := inject_Z 3]> ∅) |}.

(** A world in which the directory lists two shares, the history of the
    first has 3 candles and that of the second 72, the indicators are
    constants, and the classifier can be fitted. *)
Definition demo_world : World Q bool unit :=
  {| shares := Ok [sber_share; gazp_share];
     get_candles := fun figi _ _ =>
       if String.eqb figi sber then Ok (repeat flat_candle 3)
       else Ok (repeat flat_candle 72);
     ta_ema := fun _ _ => Ok (inject_Z 250);
     ta_rsi := fun _ _ => Ok (inject_Z 55);
     ta_atr := fun _ _ _ _ => Ok (inject_Z 4);
     pd_columns := fun _ => Ok tt;
     pd_concat := fun _ => Ok tt;
     pd_select := fun _ _ => Ok tt;
     pd_column := fun _ _ => Ok tt;
     new_model := Ok false;
     fit := fun _ _ _ => (true, None);
     score_pct := fun _ _ _ => Ok "97.50%";
     truth := fun _ => Ok true;
     predict := fun _ _ => Ok 1;
     predict_proba := fun _ _ => Ok (7 # 10);
     strftime := fun _ => "2023-11-14 22:13";
     str_upper := ascii_upper |}.

Definition demo_engine : @TradingEngine bool := init_engine.

Definition demo_profile : Params :=
  {| days := Some 1; interval := Some CANDLE_INTERVAL_5_MIN; min_candles := Some 72;
     ema := Some 9; rsi := Some 14; atr := Some 14 |}.

(** What [_technical_analysis] gives on the 72 candles of the example. *)
Definition demo_analysis : @Analysis Q :=
  {| an_ema := inject_Z 250; an_rsi := inject_Z 55; an_atr := inject_Z 4;
     an_decision := "Держать";
     an_stop_loss := f_sub (_convert_quotation (c_close flat_candle))
                       (f_mul (inject_Z 4) (inject_Z 2));
     an_take_profit := f_add (_convert_quotation (c_close flat_candle))
                         (f_mul (inject_Z 4) (inject_Z 3));
     an_ml_confidence := None |}.

(** An engine whose model is set. *)
Definition trained_engine : @TradingEngine bool :=
  set_ml_model (Some true) init_engine.

Definition demo_result : gmap string (Value Q) :=
  match fst (analyze demo_config demo_world "gazp" "short_term" 1700000000
               trained_engine) with
  | Ok d => d
  | Raise _ => ∅
  end.

(** A directory that lists a ticker in mixed case. *)
Definition mixed_case_world : World Q bool unit :=
  {| shares := Ok [{| sh_figi := sber; sh_ticker := "Sber"; sh_name := "Sberbank" |}];
     get_candles := get_candles demo_world;
     ta_ema := ta_ema demo_world; ta_rsi := ta_rsi demo_world;
     ta_atr := ta_atr demo_world;
     pd_columns := pd_columns demo_world; pd_concat := pd_concat demo_world;
     pd_select := pd_select demo_world; pd_column := pd_column demo_world;
     new_model := new_model demo_world; fit := fit demo_world;
     score_pct := score_pct demo_world; truth := truth demo_world;
     predict := predict demo_world; predict_proba := predict_proba demo_world;
     strftime := strftime demo_world;
     str_upper := str_upper demo_world |}.

Definition rising : list FeatureEngine.Candle :=
  map (fun k => {| FeatureEngine.openTime := k; FeatureEngine.open := inject_Z k;
                   FeatureEngine.high := inject_Z (k + 2);
                   FeatureEngine.low := inject_Z (k - 1);
                   FeatureEngine.close := inject_Z (k + 1);
                   FeatureEngine.volume := 10 |}) [1; 2; 3; 4]%Z.

Definition zigzag : list FeatureEngine.Candle :=
  map (fun kc => {| FeatureEngine.openTime := fst kc; FeatureEngine.open := snd kc;
                    FeatureEngine.high := snd kc + 1;
                    FeatureEngine.low := snd kc - 1;
                    FeatureEngine.close := snd kc;
                    FeatureEngine.volume := 10 |})
    [(1%Z, 1%Q); (2%Z, 2%Q); (3%Z, 1%Q); (4%Z, 2%Q)].

(* ===================================================================== *)
(** * Predicates on the state of the service                             *)
(* ===================================================================== *)

Section MarketPredicates.
Context {F : Type} `{PyFloat F}.
Variable cfg : Config F.

(** Every frame written so far is the subscribe frame of a figi that is
    subscribed. *)
Definition wire_ok (s : @MarketDataService F) : Prop :=
  Forall (fun wf => snd wf = subscribe_frame cfg (fr_figi (snd wf))
                    /\ fr_figi (snd wf) ∈ subscriptions s) (wire s).

(** [self.ws] is a websocket that takes no more frames. *)
Definition ws_closed (s : @MarketDataService F) : Prop :=
  exists w, ws s = Some w /\ send_credit w = Some O.

(** A frame of an event other than "orderbook". *)
Definition other_event (tm : Time * Message) : Prop :=
  exists ev payload, snd tm = Decoded (Some ev) payload /\ ev <> "orderbook".

(** [self.ws], once set, is set afterwards. *)
Definition ws_kept (s s' : @MarketDataService F) : Prop :=
  is_Some (ws s) -> is_Some (ws s').

(** Between [s] and [s'] the candles cache, the subscription set, the log
    and the sleeps are the same. *)
Definition quiet (s s' : @MarketDataService F) : Prop :=
  candles_cache s' = candles_cache s /\ subscriptions s' = subscriptions s
  /\ svc_log s' = svc_log s /\ slept s' = slept s.

(** A frame that [handle_message] handles without an exception: it has an
    event, and if the event is "orderbook" it has a payload with a figi from
    which a snapshot can be built. *)
Definition well_formed (tm : Time * Message) : Prop :=
  exists ev payload,
    snd tm = Decoded (Some ev) payload
    /\ (ev = "orderbook" ->
        exists data f snap,
          payload = Some data /\ p_figi data = Some f
          /\ build_snapshot data (fst tm) = Ok (snap : @OrderBookEntry F)).

(** The exceptions that left the [try] blocks of a run of
    [start_streaming], one for each turn whose block raised, in the order
    of the turns; each turn starts from the state the turn before has
    left. *)
Fixpoint turn_failures (attempts : list Attempt) (s : @MarketDataService F)
    : list PyExc :=
  match attempts with
  | [] => []
  | a :: rest =>
      match fst (streaming_try cfg a s) with
      | Raise e => e :: turn_failures rest (snd (streaming_turn cfg a s))
      | Ok _ => turn_failures rest (snd (streaming_turn cfg a s))
      end
  end.

(** The levels of an update are values decoded from JSON: none is an object
    with the attribute [price]. *)
Definition json_levels (ls : list Level) : Prop :=
  Forall (fun l => l = LevelPlain) ls.

End MarketPredicates.

(* ===================================================================== *)
(** * Runs of the engine                                                 *)
(* ===================================================================== *)

Section EngineRuns.
Context {F Model DataFrame : Type} `{PyFloat F}.
Variable cfg : Config F.

(** What the process does with its engine: the task [_init_ml] trains, the
    handlers analyze.  Each call meets the world as it is at that time. *)
Inductive EngineCall : Type :=
| CallTrain (world : World F Model DataFrame) (now : Time)
| CallAnalyze (world : World F Model DataFrame) (ticker mode : string) (now : Time).

Definition run_engine_call (s : @TradingEngine Model) (c : EngineCall)
    : @TradingEngine Model :=
  match c with
  | CallTrain world now => snd (train_model cfg world now s)
  | CallAnalyze world ticker mode now => snd (analyze cfg world ticker mode now s)
  end.

(** The engine after the calls, made one after the other on the engine
    that [__init__] leaves. *)
Definition engine_after (calls : list EngineCall) : @TradingEngine Model :=
  fold_left run_engine_call calls init_engine.

(** The keys of a result of [analyze]. *)
Definition result_keys : gset string :=
  {["ticker"; "decision"; "confidence"; "price"; "stop_loss"; "take_profit";
    "timestamp"]}.

End EngineRuns.

(* ===================================================================== *)
(** * handlers.py                                                        *)
(* ===================================================================== *)

From Stdlib Require Import DecimalString.

(** [UserState]; the state of a chat is one of these or [None]. *)
Inductive UserState : Type := AWAIT_TICKER | AWAIT_MODE.

(** [ReplyKeyboardMarkup]: rows of button texts and the two options used. *)
Record Keyboard : Type := {
  keyboard : list (list string);
  resize_keyboard : bool;
  input_field_placeholder : option string
}.

(** [main_keyboard()]. *)
Definition main_keyboard : Keyboard :=
  {| keyboard := [["📊 Анализ инструмента"]; ["📈 Топовые инструменты"];
                  ["🔄 Сменить режим"]];
     resize_keyboard := true;
     input_field_placeholder := Some "Выберите действие" |}.

(** [mode_keyboard()]. *)
Definition mode_keyboard : Keyboard :=
  {| keyboard := [["Краткосрочный (1 час)"]; ["Долгосрочный (1 день)"]];
     resize_keyboard := true;
     input_field_placeholder := None |}.

(** The keyboard built in [analyze_instrument]. *)
Definition back_keyboard : Keyboard :=
  {| keyboard := [["↩️ Назад"]];
     resize_keyboard := true;
     input_field_placeholder := None |}.

(** A message sent by [message.answer(text, reply_markup=...)]. *)
Record Answer : Type := { ans_text : string; ans_markup : Keyboard }.

(** The line feed of the string literals. *)
Definition nl : string := String (ascii_of_nat 10) EmptyString.

(** [needle in hay] on strings. *)
Fixpoint contains (needle hay : string) : bool :=
  if String.prefix needle hay then true
  else match hay with
       | EmptyString => false
       | String _ rest => contains needle rest
       end.

(** [str(n)] for an int. *)
Definition str_int (n : Z) : string := NilZero.string_of_int (Z.to_int n).

Definition failure_text : string := "❌ Инструмент не найден или недостаточно данных".

(** The line of [top_instruments] for the share at rank [n]. *)
Definition top_line (n : nat) (item : Share) : string :=
  (NilZero.string_of_uint (Nat.to_uint n) ++ ". " ++ sh_ticker item
   ++ " (" ++ sh_name item ++ ")")%string.

(** The lines of [top_instruments] for shares ranked from [n] on. *)
Fixpoint top_lines_from (n : nat) (items : list Share) : list string :=
  match items with
  | [] => []
  | item :: rest => top_line n item :: top_lines_from (S n) rest
  end.

Section Handlers.
Context {F Model DataFrame : Type} `{PyFloat F}.
Variable cfg : Config F.

(** What Python and Telegram answer to the handlers: [str_float x] is
    [str(x)] and [format_2f x] is [format(x, ".2f")] for a float [x];
    [telegram k] is the exception that the [k]-th call of [message.answer]
    of the process raises, if it raises. *)
Variable str_float : F -> string.
Variable format_2f : F -> string.
Variable telegram : nat -> option PyExc.

(** What a handler works on: the [FSMContext] of the chat (its state and
    its data), the engine [trading_engine] of the module, and the ghost
    record of the answers delivered, the calls of [answer] made, and the
    records logged by the module. *)
Record Bot : Type := {
  fsm_state : option UserState;
  fsm_data : gmap string string;
  trading_engine : @TradingEngine Model;
  answers : list Answer;
  answer_calls : nat;
  bot_log : list LogRecord
}.

(** [state.clear()]: the state and the data of the chat are reset. *)
Definition state_clear : Eff Bot unit :=
  modify (fun b => {| fsm_state := None; fsm_data := ∅;
                      trading_engine := trading_engine b; answers := answers b;
                      answer_calls := answer_calls b; bot_log := bot_log b |}).

(** [state.set_state(st)]. *)
Definition state_set_state (st : UserState) : Eff Bot unit :=
  modify (fun b => {| fsm_state := Some st; fsm_data := fsm_data b;
                      trading_engine := trading_engine b; answers := answers b;
                      answer_calls := answer_calls b; bot_log := bot_log b |}).

(** [state.update_data(key=value)]. *)
Definition state_update_data (key value : string) : Eff Bot unit :=
  modify (fun b => {| fsm_state := fsm_state b; fsm_data := <[key := value]> (fsm_data b);
                      trading_engine := trading_engine b; answers := answers b;
                      answer_calls := answer_calls b; bot_log := bot_log b |}).

(** [message.answer(text, reply_markup=markup)]. *)
Definition answer (text : string) (markup : Keyboard) : Eff Bot unit :=
  fun b =>
    let b' := {| fsm_state := fsm_state b; fsm_data := fsm_data b;
                 trading_engine := trading_engine b; answers := answers b;
                 answer_calls := S (answer_calls b); bot_log := bot_log b |} in
    match telegram (answer_calls b) with
    | Some e => (Raise e, b')
    | None =>
        (Ok tt, {| fsm_state := fsm_state b; fsm_data := fsm_data b;
                   trading_engine := trading_engine b;
                   answers := answers b ++ [{| ans_text := text; ans_markup := markup |}];
                   answer_calls := S (answer_calls b); bot_log := bot_log b |})
    end.

(** [logger.error(msg)] of the module. *)
Definition log_bot (msg : string) : Eff Bot unit :=
  modify (fun b => {| fsm_state := fsm_state b; fsm_data := fsm_data b;
                      trading_engine := trading_engine b; answers := answers b;
                      answer_calls := answer_calls b;
                      bot_log := bot_log b ++ [{| levelname := ERROR; message := msg |}] |}).

(** A method of [trading_engine], run from a handler. *)
Definition on_engine {A} (c : Eff (@TradingEngine Model) A) : Eff Bot A :=
  fun b =>
    match c (trading_engine b) with
    | (r, e') => (r, {| fsm_state := fsm_state b; fsm_data := fsm_data b;
                        trading_engine := e'; answers := answers b;
                        answer_calls := answer_calls b; bot_log := bot_log b |})
    end.

(** [cmd_start]. *)
Definition cmd_start : Eff Bot unit :=
  (state_clear ;;;
   answer ("🤖 Добро пожаловать в торгового бота!" ++ nl
           ++ "Используйте кнопки ниже для навигации:")%string main_keyboard)%eff.

(** [analyze_instrument]. *)
Definition analyze_instrument : Eff Bot unit :=
  (state_set_state AWAIT_TICKER ;;;
   answer "Введите тикер инструмента (например: SBER):" back_keyboard)%eff.

(** [f"{idx + 1}. {item['ticker']} ({item['name']})"] for the items from
    index [idx] on. *)
Fixpoint top_lines (idx : nat) (items : list (gmap string string))
    : PyResult (list string) :=
  match items with
  | [] => Ok []
  | item :: rest =>
      match getitem item "ticker" with
      | Raise e => Raise e
      | Ok ticker =>
          match getitem item "name" with
          | Raise e => Raise e
          | Ok name =>
              match top_lines (S idx) rest with
              | Raise e => Raise e
              | Ok lines =>
                  Ok ((NilZero.string_of_uint (Nat.to_uint (idx + 1)) ++ ". " ++ ticker
                       ++ " (" ++ name ++ ")")%string :: lines)
              end
          end
      end
  end.

(** [top_instruments]. *)
Definition top_instruments (world : World F Model DataFrame) : Eff Bot unit :=
  try_except
    (instruments <- lift (get_top_instruments world) ;;
     lines <- lift (top_lines 0 instruments) ;;
     answer ("📈 Топ-5 инструментов:" ++ nl ++ String.concat nl lines)%string
       main_keyboard)%eff
    (fun e =>
       log_bot (str_exc e) ;;;
       answer "⚠️ Ошибка получения данных" main_keyboard)%eff.

(** [change_mode]. *)
Definition change_mode : Eff Bot unit :=
  (state_set_state AWAIT_MODE ;;;
   answer "Выберите режим анализа:" mode_keyboard)%eff.

(** [process_mode]; [text] is [message.text], [None] for a message without
    text. *)
Definition process_mode (text : option string) : Eff Bot unit :=
  match text with
  | None => raise (TypeError "argument of type 'NoneType' is not iterable")
  | Some t =>
      let mode := if contains "Краткосрочный" t then "short_term" else "long_term" in
      (state_update_data "mode" mode ;;;
       answer ("✅ Режим изменён на: " ++ t)%string main_keyboard ;;;
       state_clear)%eff
  end.

(** [f"{v}"] for a value of the dict of [analyze]. *)
Definition format_plain (v : Value F) : string :=
  match v with
  | VStr s => s
  | VInt n => str_int n
  | VFloat x => str_float x
  end.

(** [f"{v:.2f}"]. *)
Definition format_fixed (v : Value F) : PyResult string :=
  match v with
  | VStr _ => Raise (ValueError "Unknown format code 'f' for object of type 'str'")
  | VInt n => Ok (str_int n ++ ".00")%string
  | VFloat x => Ok (format_2f x)
  end.

(** The string [response] of [process_ticker], lines 118-125. *)
Definition format_response (ticker mode : string) (analysis : gmap string (Value F))
    : PyResult string :=
  match getitem analysis "decision" with
  | Raise e => Raise e
  | Ok decision =>
  match getitem analysis "confidence" with
  | Raise e => Raise e
  | Ok confidence =>
  match getitem analysis "price" with
  | Raise e => Raise e
  | Ok price =>
  match format_fixed price with
  | Raise e => Raise e
  | Ok price_text =>
  match getitem analysis "stop_loss" with
  | Raise e => Raise e
  | Ok stop_loss =>
  match format_fixed stop_loss with
  | Raise e => Raise e
  | Ok stop_text =>
  match getitem analysis "take_profit" with
  | Raise e => Raise e
  | Ok take_profit =>
  match format_fixed take_profit with
  | Raise e => Raise e
  | Ok take_text =>
      Ok ("📊 Анализ " ++ ticker ++ " ("
          ++ (if String.eqb mode "short_term" then "Краткосрочный" else "Долгосрочный")
          ++ "):" ++ nl
          ++ "• Рекомендация: " ++ format_plain decision ++ nl
          ++ "• Уверенность: " ++ format_plain confidence ++ "%" ++ nl
          ++ "• Цена: " ++ price_text ++ " RUB" ++ nl
          ++ "• Стоп-лосс: " ++ stop_text ++ nl
          ++ "• Тейк-профит: " ++ take_text)%string
  end end end end end end end end.

(** [user_data.get("mode", "short_term")]. *)
Definition stored_mode (user_data : gmap string string) : string :=
  match user_data !! "mode" with
  | Some mode => mode
  | None => "short_term"
  end.

(** [message.text.upper()]. *)
Definition text_upper (world : World F Model DataFrame) (text : option string)
    : PyResult string :=
  match text with
  | Some t => Ok (str_upper world t)
  | None => Raise (AttributeError "'NoneType' object has no attribute 'upper'")
  end.

(** [process_ticker]. *)
Definition process_ticker (world : World F Model DataFrame) (text : option string)
    (now : Time) : Eff Bot unit :=
  if match text with
     | Some t => String.eqb t "↩️ Назад"
     | None => false
     end
  then (state_clear ;;; answer "Главное меню:" main_keyboard)%eff
  else
    (b <- get ;;
     let mode := stored_mode (fsm_data b) in
     try_except
       (ticker <- lift (text_upper world text) ;;
        analysis <- on_engine (analyze cfg world ticker mode now) ;;
        ticker' <- lift (text_upper world text) ;;
        response <- lift (format_response ticker' mode analysis) ;;
        answer response main_keyboard ;;;
        state_clear)
       (fun e =>
          log_bot ("Ошибка анализа: " ++ str_exc e)%string ;;;
          answer failure_text main_keyboard ;;;
          state_clear))%eff.

(** [back_handler]. *)
Definition back_handler : Eff Bot unit :=
  (state_clear ;;; answer "Главное меню:" main_keyboard)%eff.

(** A message that reaches a handler; the filter of [process_mode] lets
    pass messages with a text only. *)
Inductive HandlerCall : Type :=
| CallStart
| CallAnalyzeInstrument
| CallTopInstruments (world : World F Model DataFrame)
| CallChangeMode
| CallProcessMode (text : string)
| CallProcessTicker (world : World F Model DataFrame) (text : option string) (now : Time)
| CallBack.

Definition run_handler (c : HandlerCall) : Eff Bot unit :=
  match c with
  | CallStart => cmd_start
  | CallAnalyzeInstrument => analyze_instrument
  | CallTopInstruments world => top_instruments world
  | CallChangeMode => change_mode
  | CallProcessMode text => process_mode (Some text)
  | CallProcessTicker world text now => process_ticker world text now
  | CallBack => back_handler
  end.

End Handlers.

Section HandlerRuns.
Context {F Model DataFrame : Type} `{PyFloat F}.
Variable cfg : Config F.
Variable str_float : F -> string.
Variable format_2f : F -> string.
Variable telegram : nat -> option PyExc.

(** The chat and the engine after the handlers have run on the messages,
    one after the other; an exception that leaves a handler is the
    dispatcher's to log. *)
Definition bot_after (calls : list (@HandlerCall F Model DataFrame)) (b : @Bot Model)
    : @Bot Model :=
  fold_left (fun b c => snd (run_handler cfg str_float format_2f telegram c b)) calls b.

End HandlerRuns.

(* ===================================================================== *)
(** * More data of the examples                                          *)
(* ===================================================================== *)

Definition lkoh : string := "BBG004731032".

(** The service of the example, connected to [peer]. *)
Definition connected_service : @MarketDataService Q :=
  set_ws (Some peer) two_subscriptions.

(** An update for [gazp]. *)
Definition gazp_update : Payload :=
  {| p_figi := Some gazp;
     p_bids := Some (levels_of [({| units := 160; nano := 0 |}, 5)]);
     p_asks := Some (levels_of []) |}.

(** A later update for [sber]. *)
Definition sber_update2 : Payload :=
  {| p_figi := Some sber;
     p_bids := Some (levels_of [({| units := 249; nano := 0 |}, 3)]);
     p_asks := Some (levels_of [({| units := 252; nano := 0 |}, 4)]) |}.

(** The update for [sber] as [json.loads] gives it: its levels are not
    objects. *)
Definition sber_update_json : Payload :=
  {| p_figi := Some sber; p_bids := Some [LevelPlain]; p_asks := Some [LevelPlain] |}.

(** An update for [sber] with no level on either side. *)
Definition sber_update_empty : Payload :=
  {| p_figi := Some sber; p_bids := Some []; p_asks := Some [] |}.

(** A connection that delivers a heartbeat, an update for [gazp], an update
    decoded from JSON, and a last update. *)
Definition noisy_peer : WebSocket :=
  {| ws_id := 2; send_credit := None;
     inbox := [(1700000001, Decoded (Some "ping") None);
               (1700000002, Decoded (Some "orderbook") (Some gazp_update));
               (1700000003, Decoded (Some "orderbook") (Some sber_update_json));
               (1700000004, Decoded (Some "orderbook") (Some sber_update))];
     read_error := None |}.

(** A connection that delivers frames that are handled, and is closed. *)
Definition tidy_peer : WebSocket :=
  {| ws_id := 3; send_credit := None;
     inbox := [(1700000001, Decoded (Some "ping") None);
               (1700000002, Decoded (Some "orderbook") (Some gazp_update))];
     read_error := None |}.

(** A world whose classifier cannot be fitted. *)
Definition unfit_world : World Q bool unit :=
  {| shares := shares demo_world;
     get_candles := get_candles demo_world;
     ta_ema := ta_ema demo_world; ta_rsi := ta_rsi demo_world;
     ta_atr := ta_atr demo_world;
     pd_columns := pd_columns demo_world; pd_concat := pd_concat demo_world;
     pd_select := pd_select demo_world; pd_column := pd_column demo_world;
     new_model := new_model demo_world;
     fit := fun m _ _ => (m, Some (ValueError "Unknown label type"));
     score_pct := score_pct demo_world; truth := truth demo_world;
     predict := predict demo_world; predict_proba := predict_proba demo_world;
     strftime := strftime demo_world;
     str_upper := str_upper demo_world |}.


(** A world whose directory cannot be listed. *)
Definition offline_world : World Q bool unit :=
  {| shares := Raise (ExternalError "UNAVAILABLE");
     get_candles := get_candles demo_world;
     ta_ema := ta_ema demo_world; ta_rsi := ta_rsi demo_world;
     ta_atr := ta_atr demo_world;
     pd_columns := pd_columns demo_world; pd_concat := pd_concat demo_world;
     pd_select := pd_select demo_world; pd_column := pd_column demo_world;
     new_model := new_model demo_world; fit := fit demo_world;
     score_pct := score_pct demo_world; truth := truth demo_world;
     predict := predict demo_world; predict_proba := predict_proba demo_world;
     strftime := strftime demo_world;
     str_upper := str_upper demo_world |}.

(** A rational as text, for the examples of the handlers. *)
Definition show_q (x : Q) : string :=
  (str_int (Qnum x) ++ "/" ++ str_int (Zpos (Qden x)))%string.

(** Telegram takes every answer. *)
Definition online : nat -> option PyExc := fun _ => None.

(** A chat that has just started, with the engine that [__init__] leaves. *)
Definition fresh_bot : @Bot bool :=
  {| fsm_state := None; fsm_data := ∅; trading_engine := init_engine;
     answers := []; answer_calls := 0; bot_log := [] |}.

(** A chat that waits for a ticker, with an engine whose model is set. *)
Definition waiting_bot : @Bot bool :=
  {| fsm_state := Some AWAIT_TICKER; fsm_data := ∅; trading_engine := trained_engine;
     answers := []; answer_calls := 0; bot_log := [] |}.

(* ===================================================================== *)
(** * Tactics                                                            *)
(* ===================================================================== *)

(** Splits the run [H : c s = (r, s')] of a computation along its steps. *)
Ltac split_run H :=
  repeat match type of H with
         | context [match ?x with _ => _ end] =>
             let E := fresh "Hstep" in
             destruct x eqn:E; try discriminate H
         end.

(** Splits the steps [E : match x with ... end = Ok y] left by [split_run]. *)
Ltac split_steps :=
  repeat match goal with
         | E : match ?x with _ => _ end = Ok _ |- _ =>
             destruct x eqn:?; try discriminate E;
             try (injection E as ?; subst)
         end.

(* ===================================================================== *)
(** * Properties of MarketDataService                                    *)
(* ===================================================================== *)

Section MarketFacts.
Context {F : Type} `{PyFloat F}.
Variable cfg : Config F.

Abbreviation Service := (@MarketDataService F).

Lemma comprehension_levels_of (l : list (Quotation * Z)) :
  comprehension level_pair (levels_of l)
  = Ok (map (fun qn => (_convert_quotation (fst qn), snd qn)) l).
Proof.
  unfold levels_of.
  induction l as [|[q n] l IH]; cbn [map comprehension level_pair fst snd];
    [reflexivity|].
  rewrite IH. reflexivity.
Qed.

(** An update whose levels are objects gives a snapshot. *)
Lemma build_snapshot_levels_of (f : option string) (bs as_ : list (Quotation * Z)) (now : Time) :
  build_snapshot {| p_figi := f; p_bids := Some (levels_of bs);
                    p_asks := Some (levels_of as_) |} now
  = Ok {| bids := map (fun qn => (_convert_quotation (fst qn), snd qn)) bs;
          asks := map (fun qn => (_convert_quotation (fst qn), snd qn)) as_;
          timestamp := now |}.
Proof.
  unfold build_snapshot; simpl. rewrite !comprehension_levels_of. reflexivity.
Qed.

(** A level decoded from JSON has no attribute [price]: no snapshot. *)
Lemma build_snapshot_plain_bid (data : Payload) (bs : list Level) (now : Time) :
  p_bids data = Some (LevelPlain :: bs) ->
  build_snapshot data now = Raise (AttributeError "object has no attribute 'price'").
Proof. intros Hb. unfold build_snapshot. rewrite Hb. reflexivity. Qed.

(** When [_process_orderbook] raises, nothing was stored. *)
Lemma process_orderbook_raise (s s' : Service) (data : Payload) (now : Time) (e : PyExc) :
  _process_orderbook data now s = (Raise e, s') -> s' = s.
Proof.
  unfold _process_orderbook, bind, lift, modify.
  destruct (build_snapshot data now); [|intros [= _ <-]; reflexivity].
  destruct (p_figi data); intros [=]; subst; reflexivity.
Qed.

(** An update with a figi from which a snapshot can be built (its levels
    are objects with [price] and [quantity]) is stored under its figi, and
    the snapshots stored for the other instruments, the candles cache and
    the subscription set are what they were. *)
Lemma process_orderbook_frame (s : Service) (data : Payload) (now : Time)
    (f : string) (snap : OrderBookEntry) :
  p_figi data = Some f ->
  build_snapshot data now = Ok snap ->
  exists s',
    _process_orderbook data now s = (Ok tt, s')
    /\ orderbooks s' !! f = Some snap
    /\ (forall g, g <> f -> orderbooks s' !! g = orderbooks s !! g)
    /\ candles_cache s' = candles_cache s
    /\ subscriptions s' = subscriptions s.
Proof.
  intros Hf Hsnap.
  exists (set_orderbooks (fun m => <[f := snap]> m) s).
  unfold _process_orderbook, bind, lift, modify. rewrite Hsnap, Hf. simpl.
  split; [reflexivity|].
  split; [apply lookup_insert_eq|].
  split; [|split; reflexivity].
  intros g Hg. apply lookup_insert_ne. congruence.
Qed.

(** A comprehension over levels decoded from JSON raises at its first
    level. *)
Lemma comprehension_json_levels (ls : list Level) :
  json_levels ls -> ls <> [] ->
  comprehension (level_pair (F:=F)) ls
  = Raise (AttributeError "object has no attribute 'price'").
Proof.
  intros Hjson Hne. destruct ls as [|l ls]; [contradiction|].
  inversion Hjson as [|l' ls' Hl Hls]; subst. reflexivity.
Qed.

(** C9, on the code. [_stream_handler] hands [_process_orderbook] the
    payload that [json.loads] has decoded, whose levels are dicts, not
    objects with the attribute [price].  For every state of the service and
    every such update that carries at least one level: the call raises
    AttributeError, so does the turn of the reading loop that made it, the
    service is exactly what it was, and the snapshot stored for any
    instrument, the one of the update included, is what it was before the
    update. *)
Theorem json_update_is_not_stored (s : Service) (data : Payload) (now : Time)
    (bs as_ : list Level) :
  p_bids data = Some bs ->
  p_asks data = Some as_ ->
  json_levels (bs ++ as_) ->
  bs ++ as_ <> [] ->
  _process_orderbook data now s
  = (Raise (AttributeError "object has no attribute 'price'"), s)
  /\ handle_message (now, Decoded (Some "orderbook") (Some data)) s
     = (Raise (AttributeError "object has no attribute 'price'"), s)
  /\ (forall f, orderbooks (snd (_process_orderbook data now s)) !! f = orderbooks s !! f).
Proof.
  intros Hb Ha Hjson Hne.
  assert (Hbuild : build_snapshot (F:=F) data now
                   = Raise (AttributeError "object has no attribute 'price'")).
  { unfold build_snapshot. rewrite Hb, Ha.
    apply Forall_app in Hjson as [Hjb Hja].
    destruct bs as [|l bs].
    - cbn [comprehension]. rewrite comprehension_json_levels; [reflexivity|exact Hja|].
      intros ->. apply Hne. reflexivity.
    - rewrite comprehension_json_levels; [reflexivity|exact Hjb|discriminate]. }
  assert (Hrun : _process_orderbook data now s
                 = (Raise (AttributeError "object has no attribute 'price'"), s)).
  { unfold _process_orderbook, bind, lift. rewrite Hbuild. reflexivity. }
  split; [exact Hrun|]. split.
  - unfold handle_message. cbn. exact Hrun.
  - intros f. rewrite Hrun. reflexivity.
Qed.

Lemma same_refl (s : Service) : same_subscriptions_and_wire s s.
Proof. split; reflexivity. Qed.

Lemma same_trans (s1 s2 s3 : Service) :
  same_subscriptions_and_wire s1 s2 -> same_subscriptions_and_wire s2 s3 ->
  same_subscriptions_and_wire s1 s3.
Proof. intros [A B] [C D]. split; congruence. Qed.

(** A loop keeps what each of its turns keeps. *)
Lemma for_each_rel {A} (R : Service -> Service -> Prop) (body : A -> Eff Service unit) :
  (forall s, R s s) ->
  (forall s1 s2 s3, R s1 s2 -> R s2 s3 -> R s1 s3) ->
  (forall x s r s', body x s = (r, s') -> R s s') ->
  forall xs s r s', for_each xs body s = (r, s') -> R s s'.
Proof.
  intros Hrefl Htrans Hbody xs. induction xs as [|x xs IH]; intros s r s' Hrun.
  - injection Hrun as _ <-. apply Hrefl.
  - cbn [for_each] in Hrun. unfold bind in Hrun.
    destruct (body x s) as [[[]|e] s1] eqn:Hx.
    + eapply Htrans; [eapply Hbody; exact Hx | eapply IH; exact Hrun].
    + injection Hrun as _ <-. eapply Hbody; exact Hx.
Qed.

Lemma for_each_same {A} (body : A -> Eff Service unit) :
  (forall x s r s', body x s = (r, s') -> same_subscriptions_and_wire s s') ->
  forall xs s r s', for_each xs body s = (r, s') -> same_subscriptions_and_wire s s'.
Proof. apply for_each_rel; [apply same_refl|apply same_trans]. Qed.

Lemma handle_message_same (tm : Time * Message) (s : Service) r s' :
  handle_message tm s = (r, s') -> same_subscriptions_and_wire s s'.
Proof.
  unfold handle_message. destruct (snd tm) as [|[ev|] payload].
  - intros [= _ <-]. apply same_refl.
  - destruct (String.eqb ev "orderbook").
    + destruct payload as [data|]; [|intros [= _ <-]; apply same_refl].
      unfold _process_orderbook, bind, lift, modify.
      destruct (build_snapshot data (fst tm)); [|intros [= _ <-]; apply same_refl].
      destruct (p_figi data); intros [= _ <-]; split; reflexivity.
    + intros [= _ <-]. apply same_refl.
  - intros [= _ <-]. apply same_refl.
Qed.

(** A refused connection is logged and slept on; nothing else changes. *)
Lemma streaming_turn_refused (e : PyExc) (s : Service) :
  streaming_turn cfg (Refused e) s
  = (Ok tt, sleep (STREAMING_reconnect_timeout cfg)
              (log_svc {| levelname := ERROR;
                          message := "Ошибка подключения: " ++ str_exc e |} s)).
Proof. reflexivity. Qed.


(** The loop of [_resubscribe] on a connection that accepts the frames. *)
Lemma resubscribe_loop (figis : list string) (s : Service) (w : WebSocket) :
  ws s = Some w -> accepts w (length figis) ->
  exists s' w',
    for_each figis (fun figi => ws_send (subscribe_frame cfg figi)) s = (Ok tt, s')
    /\ wire s' = wire s ++ map (fun figi => (ws_id w, subscribe_frame cfg figi)) figis
    /\ subscriptions s' = subscriptions s
    /\ ws s' = Some w' /\ ws_id w' = ws_id w.
Proof.
  revert s w. induction figis as [|figi figis IH]; intros s w Hws Hacc.
  - exists s, w. cbn. rewrite app_nil_r. repeat split; assumption.
  - cbn [for_each]. unfold bind at 1. unfold ws_send at 1. rewrite Hws.
    unfold accepts in Hacc. cbn [length] in Hacc.
    destruct (send_credit w) as [[|n]|] eqn:Hcredit; [lia| |].
    + destruct (IH (emit (ws_id w) (subscribe_frame cfg figi)
                      (set_ws (Some {| ws_id := ws_id w; send_credit := Some n;
                                       inbox := inbox w; read_error := read_error w |}) s))
                   {| ws_id := ws_id w; send_credit := Some n;
                      inbox := inbox w; read_error := read_error w |})
        as (s' & w' & Hrun & Hwire & Hsub & Hws' & Hid).
      * reflexivity.
      * unfold accepts; cbn. lia.
      * exists s', w'. rewrite Hrun. repeat split; try assumption.
        rewrite Hwire. cbn. rewrite <- app_assoc. reflexivity.
    + destruct (IH (emit (ws_id w) (subscribe_frame cfg figi) s) w)
        as (s' & w' & Hrun & Hwire & Hsub & Hws' & Hid).
      * exact Hws.
      * unfold accepts. rewrite Hcredit. exact I.
      * exists s', w'. rewrite Hrun. repeat split; try assumption.
        rewrite Hwire. cbn. rewrite <- app_assoc. reflexivity.
Qed.

(** A turn whose connection is accepted and whose resubscription is sent:
    the frames are then read, the connection is closed, and an error of the
    reading is logged and slept on. *)
Lemma streaming_turn_accepted (w : WebSocket) (s sa : Service) :
  for_each (elements (subscriptions s))
    (fun figi => ws_send (subscribe_frame cfg figi)) (set_ws (Some w) s) = (Ok tt, sa) ->
  streaming_turn cfg (Accepted w) s
  = match _stream_handler sa with
    | (Ok a, sb) => (Ok a, close_ws sb)
    | (Raise e, sb) =>
        (Ok tt, sleep (STREAMING_reconnect_timeout cfg)
                  (log_svc {| levelname := ERROR;
                              message := "Ошибка подключения: " ++ str_exc e |}
                     (close_ws sb)))
    end.
Proof.
  intros Hrun.
  unfold streaming_turn, streaming_try, try_except, with_closing, _resubscribe, bind, get, modify.
  change (subscriptions (set_ws (Some w) s)) with (subscriptions s).
  rewrite Hrun.
  destruct (_stream_handler sa) as [[[]|e] sb]; reflexivity.
Qed.

Lemma stream_handler_same (s : Service) r s' :
  _stream_handler s = (r, s') -> same_subscriptions_and_wire s s'.
Proof.
  unfold _stream_handler, bind at 1, get. cbn beta iota.
  destruct (ws s) as [w|]; [|intros [= _ <-]; apply same_refl].
  unfold bind. destruct (for_each (inbox w) handle_message s) as [[[]|e] sc] eqn:Hloop;
    pose proof (for_each_same handle_message handle_message_same _ _ _ _ Hloop) as Hs.
  - destruct (read_error w); intros [= _ <-]; exact Hs.
  - intros [= _ <-]; exact Hs.
Qed.

(** No turn of [start_streaming] touches the subscription set, whatever
    becomes of the connection. *)
Lemma ws_send_subscriptions (fr : Frame) (s : Service) r s' :
  ws_send fr s = (r, s') -> subscriptions s' = subscriptions s.
Proof.
  unfold ws_send. destruct (ws s) as [w|]; [|intros [= _ <-]; reflexivity].
  destruct (send_credit w) as [[|n]|]; intros [= _ <-]; reflexivity.
Qed.

Lemma streaming_turn_subscriptions (a : Attempt) (s : Service) :
  subscriptions (snd (streaming_turn cfg a s)) = subscriptions s.
Proof.
  destruct a as [e|w]; [reflexivity|].
  unfold streaming_turn, streaming_try, try_except, with_closing, _resubscribe, bind, get, modify.
  change (subscriptions (set_ws (Some w) s)) with (subscriptions s).
  destruct (for_each (elements (subscriptions s))
              (fun figi => ws_send (subscribe_frame cfg figi)) (set_ws (Some w) s))
    as [r sa] eqn:Hloop.
  assert (Hsa : subscriptions sa = subscriptions s).
  { apply (for_each_rel (fun s1 s2 : Service => subscriptions s2 = subscriptions s1)) in Hloop;
      [exact Hloop|reflexivity|intros; congruence|].
    intros figi s1 r1 s2. apply ws_send_subscriptions. }
  assert (Hclose : forall sb : Service, subscriptions (close_ws sb) = subscriptions sb).
  { intros sb. unfold close_ws. destruct (ws sb); reflexivity. }
  destruct r as [[]|e].
  - destruct (_stream_handler sa) as [r sb] eqn:Hstream.
    apply stream_handler_same in Hstream as [Hsb _].
    destruct r as [[]|e]; cbn; rewrite Hclose; congruence.
  - cbn. rewrite Hclose. exact Hsa.
Qed.

Lemma start_streaming_subscriptions (attempts : list Attempt) (s : Service) :
  subscriptions (snd (start_streaming cfg attempts s)) = subscriptions s.
Proof.
  revert s. induction attempts as [|a attempts IH]; intros s; [reflexivity|].
  cbn [start_streaming]. unfold bind.
  pose proof (streaming_turn_subscriptions a s) as Hturn.
  destruct (streaming_turn cfg a s) as [[[]|e] s1]; cbn [snd] in Hturn.
  - rewrite IH. exact Hturn.
  - exact Hturn.
Qed.


(** A figi that is not subscribed is added, whatever the size of the set
    and whether the frame can be sent or not. *)
Lemma subscribe_new (figi : string) (s : Service) :
  figi ∉ subscriptions s ->
  subscriptions (snd (subscribe cfg figi s)) = {[figi]} ∪ subscriptions s.
Proof.
  intros Hnew. unfold subscribe, bind at 1, get. cbn beta iota.
  destruct (decide (figi ∈ subscriptions s)) as [Hin|_]; [contradiction|].
  unfold bind, modify. cbn beta iota.
  destruct (ws s) as [w|] eqn:Hws; [|reflexivity].
  unfold ws_send.
  change (ws (set_subscriptions (fun subs => {[figi]} ∪ subs) s)) with (ws s).
  rewrite Hws. destruct (send_credit w) as [[|n]|]; reflexivity.
Qed.

Lemma subscribe_size (figi : string) (s : Service) :
  figi ∉ subscriptions s ->
  size (subscriptions (snd (subscribe cfg figi s))) = S (size (subscriptions s)).
Proof.
  intros Hnew. rewrite subscribe_new by exact Hnew.
  rewrite size_union by set_solver. rewrite size_singleton. reflexivity.
Qed.

End MarketFacts.

(* ===================================================================== *)
(** * MarketDataService on examples                                      *)
(* ===================================================================== *)

(** An update whose levels are objects is stored. *)
Example process_orderbook_stores_objects :
  exists s' : @MarketDataService Q,
    _process_orderbook sber_update 1700000000 init_service = (Ok tt, s')
    /\ orderbooks s' !! sber = Some sber_snapshot.
Proof. eexists. split; reflexivity. Qed.

Lemma json_update_is_not_stored_witness :
  p_bids sber_update_json = Some [LevelPlain]
  /\ p_asks sber_update_json = Some [LevelPlain]
  /\ json_levels ([LevelPlain] ++ [LevelPlain])
  /\ [LevelPlain] ++ [LevelPlain] <> []
  /\ p_figi sber_update_json = Some sber
  /\ orderbooks (@init_service Q) !! sber = None
  /\ _process_orderbook sber_update_json 1700000000 (@init_service Q)
     = (Raise (AttributeError "object has no attribute 'price'"), init_service)
  /\ handle_message (1700000000, Decoded (Some "orderbook") (Some sber_update_json))
       (@init_service Q)
     = (Raise (AttributeError "object has no attribute 'price'"), init_service)
  /\ (forall f,
        orderbooks (snd (_process_orderbook sber_update_json 1700000000 (@init_service Q)))
          !! f
        = orderbooks (@init_service Q) !! f).
Proof.
  split; [reflexivity|]. split; [reflexivity|].
  split; [repeat constructor|]. split; [discriminate|].
  split; [reflexivity|]. split; [reflexivity|].
  apply (json_update_is_not_stored (@init_service Q) sber_update_json 1700000000
           [LevelPlain] [LevelPlain]);
    [reflexivity|reflexivity|repeat constructor|discriminate].
Defined.

(** The same update as the stream delivers it, decoded from JSON: the
    levels are not objects, the handler raises and nothing is stored. *)
Example stream_update_is_not_stored :
  handle_message
    (1700000000,
     Decoded (Some "orderbook")
       (Some {| p_figi := Some sber; p_bids := Some [LevelPlain];
                p_asks := Some [LevelPlain] |}))
    (@init_service Q)
  = (Raise (AttributeError "object has no attribute 'price'"), init_service).
Proof. reflexivity. Qed.


(** Two frames leave on the example, one for each instrument. *)
Example resubscription_frames :
  map (fun wf => fr_figi (snd wf))
    (wire (snd (streaming_turn shipped_config (Accepted peer) two_subscriptions)))
  ≡ₚ [sber; gazp].
Proof.
  vm_compute. apply Permutation_refl || apply perm_swap.
Qed.

(** C7. With the configuration of config.py, whose [max_subscriptions] is
    50, 51 calls of [subscribe] on 51 different figis leave a subscription
    set of 51 elements: [subscribe] does not read the configured maximum. *)
Theorem subscribe_exceeds_max :
  STREAMING_max_subscriptions (@shipped_config Q _) = 50
  /\ NoDup figis51
  /\ fst (subscribe_all shipped_config figis51 (@init_service Q)) = Ok tt
  /\ size (subscriptions (snd (subscribe_all shipped_config figis51 (@init_service Q))))
     = 51%nat.
Proof.
  split; [reflexivity|]. split; [|split; vm_compute; reflexivity].
  apply NoDup_ListNoDup. vm_compute.
  repeat (constructor; [cbv; intuition discriminate|]). constructor.
Qed.

(* ===================================================================== *)
(** * Properties of TradingEngine                                        *)
(* ===================================================================== *)

Section EngineFacts.
Context {F Model DataFrame : Type} `{PyFloat F}.
Variable cfg : Config F.
Variable world : World F Model DataFrame.

Abbreviation Engine := (@TradingEngine Model).

(** ** Training *)

(** Every training raises at line 128, before anything is fetched. *)
Lemma train_model_body_raises (now : Time) (s : Engine) :
  train_model_body cfg world now s
  = (Raise (TypeError "'coroutine' object is not subscriptable"),
     log_eng INFO "🔄 Начало обучения модели..." s).
Proof. reflexivity. Qed.

(** A run of [train_model] whose [try] block raises returns without an
    exception, logs the failure and leaves [ml_model] and [last_trained] as
    they were; the block raises at line 128 on every run. *)
Lemma train_model_failure_keeps_model (now : Time) (s s1 : Engine) (e : PyExc) :
  train_model_body cfg world now s = (Raise e, s1) ->
  exists s',
    train_model cfg world now s = (Ok tt, s')
    /\ ml_model s' = ml_model s
    /\ last_trained s' = last_trained s
    /\ last (eng_log s')
       = Some {| levelname := ERROR; message := "❌ Ошибка обучения: " ++ str_exc e |}.
Proof.
  rewrite train_model_body_raises. intros [= <- <-].
  eexists. split; [reflexivity|].
  cbn [ml_model last_trained eng_log log_eng].
  split; [reflexivity|]. split; [reflexivity|].
  apply last_snoc.
Qed.



(** ** Resolution of the ticker *)

Lemma instrument_dict_ticker (item : Share) :
  getitem (instrument_dict item) "ticker" = Ok (sh_ticker item).
Proof. reflexivity. Qed.

Lemma instrument_dict_figi (item : Share) :
  getitem (instrument_dict item) "figi" = Ok (sh_figi item).
Proof. reflexivity. Qed.

Lemma instrument_dict_volume (item : Share) :
  instrument_dict item !! "volume" = None.
Proof. reflexivity. Qed.

(** [next] yields the first listed instrument whose ticker is the string
    it is given. *)
Lemma next_match_find (items : list Share) (t : string) :
  next_match (map instrument_dict items) t
  = match find (fun item => String.eqb (sh_ticker item) t) items with
    | Some item => Ok (instrument_dict item)
    | None => Raise StopIteration
    end.
Proof.
  induction items as [|item items IH]; [reflexivity|].
  cbn [map next_match find]. rewrite instrument_dict_ticker.
  destruct (String.eqb (sh_ticker item) t); [reflexivity|exact IH].
Qed.

Lemma find_none_iff (items : list Share) (t : string) :
  find (fun item => String.eqb (sh_ticker item) t) items = None
  <-> (forall item, In item items -> sh_ticker item <> t).
Proof.
  split.
  - intros Hnone item Hin Heq.
    pose proof (find_none _ _ Hnone item Hin) as Hne. cbn in Hne.
    apply String.eqb_neq in Hne. contradiction.
  - intros Hall. destruct (find _ items) as [item|] eqn:Hfind; [|reflexivity].
    apply find_some in Hfind as [Hin Heq]. apply String.eqb_eq in Heq.
    exfalso. exact (Hall item Hin Heq).
Qed.

(** ** The steps of [analyze] *)

(** What a run of the [try] block that returns has gone through. *)
Lemma analyze_body_ok (ticker mode : string) (now : Time) (s s' : Engine)
    (d : gmap string (Value F)) :
  analyze_body cfg world ticker mode now s = (Ok d, s') ->
  exists items instrument params figi n_days ival candles needed a a' c,
    shares world = Ok items
    /\ next_match (map instrument_dict items) (str_upper world ticker) = Ok instrument
    /\ strategy_params cfg mode = Ok params
    /\ getitem instrument "figi" = Ok figi
    /\ days params = Some n_days /\ interval params = Some ival
    /\ get_candles world figi n_days ival = Ok candles
    /\ min_candles params = Some needed
    /\ Z.ltb (Z.of_nat (length candles)) needed = false
    /\ _technical_analysis cfg world candles params = Ok a
    /\ match ml_model s with
       | None => Ok a
       | Some m => ml_analysis cfg world m candles a
       end = Ok a'
    /\ last candles = Some c
    /\ d = result_dict world ticker a' (_convert_quotation (c_close c)) now
    /\ s' = s.
Proof.
  unfold analyze_body, bind, lift, get, raise, ret, await, get_instruments,
    get_historical_candles, last_item.
  intros Hrun. split_run Hrun.
  injection Hrun as <- <-.
  split_steps.
  all: repeat eexists; try eassumption; try reflexivity.
Qed.

Lemma last_item_map {A B} (f : A -> B) (xs : list A) (y : B) :
  last_item (map f xs) = Ok y -> exists x, last xs = Some x /\ y = f x.
Proof.
  unfold last_item. induction xs as [|x xs IH]; [discriminate|].
  destruct xs as [|x' xs].
  - cbn. intros [= <-]. exists x. split; reflexivity.
  - exact IH.
Qed.

(** What [_technical_analysis] has computed when it returns. *)
Lemma technical_analysis_ok (candles : list HistoricCandle) (params : Params) (a : Analysis) :
  _technical_analysis cfg world candles params = Ok a ->
  exists n c sl tp,
    atr params = Some n
    /\ ta_atr world (map (fun c => _convert_quotation (c_high c)) candles)
         (map (fun c => _convert_quotation (c_low c)) candles)
         (map (fun c => _convert_quotation (c_close c)) candles) n = Ok (an_atr a)
    /\ last candles = Some c
    /\ RISK_MANAGEMENT cfg !! "stop_loss_multiplier" = Some sl
    /\ RISK_MANAGEMENT cfg !! "take_profit_multiplier" = Some tp
    /\ an_stop_loss a = f_sub (_convert_quotation (c_close c)) (f_mul (an_atr a) sl)
    /\ an_take_profit a = f_add (_convert_quotation (c_close c)) (f_mul (an_atr a) tp)
    /\ an_decision a = "Держать"
    /\ an_ml_confidence a = None.
Proof.
  unfold _technical_analysis, getitem. intros Hrun. split_run Hrun.
  injection Hrun as <-.
  split_steps.
  match goal with
  | E : last_item (map _ candles) = Ok _ |- _ =>
      apply last_item_map in E as (c & Hlast & ->)
  end.
  cbn [an_atr an_stop_loss an_take_profit an_decision an_ml_confidence].
  repeat eexists; try eassumption; reflexivity.
Qed.


(** A run of [analyze] whose dict has no key [error] is a run of the [try]
    block that returned. *)
Lemma analyze_without_error (ticker mode : string) (now : Time) (s s' : Engine)
    (d : gmap string (Value F)) :
  analyze cfg world ticker mode now s = (Ok d, s') ->
  d !! "error" = None ->
  analyze_body cfg world ticker mode now s = (Ok d, s').
Proof.
  unfold analyze, try_except.
  destruct (analyze_body cfg world ticker mode now s) as [[d0|e] s0].
  - intros [= <- <-] _. reflexivity.
  - unfold bind, modify, ret. intros [= <- _] Herr. discriminate Herr.
Qed.

(** ** The claims on [analyze] *)

(** C2. For every ticker and mode: if the ticker resolves, the mode has a
    profile, and the candles that the historical client returns for the
    profile are fewer than the [min_candles] of the profile, then the [try]
    block of [analyze] raises ValueError("Недостаточно данных") and
    [analyze] returns the dict with the single key [error] and that
    message: none of the keys of a result is in it. *)
Theorem analyze_insufficient_data (ticker mode : string) (now : Time) (s : Engine)
    (items : list Share) (item : Share) (params : Params)
    (n_days : Z) (ival : CandleInterval) (candles : list HistoricCandle) (needed : Z) :
  shares world = Ok items ->
  next_match (map instrument_dict items) (str_upper world ticker) = Ok (instrument_dict item) ->
  strategy_params cfg mode = Ok params ->
  days params = Some n_days ->
  interval params = Some ival ->
  get_candles world (sh_figi item) n_days ival = Ok candles ->
  min_candles params = Some needed ->
  Z.of_nat (length candles) < needed ->
  fst (analyze_body cfg world ticker mode now s) = Raise (ValueError "Недостаточно данных")
  /\ analyze cfg world ticker mode now s
     = (Ok (<["error" := VStr "Недостаточно данных"]> ∅),
        log_eng ERROR "Ошибка анализа: Недостаточно данных" s)
  /\ (forall k, In k ["ticker"; "decision"; "confidence"; "price"; "stop_loss";
                     "take_profit"; "timestamp"] ->
       (<["error" := VStr "Недостаточно данных"]> ∅ : gmap string (Value F)) !! k = None).
Proof.
  intros Hshares Hnext Hparams Hdays Hival Hcandles Hmin Hshort.
  assert (Hbody : analyze_body cfg world ticker mode now s
                  = (Raise (ValueError "Недостаточно данных"), s)).
  { unfold analyze_body, bind, lift, raise, await, get_instruments, get_historical_candles.
    rewrite Hshares, Hnext, Hparams, instrument_dict_figi, Hdays, Hival, Hcandles, Hmin.
    apply Z.ltb_lt in Hshort. rewrite Hshort. reflexivity. }
  split; [rewrite Hbody; reflexivity|].
  split; [unfold analyze, try_except; rewrite Hbody; reflexivity|].
  intros k Hk. cbn in Hk.
  repeat (destruct Hk as [<-|Hk]; [reflexivity|]). contradiction.
Qed.

(** C4. For every call of [analyze] made while [ml_model] is [None] and
    whose resolution, candle fetch and indicator computation succeed: the
    call returns a result, without an error, whose decision is "Держать"
    (hold) and whose confidence is the int 0; the state is not changed. *)
Theorem analyze_without_model_holds (ticker mode : string) (now : Time) (s : Engine)
    (items : list Share) (item : Share) (params : Params)
    (n_days : Z) (ival : CandleInterval) (candles : list HistoricCandle) (needed : Z)
    (a : Analysis) :
  ml_model s = None ->
  shares world = Ok items ->
  next_match (map instrument_dict items) (str_upper world ticker) = Ok (instrument_dict item) ->
  strategy_params cfg mode = Ok params ->
  days params = Some n_days ->
  interval params = Some ival ->
  get_candles world (sh_figi item) n_days ival = Ok candles ->
  min_candles params = Some needed ->
  needed <= Z.of_nat (length candles) ->
  _technical_analysis cfg world candles params = Ok a ->
  exists d,
    analyze cfg world ticker mode now s = (Ok d, s)
    /\ d !! "error" = None
    /\ d !! "decision" = Some (VStr "Держать")
    /\ d !! "confidence" = Some (VInt 0).
Proof.
  intros Hnone Hshares Hnext Hparams Hdays Hival Hcandles Hmin Henough Hta.
  destruct (technical_analysis_ok _ _ _ Hta)
    as (n & c & sl & tp & _ & _ & Hlast & _ & _ & _ & _ & Hdec & Hconf).
  exists (result_dict world ticker a (_convert_quotation (c_close c)) now).
  split.
  - unfold analyze, try_except, analyze_body, bind, lift, raise, get, ret, await,
      get_instruments, get_historical_candles, last_item.
    rewrite Hshares, Hnext, Hparams, instrument_dict_figi, Hdays, Hival, Hcandles, Hmin.
    apply Z.ltb_ge in Henough. rewrite Henough, Hta, Hnone, Hlast. reflexivity.
  - unfold result_dict. rewrite Hdec, Hconf. repeat split; reflexivity.
Qed.


(** C3, as the code has it. [analyze] upper-cases the ticker it is given
    ([str.upper]) and takes the first listed instrument whose ticker is
    exactly that text.  So a ticker that has the same upper-casing as a
    listed ticker that is its own upper-casing resolves to an instrument
    with that ticker; an instrument is resolved only if its ticker is
    exactly the upper-cased input, so that a listed ticker that is the
    upper-casing of no text is matched by no input; and when no listed
    ticker is the upper-cased input, the [try] block raises StopIteration
    and [analyze] returns the dict with the single key [error], whose
    message is empty. *)
Theorem resolution_matches_uppercased_input (ticker mode : string) (now : Time)
    (s : Engine) (items : list Share) :
  shares world = Ok items ->
  next_match (map instrument_dict items) (str_upper world ticker)
  = match find (fun item => String.eqb (sh_ticker item) (str_upper world ticker)) items with
    | Some item => Ok (instrument_dict item)
    | None => Raise StopIteration
    end
  /\ (forall item,
        In item items ->
        str_upper world (sh_ticker item) = sh_ticker item ->
        str_upper world ticker = str_upper world (sh_ticker item) ->
        exists item',
          next_match (map instrument_dict items) (str_upper world ticker)
          = Ok (instrument_dict item')
          /\ In item' items /\ sh_ticker item' = sh_ticker item)
  /\ (forall instrument,
        next_match (map instrument_dict items) (str_upper world ticker) = Ok instrument ->
        exists item',
          In item' items /\ instrument = instrument_dict item'
          /\ sh_ticker item' = str_upper world ticker)
  /\ (forall item,
        In item items ->
        (forall t, str_upper world t <> sh_ticker item) ->
        forall t,
          next_match (map instrument_dict items) (str_upper world t)
          <> Ok (instrument_dict item))
  /\ ((forall item, In item items -> sh_ticker item <> str_upper world ticker) ->
      fst (analyze_body cfg world ticker mode now s) = Raise StopIteration
      /\ analyze cfg world ticker mode now s
         = (Ok (<["error" := VStr ""]> ∅), log_eng ERROR "Ошибка анализа: " s)).
Proof.
  intros Hshares. split; [apply next_match_find|]. split; [|split; [|split]].
  - intros item Hin Hupper Hsame. rewrite next_match_find.
    destruct (find _ items) as [item'|] eqn:Hfind.
    + apply find_some in Hfind as [Hin' Heq]. apply String.eqb_eq in Heq.
      exists item'. repeat split; [assumption|congruence].
    + apply find_none_iff with (item := item) in Hfind; [|exact Hin].
      exfalso. apply Hfind. congruence.
  - intros instrument. rewrite next_match_find.
    destruct (find _ items) as [item'|] eqn:Hfind; [|discriminate].
    apply find_some in Hfind as [Hin' Heq]. apply String.eqb_eq in Heq.
    intros [= <-]. exists item'. repeat split; assumption.
  - intros item Hin Hnever t. rewrite next_match_find.
    destruct (find _ items) as [item'|] eqn:Hfind; [|discriminate].
    apply find_some in Hfind as [Hin' Heq]. apply String.eqb_eq in Heq.
    intros Hok. apply (Hnever t).
    pose proof (f_equal (fun r : PyResult (gmap string string) =>
                           match r with
                           | Ok d => getitem d "ticker"
                           | Raise e' => Raise e'
                           end) Hok) as Hdict.
    cbn beta iota in Hdict. rewrite !instrument_dict_ticker in Hdict. congruence.
  - intros Hnone. apply find_none_iff in Hnone.
    assert (Hbody : analyze_body cfg world ticker mode now s = (Raise StopIteration, s)).
    { unfold analyze_body, bind, lift, await, get_instruments.
      rewrite Hshares, next_match_find, Hnone. reflexivity. }
    split; [rewrite Hbody; reflexivity|].
    unfold analyze, try_except. rewrite Hbody. reflexivity.
Qed.

(** ** The top instruments *)

(** Sorting a list whose keys are all the int 0 gives the list back. *)
Lemma sorted_desc_equal_keys {A} (key : A -> SortKey) (xs : list A) :
  (forall x, In x xs -> key x = KInt 0) -> sorted_desc key xs = Ok xs.
Proof.
  induction xs as [|x xs IH]; intros Hkeys; [reflexivity|].
  cbn [sorted_desc]. rewrite IH by (intros y Hy; apply Hkeys; right; exact Hy).
  destruct xs as [|y ys]; [reflexivity|].
  cbn [insert_desc]. rewrite (Hkeys x), (Hkeys y) by (cbn; auto). reflexivity.
Qed.

(** C10. For every listing of the directory: [get_top_instruments] returns
    the first 5 instruments of the listing, in the order of the listing; no
    dict of the listing has a key [volume], so every sort key is the
    default 0, and the sort, which is stable, moves nothing. *)
Theorem get_top_instruments_is_prefix (items : list Share) :
  shares world = Ok items ->
  get_top_instruments world = Ok (take 5 (map instrument_dict items))
  /\ (forall i, In i (map instrument_dict items) ->
       i !! "volume" = None /\ volume_key i = KInt 0).
Proof.
  intros Hshares.
  assert (Hkeys : forall i, In i (map instrument_dict items) ->
                            i !! "volume" = None /\ volume_key i = KInt 0).
  { intros i Hi. apply in_map_iff in Hi as (item & <- & _).
    unfold volume_key. rewrite instrument_dict_volume. split; reflexivity. }
  split; [|exact Hkeys].
  unfold get_top_instruments, await, get_instruments. rewrite Hshares.
  rewrite sorted_desc_equal_keys by (intros i Hi; apply Hkeys; exact Hi).
  reflexivity.
Qed.

End EngineFacts.

(* ===================================================================== *)
(** * TradingEngine on examples                                          *)
(* ===================================================================== *)


(** The background task after three trainings: still no model. *)
Example init_ml_never_trains :
  ml_model (snd (_init_ml shipped_config demo_world [0; 21600; 43200] demo_engine)) = None
  /\ last_trained (snd (_init_ml shipped_config demo_world [0; 21600; 43200] demo_engine))
     = None.
Proof. split; reflexivity. Qed.

(** With config.py as it is, [analyze] stops at the table of profiles. *)
Example analyze_shipped_config :
  fst (analyze shipped_config demo_world "gazp" "short_term" 1700000000 demo_engine)
  = Ok (<["error" := VStr "type object 'Config' has no attribute 'STRATEGY_PARAMS'"]> ∅).
Proof. reflexivity. Qed.

Lemma analyze_insufficient_data_witness :
  shares demo_world = Ok [sber_share; gazp_share]
  /\ next_match (map instrument_dict [sber_share; gazp_share]) (str_upper demo_world "sber")
     = Ok (instrument_dict sber_share)
  /\ strategy_params demo_config "short_term"
     = Ok {| days := Some 1; interval := Some CANDLE_INTERVAL_5_MIN;
             min_candles := Some 72; ema := Some 9; rsi := Some 14; atr := Some 14 |}
  /\ get_candles demo_world (sh_figi sber_share) 1 CANDLE_INTERVAL_5_MIN
     = Ok (repeat flat_candle 3)
  /\ Z.of_nat (length (repeat flat_candle 3)) < 72
  /\ fst (analyze_body demo_config demo_world "sber" "short_term" 1700000000 demo_engine)
     = Raise (ValueError "Недостаточно данных")
  /\ analyze demo_config demo_world "sber" "short_term" 1700000000 demo_engine
     = (Ok (<["error" := VStr "Недостаточно данных"]> ∅),
        log_eng ERROR "Ошибка анализа: Недостаточно данных" demo_engine)
  /\ (forall k, In k ["ticker"; "decision"; "confidence"; "price"; "stop_loss";
                     "take_profit"; "timestamp"] ->
       (<["error" := VStr "Недостаточно данных"]> ∅ : gmap string (Value Q)) !! k = None).
Proof.
  split; [reflexivity|]. split; [reflexivity|]. split; [reflexivity|].
  split; [reflexivity|]. split; [reflexivity|].
  apply (analyze_insufficient_data demo_config demo_world "sber" "short_term" 1700000000
           demo_engine [sber_share; gazp_share] sber_share
           {| days := Some 1; interval := Some CANDLE_INTERVAL_5_MIN;
              min_candles := Some 72; ema := Some 9; rsi := Some 14; atr := Some 14 |}
           1 CANDLE_INTERVAL_5_MIN (repeat flat_candle 3) 72);
    reflexivity.
Defined.

Lemma analyze_without_model_holds_witness :
  ml_model demo_engine = None
  /\ next_match (map instrument_dict [sber_share; gazp_share]) (str_upper demo_world "Gazp")
     = Ok (instrument_dict gazp_share)
  /\ get_candles demo_world (sh_figi gazp_share) 1 CANDLE_INTERVAL_5_MIN
     = Ok (repeat flat_candle 72)
  /\ 72 <= Z.of_nat (length (repeat flat_candle 72))
  /\ _technical_analysis demo_config demo_world (repeat flat_candle 72) demo_profile
     = Ok demo_analysis
  /\ exists d,
       analyze demo_config demo_world "Gazp" "short_term" 1700000000 demo_engine
       = (Ok d, demo_engine)
       /\ d !! "error" = None
       /\ d !! "decision" = Some (VStr "Держать")
       /\ d !! "confidence" = Some (VInt 0).
Proof.
  split; [reflexivity|]. split; [reflexivity|]. split; [reflexivity|].
  split; [vm_compute; discriminate|]. split; [reflexivity|].
  apply (analyze_without_model_holds demo_config demo_world "Gazp" "short_term" 1700000000
           demo_engine [sber_share; gazp_share] gazp_share demo_profile
           1 CANDLE_INTERVAL_5_MIN (repeat flat_candle 72) 72 demo_analysis);
    first [reflexivity | vm_compute; discriminate].
Defined.


(** The result of the example: buy, 70 percent, price 251, stop 243, take
    263. *)
Example demo_result_values :
  demo_result !! "decision" = Some (VStr "Покупать")
  /\ match demo_result !! "confidence" with
     | Some (VFloat x) => x == 70 | _ => False end
  /\ match demo_result !! "price" with
     | Some (VFloat x) => x == 251 | _ => False end
  /\ match demo_result !! "stop_loss" with
     | Some (VFloat x) => x == 243 | _ => False end
  /\ match demo_result !! "take_profit" with
     | Some (VFloat x) => x == 263 | _ => False end.
Proof. repeat split; vm_compute; reflexivity. Qed.

Lemma resolution_matches_uppercased_input_witness :
  shares demo_world = Ok [sber_share; gazp_share]
  /\ next_match (map instrument_dict [sber_share; gazp_share]) (str_upper demo_world "gAzP")
     = match find (fun item => String.eqb (sh_ticker item) (str_upper demo_world "gAzP"))
               [sber_share; gazp_share] with
       | Some item => Ok (instrument_dict item)
       | None => Raise StopIteration
       end
  /\ (forall item,
        In item [sber_share; gazp_share] ->
        str_upper demo_world (sh_ticker item) = sh_ticker item ->
        str_upper demo_world "gAzP" = str_upper demo_world (sh_ticker item) ->
        exists item',
          next_match (map instrument_dict [sber_share; gazp_share])
            (str_upper demo_world "gAzP")
          = Ok (instrument_dict item')
          /\ In item' [sber_share; gazp_share] /\ sh_ticker item' = sh_ticker item)
  /\ (forall instrument,
        next_match (map instrument_dict [sber_share; gazp_share])
          (str_upper demo_world "gAzP") = Ok instrument ->
        exists item',
          In item' [sber_share; gazp_share] /\ instrument = instrument_dict item'
          /\ sh_ticker item' = str_upper demo_world "gAzP")
  /\ (forall item,
        In item [sber_share; gazp_share] ->
        (forall t, str_upper demo_world t <> sh_ticker item) ->
        forall t,
          next_match (map instrument_dict [sber_share; gazp_share]) (str_upper demo_world t)
          <> Ok (instrument_dict item))
  /\ ((forall item, In item [sber_share; gazp_share] ->
         sh_ticker item <> str_upper demo_world "gAzP") ->
      fst (analyze_body demo_config demo_world "gAzP" "short_term" 1700000000 demo_engine)
      = Raise StopIteration
      /\ analyze demo_config demo_world "gAzP" "short_term" 1700000000 demo_engine
         = (Ok (<["error" := VStr ""]> ∅), log_eng ERROR "Ошибка анализа: " demo_engine)).
Proof.
  split; [reflexivity|].
  apply (resolution_matches_uppercased_input demo_config demo_world "gAzP" "short_term"
           1700000000 demo_engine [sber_share; gazp_share]).
  reflexivity.
Defined.

(** The mixed-case input resolves to the listed GAZP. *)
Example mixed_case_input_is_resolved :
  str_upper demo_world "gAzP" = "GAZP"
  /\ next_match (map instrument_dict [sber_share; gazp_share]) (str_upper demo_world "gAzP")
     = Ok (instrument_dict gazp_share).
Proof. split; reflexivity. Qed.

(** The scenario of the specification: "ZZZZ" is not listed. *)
Example analyze_unknown_ticker :
  analyze demo_config demo_world "ZZZZ" "short_term" 1700000000 demo_engine
  = (Ok (<["error" := VStr ""]> ∅), log_eng ERROR "Ошибка анализа: " demo_engine).
Proof. reflexivity. Qed.

(** C3, as stated, fails: "sber" and even "Sber" differ from the listed
    ticker "Sber" in letter case at most (the three have the same
    upper-casing, "SBER"), and neither resolves to it. *)
Lemma mixed_case_listing_is_not_resolved :
  str_upper mixed_case_world "sber" = "SBER"
  /\ str_upper mixed_case_world "Sber" = "SBER"
  /\ get_instruments mixed_case_world
     = Ok [instrument_dict {| sh_figi := sber; sh_ticker := "Sber"; sh_name := "Sberbank" |}]
  /\ fst (analyze_body demo_config mixed_case_world "sber" "short_term" 1700000000
            demo_engine) = Raise StopIteration
  /\ fst (analyze_body demo_config mixed_case_world "Sber" "short_term" 1700000000
            demo_engine) = Raise StopIteration.
Proof. repeat split; reflexivity. Qed.

Lemma get_top_instruments_is_prefix_witness :
  shares demo_world = Ok [sber_share; gazp_share]
  /\ get_top_instruments demo_world
     = Ok (take 5 (map instrument_dict [sber_share; gazp_share]))
  /\ (forall i, In i (map instrument_dict [sber_share; gazp_share]) ->
       i !! "volume" = None /\ volume_key i = KInt 0).
Proof.
  split; [reflexivity|].
  apply (get_top_instruments_is_prefix demo_world [sber_share; gazp_share]).
  reflexivity.
Defined.

(** [sorted_desc] does sort when the keys differ, and is stable. *)
Example sorted_desc_sorts :
  sorted_desc (fun x : Z * string => KInt (fst x))
    [(1, "a"); (3, "b"); (1, "c"); (2, "d"); (3, "e")]
  = Ok [(3, "b"); (3, "e"); (2, "d"); (1, "a"); (1, "c")].
Proof. reflexivity. Qed.

(* ===================================================================== *)
(** * Properties of the indicators                                       *)
(* ===================================================================== *)

Section FeatureFacts.
Import FeatureEngine.
Local Open Scope Q_scope.

Lemma gain_nonneg (prev cur : Q) : 0 <= gain prev cur.
Proof.
  unfold gain. destruct (Qle_bool prev cur) eqn:E; [|apply Qle_refl].
  apply Qle_bool_iff in E. lra.
Qed.

Lemma loss_nonneg (prev cur : Q) : 0 <= loss prev cur.
Proof.
  unfold loss. destruct (Qle_bool prev cur) eqn:E; [apply Qle_refl|].
  assert (~ prev <= cur) by (rewrite <- Qle_bool_iff; congruence). lra.
Qed.

Lemma Qmax_r_nonneg (a b : Q) : 0 <= b -> 0 <= Qmax a b.
Proof.
  intros Hb. unfold Qmax. destruct (Qle_bool a b) eqn:E; [exact Hb|].
  assert (~ a <= b) by (rewrite <- Qle_bool_iff; congruence). lra.
Qed.

Lemma true_range_nonneg (prev c : Candle) : 0 <= true_range prev c.
Proof.
  unfold true_range. apply Qmax_r_nonneg, Qmax_r_nonneg, Qabs_nonneg.
Qed.

Lemma pairwise_nonneg {A} (f : A -> A -> Q) (xs : list A) :
  (forall a b, 0 <= f a b) -> Forall (fun x => 0 <= x) (pairwise f xs).
Proof.
  intros Hf. induction xs as [|a [|b rest] IH]; cbn; try constructor.
  - apply Hf.
  - exact IH.
Qed.

Lemma Qdiv_nonneg (a b : Q) : 0 <= a -> 0 <= b -> 0 <= a / b.
Proof.
  intros Ha Hb. unfold Qdiv. apply Qmult_le_0_compat; [exact Ha|].
  apply Qinv_le_0_compat. exact Hb.
Qed.

Lemma inject_nat_nonneg (n : nat) : 0 <= inject_Z (Z.of_nat n).
Proof. change 0 with (inject_Z 0). rewrite <- Zle_Qle. lia. Qed.

Lemma Qsum_nonneg (xs : list Q) : Forall (fun x => 0 <= x) xs -> 0 <= Qsum xs.
Proof.
  induction 1 as [|x xs Hx _ IH]; cbn; [apply Qle_refl|].
  unfold Qsum in IH. lra.
Qed.

Lemma mean_nonneg (xs : list Q) : Forall (fun x => 0 <= x) xs -> 0 <= mean xs.
Proof.
  intros Hxs. apply Qdiv_nonneg; [apply Qsum_nonneg; exact Hxs|apply inject_nat_nonneg].
Qed.

Lemma wilder_nonneg (n : nat) (xs : list Q) :
  (0 < n)%nat -> Forall (fun x => 0 <= x) xs -> 0 <= wilder n xs.
Proof.
  intros Hn Hxs. unfold wilder.
  assert (Hseed : 0 <= mean (take n xs)) by (apply mean_nonneg, Forall_take, Hxs).
  assert (Hrest : Forall (fun x => 0 <= x) (drop n xs)) by (apply Forall_drop, Hxs).
  revert Hseed. generalize (mean (take n xs)) as avg.
  induction Hrest as [|x rest Hx _ IH]; intros avg Havg; [exact Havg|].
  cbn [fold_left]. apply IH.
  apply Qdiv_nonneg; [|apply inject_nat_nonneg].
  assert (1 <= inject_Z (Z.of_nat n)).
  { change 1 with (inject_Z 1). rewrite <- Zle_Qle. lia. }
  assert (0 <= avg * (inject_Z (Z.of_nat n) - 1)) by (apply Qmult_le_0_compat; lra).
  lra.
Qed.

(** The formula of the RSI stays between 0 and 100. *)
Lemma rsi_formula_bounds (g l : Q) :
  0 <= g -> 0 < l -> 0 <= 100 - 100 / (1 + g / l) /\ 100 - 100 / (1 + g / l) <= 100.
Proof.
  intros Hg Hl.
  assert (Hq : 0 <= g / l) by (apply Qdiv_nonneg; lra).
  assert (Hpos : 0 < 1 + g / l) by lra.
  assert (Hlo : 0 <= 100 / (1 + g / l)) by (apply Qdiv_nonneg; lra).
  assert (Hhi : 100 / (1 + g / l) <= 100) by (apply Qle_shift_div_r; [exact Hpos|lra]).
  split; lra.
Qed.

(** C8. For every candle sequence, time-ascending or not, whose length is
    at least the indicator length plus one: the feature step computes an
    RSI, which lies in [0, 100] and is 100 when the Wilder-smoothed average
    loss is 0, and an ATR, which is at least 0. *)
Theorem rsi_atr_bounds (n : nat) (candles : list Candle) :
  (0 < n)%nat ->
  (n + 1 <= length candles)%nat ->
  exists r a,
    rsi n candles = Computed r
    /\ 0 <= r /\ r <= 100
    /\ (avg_loss n candles == 0 -> r == 100)
    /\ atr n candles = Computed a
    /\ 0 <= a.
Proof.
  intros Hn Hlen.
  assert (Hlt : (length candles <? n + 1)%nat = false) by (apply Nat.ltb_ge; exact Hlen).
  assert (Hg : 0 <= avg_gain n candles).
  { apply wilder_nonneg; [exact Hn|]. apply pairwise_nonneg, gain_nonneg. }
  assert (Hl : 0 <= avg_loss n candles).
  { apply wilder_nonneg; [exact Hn|]. apply pairwise_nonneg, loss_nonneg. }
  assert (Ha : 0 <= wilder n (pairwise true_range candles)).
  { apply wilder_nonneg; [exact Hn|]. apply pairwise_nonneg, true_range_nonneg. }
  unfold rsi, atr. rewrite Hlt.
  destruct (Qeq_bool (avg_loss n candles) 0) eqn:Hzero.
  - exists 100, (wilder n (pairwise true_range candles)).
    repeat split; try reflexivity; try exact Ha; lra.
  - assert (Hne : ~ avg_loss n candles == 0) by (rewrite <- Qeq_bool_iff; congruence).
    assert (Hpos : 0 < avg_loss n candles).
    { apply Qle_lteq in Hl as [Hl|Hl]; [exact Hl|]. exfalso. apply Hne. symmetry. exact Hl. }
    destruct (rsi_formula_bounds _ _ Hg Hpos) as [Hlo Hhi].
    eexists _, (wilder n (pairwise true_range candles)).
    repeat split; try reflexivity; try assumption.
    intros Hz. contradiction.
Qed.

End FeatureFacts.

Lemma rsi_atr_bounds_witness :
  (0 < 2)%nat /\ (2 + 1 <= length zigzag)%nat
  /\ exists r a,
       FeatureEngine.rsi 2 zigzag = FeatureEngine.Computed r
       /\ (0 <= r)%Q /\ (r <= 100)%Q
       /\ (FeatureEngine.avg_loss 2 zigzag == 0 -> r == 100)
       /\ FeatureEngine.atr 2 zigzag = FeatureEngine.Computed a
       /\ (0 <= a)%Q.
Proof.
  split; [lia|]. split; [cbn; lia|].
  apply (rsi_atr_bounds 2 zigzag); [lia|cbn; lia].
Defined.

Example rsi_zigzag :
  match FeatureEngine.rsi 2 zigzag with
  | FeatureEngine.Computed r => r == 75
  | FeatureEngine.InsufficientData => False
  end.
Proof. vm_compute. reflexivity. Qed.

Example rsi_rising : FeatureEngine.rsi 2 rising = FeatureEngine.Computed 100.
Proof. vm_compute. reflexivity. Qed.

Example atr_zigzag :
  match FeatureEngine.atr 2 zigzag with
  | FeatureEngine.Computed a => a == 2
  | FeatureEngine.InsufficientData => False
  end.
Proof. vm_compute. reflexivity. Qed.

Example rsi_too_short :
  FeatureEngine.rsi 14 zigzag = FeatureEngine.InsufficientData.
Proof. reflexivity. Qed.

(* ===================================================================== *)
(** * More on MarketDataService                                          *)
(* ===================================================================== *)

Section MarketMore.
Context {F : Type} `{PyFloat F}.
Variable cfg : Config F.

Abbreviation Service := (@MarketDataService F).

(** [subscribe] records the figi, whether it returns or raises. *)
Lemma subscribe_subscriptions (figi : string) (s : Service) :
  subscriptions (snd (subscribe cfg figi s)) = {[figi]} ∪ subscriptions s.
Proof.
  destruct (decide (figi ∈ subscriptions s)) as [Hin|Hnew].
  - unfold subscribe, bind at 1, get. cbn beta iota.
    destruct (decide (figi ∈ subscriptions s)); [|contradiction].
    cbn [snd ret]. symmetry. apply subseteq_union_1_L.
    apply singleton_subseteq_l. exact Hin.
  - apply subscribe_new. exact Hnew.
Qed.

(** X1. Subscribing a figi a second time changes nothing and writes
    nothing, whatever the first call did. *)
Theorem subscribe_twice (figi : string) (s : Service) :
  subscribe cfg figi (snd (subscribe cfg figi s))
  = (Ok tt, snd (subscribe cfg figi s)).
Proof.
  assert (Hin : figi ∈ subscriptions (snd (subscribe cfg figi s))).
  { rewrite subscribe_subscriptions. set_solver. }
  revert Hin. generalize (snd (subscribe cfg figi s)) as s1. intros s1 Hin.
  unfold subscribe, bind at 1, get. cbn beta iota.
  destruct (decide (figi ∈ subscriptions s1)); [reflexivity|contradiction].
Qed.

(** X2. On a connection that takes one more frame, subscribing a new figi
    adds it to the set and writes exactly one frame, its subscribe frame,
    on that connection; order books and candles are not touched. *)
Theorem subscribe_connected (figi : string) (s : Service) (w : WebSocket) :
  figi ∉ subscriptions s ->
  ws s = Some w ->
  accepts w 1 ->
  exists s',
    subscribe cfg figi s = (Ok tt, s')
    /\ subscriptions s' = {[figi]} ∪ subscriptions s
    /\ wire s' = wire s ++ [(ws_id w, subscribe_frame cfg figi)]
    /\ orderbooks s' = orderbooks s
    /\ candles_cache s' = candles_cache s.
Proof.
  intros Hnew Hws Hacc.
  unfold subscribe, bind at 1, get. cbn beta iota.
  destruct (decide (figi ∈ subscriptions s)) as [Hin|_]; [contradiction|].
  unfold bind, modify. cbn beta iota. rewrite Hws.
  unfold ws_send.
  change (ws (set_subscriptions (fun subs => {[figi]} ∪ subs) s)) with (ws s).
  rewrite Hws. unfold accepts in Hacc.
  destruct (send_credit w) as [[|n]|]; [lia| |];
    eexists; repeat split; reflexivity.
Qed.

(** What a turn on an accepted connection does when the peer takes the
    frames of the resubscription. *)
Lemma accepted_turn (w : WebSocket) (s : Service) :
  accepts w (size (subscriptions s)) ->
  exists s',
    streaming_turn cfg (Accepted w) s = (Ok tt, s')
    /\ subscriptions s' = subscriptions s
    /\ wire s' = wire s ++ map (fun figi => (ws_id w, subscribe_frame cfg figi))
                            (elements (subscriptions s)).
Proof.
  intros Hacc.
  destruct (resubscribe_loop cfg (elements (subscriptions s)) (set_ws (Some w) s) w
              eq_refl Hacc) as (sa & wa & Hrun & Hwire & Hsub & _ & _).
  rewrite (streaming_turn_accepted cfg w s sa Hrun).
  destruct (_stream_handler sa) as [r sb] eqn:Hstream.
  destruct (stream_handler_same _ _ _ Hstream) as [Hsub' Hwire'].
  assert (Hclose : subscriptions (close_ws sb) = subscriptions sb
                   /\ wire (close_ws sb) = wire sb).
  { unfold close_ws. destruct (ws sb); split; reflexivity. }
  destruct Hclose as [Hc1 Hc2].
  change (subscriptions (set_ws (Some w) s)) with (subscriptions s) in Hsub.
  change (wire (set_ws (Some w) s)) with (wire s) in Hwire.
  destruct r as [[]|e]; eexists; (split; [reflexivity|]); cbn; split; congruence.
Qed.

(** X3. A figi given to [subscribe] is sent on the next connection that is
    accepted (by a peer that takes the frames of the resubscription), also
    when [subscribe] was called without a connection or raised on a closed
    one. *)
Theorem subscribed_figi_is_sent_on_next_connect (figi : string) (s : Service)
    (w : WebSocket) :
  accepts w (size (subscriptions (snd (subscribe cfg figi s)))) ->
  In (ws_id w, subscribe_frame cfg figi)
     (wire (snd (streaming_turn cfg (Accepted w) (snd (subscribe cfg figi s))))).
Proof.
  intros Hacc.
  destruct (accepted_turn w _ Hacc) as (s' & Hrun & _ & Hwire).
  rewrite Hrun. cbn [snd]. rewrite Hwire. apply in_or_app. right.
  apply in_map_iff. exists figi. split; [reflexivity|].
  apply list_elem_of_In, elem_of_elements.
  rewrite subscribe_subscriptions. set_solver.
Qed.

Lemma ws_send_kept (fr : Frame) (s : Service) r s' :
  ws_send fr s = (r, s') -> ws_kept s s'.
Proof.
  unfold ws_send, ws_kept. destruct (ws s) as [w|] eqn:Hws.
  - destruct (send_credit w) as [[|n]|]; intros [= _ <-] _; cbn; rewrite ?Hws; eauto.
  - intros _ [x Hx]. discriminate Hx.
Qed.

Lemma handle_message_ws (tm : Time * Message) (s : Service) r s' :
  handle_message tm s = (r, s') -> ws s' = ws s.
Proof.
  unfold handle_message. destruct (snd tm) as [|[ev|] payload].
  - intros [= _ <-]. reflexivity.
  - destruct (String.eqb ev "orderbook").
    + destruct payload as [data|]; [|intros [= _ <-]; reflexivity].
      unfold _process_orderbook, bind, lift, modify.
      destruct (build_snapshot data (fst tm)); [|intros [= _ <-]; reflexivity].
      destruct (p_figi data); intros [= _ <-]; reflexivity.
    + intros [= _ <-]. reflexivity.
  - intros [= _ <-]. reflexivity.
Qed.

Lemma stream_handler_ws (s : Service) r s' :
  _stream_handler s = (r, s') -> ws s' = ws s.
Proof.
  unfold _stream_handler, bind at 1, get. cbn beta iota.
  destruct (ws s) as [w|] eqn:Hws; [|intros [= _ <-]; exact Hws].
  unfold bind.
  destruct (for_each (inbox w) handle_message s) as [r0 sc] eqn:Hloop.
  assert (Hsc : ws sc = ws s).
  { apply (for_each_rel (fun s1 s2 : Service => ws s2 = ws s1)) in Hloop;
      [exact Hloop|reflexivity|intros; congruence|apply handle_message_ws]. }
  destruct r0 as [[]|e].
  - destruct (read_error w); intros [= _ <-]; congruence.
  - intros [= _ <-]; congruence.
Qed.

(** When a turn on an accepted connection is over, [self.ws] is that
    connection, closed. *)
Lemma streaming_turn_closes (w : WebSocket) (s : Service) :
  ws_closed (snd (streaming_turn cfg (Accepted w) s)).
Proof.
  assert (Hclosed : forall sb : Service, is_Some (ws sb) -> ws_closed (close_ws sb)).
  { intros sb [w0 Hw0]. unfold ws_closed, close_ws. rewrite Hw0. cbn. eauto. }
  unfold streaming_turn, streaming_try, try_except, with_closing, _resubscribe, bind, get, modify.
  change (subscriptions (set_ws (Some w) s)) with (subscriptions s).
  destruct (for_each (elements (subscriptions s))
              (fun figi => ws_send (subscribe_frame cfg figi)) (set_ws (Some w) s))
    as [r sa] eqn:Hloop.
  assert (Hsa : is_Some (ws sa)).
  { apply (for_each_rel ws_kept) in Hloop.
    - apply Hloop. cbn. eauto.
    - intros s0 Hs0. exact Hs0.
    - intros s1 s2 s3 A B Hs1. apply B, A, Hs1.
    - intros figi s1 r1 s2. apply ws_send_kept. }
  destruct r as [[]|e].
  - destruct (_stream_handler sa) as [r sb] eqn:Hstream.
    apply stream_handler_ws in Hstream.
    assert (Hsb : is_Some (ws sb)) by (rewrite Hstream; exact Hsa).
    destruct r as [[]|e]; cbn; apply Hclosed in Hsb; exact Hsb.
  - cbn. apply Hclosed in Hsa. exact Hsa.
Qed.

(** X4. Once a turn on an accepted connection is over, [self.ws] is the
    closed connection: [subscribe] of a new figi then raises
    ConnectionClosed out of [send], after it has added the figi to the set;
    nothing is written. *)
Theorem subscribe_after_connection_ended (w : WebSocket) (s : Service) (figi : string) :
  figi ∉ subscriptions (snd (streaming_turn cfg (Accepted w) s)) ->
  subscribe cfg figi (snd (streaming_turn cfg (Accepted w) s))
  = (Raise (ExternalError "ConnectionClosed"),
     set_subscriptions (fun subs => {[figi]} ∪ subs)
       (snd (streaming_turn cfg (Accepted w) s))).
Proof.
  pose proof (streaming_turn_closes w s) as (w0 & Hws & Hcredit).
  revert Hws. generalize (snd (streaming_turn cfg (Accepted w) s)) as s1.
  intros s1 Hws Hnew.
  unfold subscribe, bind at 1, get. cbn beta iota.
  destruct (decide (figi ∈ subscriptions s1)) as [Hin|_]; [contradiction|].
  unfold bind, modify. cbn beta iota. rewrite Hws. unfold ws_send.
  change (ws (set_subscriptions (fun subs => {[figi]} ∪ subs) s1)) with (ws s1).
  rewrite Hws, Hcredit. reflexivity.
Qed.

(** X5. [_process_orderbook] is all or nothing: either the update has a
    figi and a snapshot can be built from it, and the call returns with that
    snapshot stored under the figi and nothing else changed; or the call
    raises and the service is exactly as before. *)
Theorem process_orderbook_all_or_nothing (s : Service) (data : Payload) (now : Time) :
  (exists f snap,
      p_figi data = Some f /\ build_snapshot data now = Ok snap
      /\ _process_orderbook data now s
         = (Ok tt, set_orderbooks (fun m => <[f := snap]> m) s))
  \/ (exists e, _process_orderbook data now s = (Raise e, s)).
Proof.
  unfold _process_orderbook, bind, lift, modify.
  destruct (build_snapshot data now) as [snap|e]; [|right; eauto].
  destruct (p_figi data) as [f|]; [left|right; eauto].
  exists f, snap. repeat split; reflexivity.
Qed.

(** X6. Of two updates for the same figi the later one decides, when it can
    be stored: if a snapshot can be built from it, processing it after the
    earlier update gives the result and the service that processing it
    alone gives, whether the earlier update was stored or had raised; if
    none can be built, it raises and leaves the service as the earlier
    update left it. *)
Theorem process_orderbook_overwrites (s : Service) (d1 d2 : Payload) (t1 t2 : Time)
    (f : string) :
  p_figi d1 = Some f -> p_figi d2 = Some f ->
  match build_snapshot (F:=F) d2 t2 with
  | Ok _ =>
      _process_orderbook d2 t2 (snd (_process_orderbook d1 t1 s))
      = _process_orderbook d2 t2 s
  | Raise e =>
      _process_orderbook d2 t2 (snd (_process_orderbook d1 t1 s))
      = (Raise e, snd (_process_orderbook d1 t1 s))
  end.
Proof.
  intros Hf1 Hf2.
  unfold _process_orderbook, bind, lift, modify. rewrite Hf1, Hf2.
  destruct (build_snapshot d2 t2) as [snap2|e2]; [|reflexivity].
  destruct (build_snapshot d1 t1) as [snap1|e1]; [|reflexivity].
  cbn. unfold set_orderbooks. cbn. rewrite insert_insert_eq. reflexivity.
Qed.

(** X7. Updates for different figis commute. *)
Theorem process_orderbook_commutes (s : Service) (d1 d2 : Payload) (t1 t2 : Time)
    (f1 f2 : string) :
  p_figi d1 = Some f1 -> p_figi d2 = Some f2 -> f1 <> f2 ->
  snd (_process_orderbook d2 t2 (snd (_process_orderbook d1 t1 s)))
  = snd (_process_orderbook d1 t1 (snd (_process_orderbook d2 t2 s))).
Proof.
  intros Hf1 Hf2 Hne.
  unfold _process_orderbook, bind, lift, modify. rewrite Hf1, Hf2.
  destruct (build_snapshot d1 t1) as [snap1|e1];
    destruct (build_snapshot d2 t2) as [snap2|e2]; cbn; try reflexivity.
  unfold set_orderbooks. cbn. rewrite insert_insert_ne by congruence. reflexivity.
Qed.

Lemma quiet_refl (s : Service) : quiet s s.
Proof. repeat split. Qed.

Lemma quiet_trans (s1 s2 s3 : Service) : quiet s1 s2 -> quiet s2 s3 -> quiet s1 s3.
Proof. intros (A & B & C & D) (A' & B' & C' & D'). repeat split; congruence. Qed.

Lemma ws_send_quiet (fr : Frame) (s : Service) r s' :
  ws_send fr s = (r, s') -> quiet s s'.
Proof.
  unfold ws_send. destruct (ws s) as [w|]; [|intros [= _ <-]; apply quiet_refl].
  destruct (send_credit w) as [[|n]|]; intros [= _ <-]; repeat split.
Qed.

(** A frame that makes [handle_message] raise leaves the service as it
    was. *)
Lemma handle_message_raise (tm : Time * Message) (s : Service) e s' :
  handle_message tm s = (Raise e, s') -> s' = s.
Proof.
  unfold handle_message. destruct (snd tm) as [|[ev|] payload].
  - intros [= _ <-]. reflexivity.
  - destruct (String.eqb ev "orderbook").
    + destruct payload as [data|]; [|intros [= _ <-]; reflexivity].
      apply process_orderbook_raise.
    + intros [=].
  - intros [= _ <-]. reflexivity.
Qed.

Lemma handle_message_quiet (tm : Time * Message) (s : Service) r s' :
  handle_message tm s = (r, s') -> quiet s s'.
Proof.
  unfold handle_message. destruct (snd tm) as [|[ev|] payload].
  - intros [= _ <-]. apply quiet_refl.
  - destruct (String.eqb ev "orderbook").
    + destruct payload as [data|]; [|intros [= _ <-]; apply quiet_refl].
      unfold _process_orderbook, bind, lift, modify.
      destruct (build_snapshot data (fst tm)); [|intros [= _ <-]; apply quiet_refl].
      destruct (p_figi data); intros [= _ <-]; repeat split.
    + intros [= _ <-]. apply quiet_refl.
  - intros [= _ <-]. apply quiet_refl.
Qed.

Lemma stream_handler_quiet (s : Service) r s' :
  _stream_handler s = (r, s') -> quiet s s'.
Proof.
  unfold _stream_handler, bind at 1, get. cbn beta iota.
  destruct (ws s) as [w|]; [|intros [= _ <-]; apply quiet_refl].
  unfold bind.
  destruct (for_each (inbox w) handle_message s) as [r0 sc] eqn:Hloop.
  apply (for_each_rel quiet) in Hloop;
    [|apply quiet_refl|apply quiet_trans|apply handle_message_quiet].
  destruct r0 as [[]|e].
  - destruct (read_error w); intros [= _ <-]; exact Hloop.
  - intros [= _ <-]; exact Hloop.
Qed.

Lemma close_ws_quiet (s : Service) : quiet s (close_ws s).
Proof. unfold close_ws. destruct (ws s); repeat split. Qed.

(** A turn of [start_streaming] returns; it is either quiet, or it has
    logged one error and slept once, for [reconnect_timeout]. *)
Lemma streaming_turn_cases (a : Attempt) (s : Service) :
  exists s',
    streaming_turn cfg a s = (Ok tt, s')
    /\ candles_cache s' = candles_cache s
    /\ ((svc_log s' = svc_log s /\ slept s' = slept s)
        \/ (exists e,
              svc_log s' = svc_log s ++ [{| levelname := ERROR;
                                            message := "Ошибка подключения: "
                                                       ++ str_exc e |}]
              /\ slept s' = slept s ++ [STREAMING_reconnect_timeout cfg])).
Proof.
  destruct a as [e|w].
  - eexists. split; [apply streaming_turn_refused|]. split; [reflexivity|].
    right. exists e. split; reflexivity.
  - unfold streaming_turn, streaming_try, try_except, with_closing, _resubscribe, bind, get, modify.
    change (subscriptions (set_ws (Some w) s)) with (subscriptions s).
    destruct (for_each (elements (subscriptions s))
                (fun figi => ws_send (subscribe_frame cfg figi)) (set_ws (Some w) s))
      as [r sa] eqn:Hloop.
    apply (for_each_rel quiet) in Hloop;
      [|apply quiet_refl|apply quiet_trans|intros figi s1 r1 s2; apply ws_send_quiet].
    destruct Hloop as (Ha & _ & Hb & Hc). cbn in Ha, Hb, Hc.
    destruct r as [[]|e].
    + destruct (_stream_handler sa) as [r sb] eqn:Hstream.
      apply stream_handler_quiet in Hstream as (Ha' & _ & Hb' & Hc').
      destruct (close_ws_quiet sb) as (Ha'' & _ & Hb'' & Hc'').
      destruct r as [[]|e]; eexists; (split; [reflexivity|]); cbn.
      * split; [congruence|]. left. split; congruence.
      * split; [congruence|]. right. exists e. split; congruence.
    + destruct (close_ws_quiet sa) as (Ha'' & _ & Hb'' & Hc'').
      eexists. split; [reflexivity|]. cbn.
      split; [congruence|]. right. exists e. split; congruence.
Qed.

(** The [try] block of a turn writes neither the log nor the sleeps. *)
Lemma streaming_try_quiet (a : Attempt) (s : Service) r s1 :
  streaming_try cfg a s = (r, s1) -> quiet s s1.
Proof.
  destruct a as [e|w].
  - intros [= _ <-]. apply quiet_refl.
  - unfold streaming_try, with_closing, _resubscribe, bind, get, modify.
    change (subscriptions (set_ws (Some w) s)) with (subscriptions s).
    destruct (for_each (elements (subscriptions s))
                (fun figi => ws_send (subscribe_frame cfg figi)) (set_ws (Some w) s))
      as [r0 sa] eqn:Hloop.
    apply (for_each_rel quiet) in Hloop;
      [|apply quiet_refl|apply quiet_trans|intros figi s2 r2 s3; apply ws_send_quiet].
    destruct Hloop as (Ha & Hsub & Hb & Hc). cbn in Ha, Hsub, Hb, Hc.
    destruct r0 as [[]|e].
    + destruct (_stream_handler sa) as [r1 sb] eqn:Hstream.
      apply stream_handler_quiet in Hstream as (Ha' & Hsub' & Hb' & Hc').
      destruct (close_ws_quiet sb) as (Ha'' & Hsub'' & Hb'' & Hc'').
      intros [= _ <-]. repeat split; congruence.
    + destruct (close_ws_quiet sa) as (Ha'' & Hsub'' & Hb'' & Hc'').
      intros [= _ <-]. repeat split; congruence.
Qed.

(** A turn is its [try] block, followed by one log record and one sleep
    when the block has raised. *)
Lemma streaming_turn_try (a : Attempt) (s : Service) :
  streaming_turn cfg a s
  = match streaming_try cfg a s with
    | (Ok _, s1) => (Ok tt, s1)
    | (Raise e, s1) =>
        (Ok tt,
         sleep (STREAMING_reconnect_timeout cfg)
           (log_svc {| levelname := ERROR;
                       message := "Ошибка подключения: " ++ str_exc e |} s1))
    end.
Proof.
  unfold streaming_turn, try_except.
  destruct (streaming_try cfg a s) as [[[]|e] s1]; reflexivity.
Qed.

(** X8. The cost of [start_streaming] is counted by the failures of its
    [try] blocks.  Over any connection attempts the run goes through every
    turn (the exceptions of the model are instances of [Exception], which
    the handler catches; the cancellation of the task is not one of them
    and is not modelled), and at the end the log has gained exactly one
    ERROR record for each turn whose [try] block raised, with the text of
    that exception, in the order of the turns, and the sleeps have gained
    one [reconnect_timeout] for each of these turns; a turn whose block
    returned has added neither. *)
Theorem start_streaming_accounting (attempts : list Attempt) (s : Service) :
  exists s',
    start_streaming cfg attempts s = (Ok tt, s')
    /\ svc_log s'
       = svc_log s
         ++ map (fun e => {| levelname := ERROR;
                             message := "Ошибка подключения: " ++ str_exc e |})
              (turn_failures cfg attempts s)
    /\ slept s'
       = slept s
         ++ repeat (STREAMING_reconnect_timeout cfg) (length (turn_failures cfg attempts s)).
Proof.
  revert s. induction attempts as [|a attempts IH]; intros s.
  - exists s. cbn. rewrite !app_nil_r. repeat split.
  - cbn [start_streaming turn_failures]. unfold bind.
    rewrite streaming_turn_try.
    destruct (streaming_try cfg a s) as [r s1] eqn:Htry.
    apply streaming_try_quiet in Htry as (_ & _ & Hlog & Hslept).
    destruct r as [[]|e]; cbn [fst snd].
    + destruct (IH s1) as (s' & Hrun & Hl & Hs).
      exists s'. rewrite Hrun, Hl, Hs, Hlog, Hslept. repeat split.
    + destruct (IH (sleep (STREAMING_reconnect_timeout cfg)
                      (log_svc {| levelname := ERROR;
                                  message := "Ошибка подключения: " ++ str_exc e |} s1)))
        as (s' & Hrun & Hl & Hs).
      exists s'. rewrite Hrun, Hl, Hs. cbn [svc_log slept sleep log_svc map length repeat].
      rewrite Hlog, Hslept, <- !app_assoc. repeat split.
Qed.

Lemma for_each_app {A} (body : A -> Eff Service unit) (xs ys : list A) (s : Service) :
  for_each (xs ++ ys) body s
  = match for_each xs body s with
    | (Ok _, s1) => for_each ys body s1
    | (Raise e, s1) => (Raise e, s1)
    end.
Proof.
  revert s. induction xs as [|x xs IH]; intros s; [reflexivity|].
  cbn [app for_each]. unfold bind.
  destruct (body x s) as [[[]|e] s1]; [apply IH|reflexivity].
Qed.

(** X9. The first frame that makes the handler raise ends the reading: the
    frames before it are applied, the exception leaves [_stream_handler],
    and the frames after it are never looked at. *)
Theorem stream_stops_at_bad_frame (s s1 : Service) (w : WebSocket)
    (pre post : list (Time * Message)) (bad : Time * Message) (e : PyExc) :
  ws s = Some w ->
  inbox w = pre ++ bad :: post ->
  for_each pre handle_message s = (Ok tt, s1) ->
  fst (handle_message bad s1) = Raise e ->
  _stream_handler s = (Raise e, s1).
Proof.
  intros Hws Hinbox Hpre Hbad.
  unfold _stream_handler, bind at 1, get. cbn beta iota. rewrite Hws, Hinbox.
  unfold bind at 1. rewrite for_each_app, Hpre. cbn [for_each]. unfold bind at 1.
  destruct (handle_message bad s1) as [r s2] eqn:Hrun. cbn in Hbad. subst r.
  apply handle_message_raise in Hrun. subst s2. reflexivity.
Qed.

Lemma handle_well_formed (tm : Time * Message) (s : Service) :
  well_formed tm -> exists s', handle_message tm s = (Ok tt, s').
Proof.
  intros (ev & payload & Hmsg & Hbook). unfold handle_message. rewrite Hmsg.
  destruct (String.eqb ev "orderbook") eqn:Hev; [|eexists; reflexivity].
  apply String.eqb_eq in Hev. destruct (Hbook Hev) as (data & f & snap & -> & Hf & Hsnap).
  unfold _process_orderbook, bind, lift, modify. rewrite Hsnap, Hf.
  eexists; reflexivity.
Qed.

Lemma for_each_well_formed (tms : list (Time * Message)) (s : Service) :
  Forall well_formed tms -> exists s', for_each tms handle_message s = (Ok tt, s').
Proof.
  intros Hall. revert s. induction Hall as [|tm tms Htm _ IH]; intros s.
  - exists s. reflexivity.
  - destruct (handle_well_formed tm s Htm) as (s1 & Hrun).
    destruct (IH s1) as (s' & Hrest).
    exists s'. cbn [for_each]. unfold bind. rewrite Hrun. exact Hrest.
Qed.

(** X10. A connection whose frames are all handled and that the peer then
    closes without an error is followed by no sleep and no log record: the
    loop connects again at once. *)
Theorem clean_close_has_no_backoff (w : WebSocket) (s : Service) :
  accepts w (size (subscriptions s)) ->
  Forall well_formed (inbox w) ->
  read_error w = None ->
  exists s',
    streaming_turn cfg (Accepted w) s = (Ok tt, s')
    /\ slept s' = slept s
    /\ svc_log s' = svc_log s
    /\ wire s' = wire s ++ map (fun figi => (ws_id w, subscribe_frame cfg figi))
                            (elements (subscriptions s)).
Proof.
  intros Hacc Hall Hend.
  destruct (resubscribe_loop cfg (elements (subscriptions s)) (set_ws (Some w) s) w
              eq_refl Hacc) as (sa & wa & Hrun & Hwire & _ & Hwsa & _).
  pose proof Hrun as Hq.
  apply (for_each_rel quiet) in Hq;
    [|apply quiet_refl|apply quiet_trans|intros figi s1 r1 s2; apply ws_send_quiet].
  destruct Hq as (_ & _ & Hlog & Hslept). cbn in Hlog, Hslept.
  rewrite (streaming_turn_accepted cfg w s sa Hrun).
  assert (Hinbox : inbox wa = inbox w /\ read_error wa = read_error w).
  { clear - Hrun Hwsa.
    assert (Hgen : forall figis (s0 : Service) w0 s1 w1,
               ws s0 = Some w0 ->
               for_each figis (fun figi => ws_send (subscribe_frame cfg figi)) s0
               = (Ok tt, s1) ->
               ws s1 = Some w1 -> inbox w1 = inbox w0 /\ read_error w1 = read_error w0).
    { induction figis as [|figi figis IH]; intros s0 w0 s1 w1 Hw0 Hloop Hw1.
      - injection Hloop as <-. rewrite Hw0 in Hw1. injection Hw1 as <-. split; reflexivity.
      - cbn [for_each] in Hloop. unfold bind at 1, ws_send at 1 in Hloop.
        rewrite Hw0 in Hloop. destruct (send_credit w0) as [[|n]|]; [discriminate| |].
        + eapply IH in Hloop; [|reflexivity|exact Hw1]. exact Hloop.
        + eapply IH in Hloop; [|exact Hw0|exact Hw1]. exact Hloop. }
    eapply Hgen; [|exact Hrun|exact Hwsa]. reflexivity. }
  destruct Hinbox as [Hin Herr].
  assert (Hstream : exists sb, _stream_handler sa = (Ok tt, sb)).
  { unfold _stream_handler, bind at 1, get. cbn beta iota. rewrite Hwsa.
    unfold bind. rewrite Hin, Herr, Hend.
    destruct (for_each_well_formed (inbox w) sa Hall) as (sb & Hsb).
    rewrite Hsb. eexists; reflexivity. }
  destruct Hstream as (sb & Hstream). rewrite Hstream.
  pose proof (stream_handler_quiet _ _ _ Hstream) as (_ & _ & Hlog' & Hslept').
  destruct (stream_handler_same _ _ _ Hstream) as [_ Hwire'].
  destruct (close_ws_quiet sb) as (_ & _ & Hlog'' & Hslept'').
  assert (Hcw : wire (close_ws sb) = wire sb).
  { unfold close_ws. destruct (ws sb); reflexivity. }
  change (wire (set_ws (Some w) s)) with (wire s) in Hwire.
  eexists. split; [reflexivity|]. repeat split; congruence.
Qed.

Lemma subscribe_quiet_but_subscriptions (figi : string) (s : Service) :
  candles_cache (snd (subscribe cfg figi s)) = candles_cache s
  /\ orderbooks (snd (subscribe cfg figi s)) = orderbooks s.
Proof.
  unfold subscribe, bind, get, modify. cbn beta iota.
  destruct (decide (figi ∈ subscriptions s)) as [Hin|Hnew]; [split; reflexivity|].
  destruct (ws s) as [w|] eqn:Hws; [|split; reflexivity].
  unfold ws_send.
  change (ws (set_subscriptions (fun subs => {[figi]} ∪ subs) s)) with (ws s).
  rewrite Hws. destruct (send_credit w) as [[|n]|]; split; reflexivity.
Qed.

Lemma process_orderbook_quiet (data : Payload) (now : Time) (s : Service) :
  quiet s (snd (_process_orderbook data now s)).
Proof.
  unfold _process_orderbook, bind, lift, modify.
  destruct (build_snapshot data now); [|apply quiet_refl].
  destruct (p_figi data); repeat split.
Qed.

Lemma process_orderbook_same (data : Payload) (now : Time) (s : Service) :
  same_subscriptions_and_wire s (snd (_process_orderbook data now s)).
Proof.
  unfold _process_orderbook, bind, lift, modify.
  destruct (build_snapshot data now); [|apply same_refl].
  destruct (p_figi data); split; reflexivity.
Qed.

(** X11. No method of the service writes the candles cache: after
    [subscribe], after any run of [start_streaming] and after
    [_process_orderbook] it is what it was. *)
Theorem candles_cache_is_never_written (s : Service) :
  (forall figi, candles_cache (snd (subscribe cfg figi s)) = candles_cache s)
  /\ (forall attempts,
        candles_cache (snd (start_streaming cfg attempts s)) = candles_cache s)
  /\ (forall data now,
        candles_cache (snd (_process_orderbook data now s)) = candles_cache s).
Proof.
  split; [intros figi; apply subscribe_quiet_but_subscriptions|]. split.
  - intros attempts. revert s. induction attempts as [|a attempts IH]; intros s.
    + reflexivity.
    + destruct (streaming_turn_cases a s) as (s1 & Hturn & Hcache & _).
      cbn [start_streaming]. unfold bind. rewrite Hturn, IH. exact Hcache.
  - intros data now. apply process_orderbook_quiet.
Qed.

(** X12. No method of the service removes a subscription: [subscribe]
    leaves the set with the figi added, whether it returns or raises, and
    any run of [start_streaming] and [_process_orderbook] leave the set as
    it was. *)
Theorem subscriptions_are_never_removed (s : Service) :
  (forall figi,
      subscriptions (snd (subscribe cfg figi s)) = {[figi]} ∪ subscriptions s)
  /\ (forall attempts,
        subscriptions (snd (start_streaming cfg attempts s)) = subscriptions s)
  /\ (forall data now,
        subscriptions (snd (_process_orderbook data now s)) = subscriptions s).
Proof.
  split; [intros figi; apply subscribe_subscriptions|].
  split; [intros attempts; apply start_streaming_subscriptions|].
  intros data now. apply process_orderbook_quiet.
Qed.

Lemma wire_ok_mono (s s' : Service) :
  wire s' = wire s -> subscriptions s ⊆ subscriptions s' ->
  wire_ok cfg s -> wire_ok cfg s'.
Proof.
  unfold wire_ok. intros Hwire Hsub Hok. rewrite Hwire.
  eapply Forall_impl; [exact Hok|]. intros wf [A B]. split; [exact A|].
  apply Hsub, B.
Qed.

Lemma ws_send_wire_ok (figi : string) (s : Service) r s' :
  figi ∈ subscriptions s -> wire_ok cfg s ->
  ws_send (subscribe_frame cfg figi) s = (r, s') ->
  wire_ok cfg s' /\ subscriptions s' = subscriptions s.
Proof.
  intros Hin Hok. unfold ws_send.
  destruct (ws s) as [w|]; [|intros [= _ <-]; split; [exact Hok|reflexivity]].
  assert (Hemit : forall s0 : Service,
             subscriptions s0 = subscriptions s -> wire s0 = wire s ->
             wire_ok cfg (emit (ws_id w) (subscribe_frame cfg figi) s0)).
  { intros s0 Hs Hw. unfold wire_ok. cbn. rewrite Hs, Hw.
    apply Forall_app. split; [exact Hok|]. constructor; [|constructor].
    cbn. split; [reflexivity|exact Hin]. }
  destruct (send_credit w) as [[|n]|]; intros [= _ <-].
  - split; [exact Hok|reflexivity].
  - split; [apply Hemit; reflexivity|reflexivity].
  - split; [apply Hemit; reflexivity|reflexivity].
Qed.

Lemma resubscribe_wire_ok (figis : list string) (s : Service) r s' :
  (forall figi, In figi figis -> figi ∈ subscriptions s) -> wire_ok cfg s ->
  for_each figis (fun figi => ws_send (subscribe_frame cfg figi)) s = (r, s') ->
  wire_ok cfg s' /\ subscriptions s' = subscriptions s.
Proof.
  revert s. induction figis as [|figi figis IH]; intros s Hin Hok Hrun.
  - injection Hrun as _ <-. split; [exact Hok|reflexivity].
  - cbn [for_each] in Hrun. unfold bind in Hrun.
    destruct (ws_send (subscribe_frame cfg figi) s) as [r1 s1] eqn:Hsend.
    apply ws_send_wire_ok in Hsend as [Hok1 Hsub1]; [|apply Hin; left; reflexivity|exact Hok].
    destruct r1 as [[]|e].
    + apply IH in Hrun as [Hok' Hsub']; [split; [exact Hok'|congruence]| |exact Hok1].
      intros f Hf. rewrite Hsub1. apply Hin. right. exact Hf.
    + injection Hrun as _ <-. split; assumption.
Qed.

(** X13. Every frame ever written is the subscribe frame (event
    "orderbook:subscribe", the configured depth) of a figi that is in the
    subscription set: [subscribe], a turn of [start_streaming] and
    [_process_orderbook] keep this true. *)
Theorem wire_ok_is_kept (s : Service) :
  wire_ok cfg s ->
  (forall figi, wire_ok cfg (snd (subscribe cfg figi s)))
  /\ (forall a, wire_ok cfg (snd (streaming_turn cfg a s)))
  /\ (forall data now, wire_ok cfg (snd (_process_orderbook data now s))).
Proof.
  intros Hok. split; [|split].
  - intros figi. unfold subscribe, bind at 1, get. cbn beta iota.
    destruct (decide (figi ∈ subscriptions s)); [exact Hok|].
    unfold bind, modify. cbn beta iota.
    assert (Hok1 : wire_ok cfg (set_subscriptions (fun subs => {[figi]} ∪ subs) s)).
    { eapply wire_ok_mono; [| |exact Hok]; [reflexivity|cbn; set_solver]. }
    destruct (ws s) as [w|]; [|exact Hok1].
    destruct (ws_send (subscribe_frame cfg figi)
                (set_subscriptions (fun subs => {[figi]} ∪ subs) s)) as [r s'] eqn:Hsend.
    apply ws_send_wire_ok in Hsend as [Hok' _]; [exact Hok'| |exact Hok1].
    cbn. set_solver.
  - intros [e|w]; [exact Hok|].
    unfold streaming_turn, streaming_try, try_except, with_closing, _resubscribe, bind, get, modify.
    change (subscriptions (set_ws (Some w) s)) with (subscriptions s).
    destruct (for_each (elements (subscriptions s))
                (fun figi => ws_send (subscribe_frame cfg figi)) (set_ws (Some w) s))
      as [r sa] eqn:Hloop.
    apply resubscribe_wire_ok in Hloop as [Hoka Hsuba];
      [|intros figi Hf; apply elem_of_elements, list_elem_of_In; exact Hf|exact Hok].
    assert (Hclose : forall sb : Service, wire_ok cfg sb -> wire_ok cfg (close_ws sb)).
    { intros sb Hsb. unfold close_ws. destruct (ws sb); exact Hsb. }
    destruct r as [[]|e].
    + destruct (_stream_handler sa) as [r sb] eqn:Hstream.
      apply stream_handler_same in Hstream as [Hs Hw].
      assert (Hokb : wire_ok cfg sb).
      { eapply wire_ok_mono; [exact Hw| |exact Hoka]. rewrite Hs. reflexivity. }
      destruct r as [[]|e]; cbn; apply Hclose in Hokb; exact Hokb.
    + cbn. apply Hclose in Hoka. exact Hoka.
  - intros data now. destruct (process_orderbook_same data now s) as [Hs Hw].
    eapply wire_ok_mono; [exact Hw| |exact Hok]. rewrite Hs. reflexivity.
Qed.

End MarketMore.

(* ===================================================================== *)
(** * More on TradingEngine                                              *)
(* ===================================================================== *)

Section EngineMore.
Context {F Model DataFrame : Type} `{PyFloat F}.
Variable cfg : Config F.
Variable world : World F Model DataFrame.

Abbreviation Engine := (@TradingEngine Model).

(** The two ways in which [analyze] ends. *)
Lemma analyze_cases (ticker mode : string) (now : Time) (s : Engine) :
  (exists d, analyze_body cfg world ticker mode now s = (Ok d, s)
             /\ analyze cfg world ticker mode now s = (Ok d, s))
  \/ (exists e s1, analyze_body cfg world ticker mode now s = (Raise e, s1)
                   /\ analyze cfg world ticker mode now s
                      = (Ok (error_dict e),
                         log_eng ERROR ("Ошибка анализа: " ++ str_exc e) s)).
Proof.
  unfold analyze, try_except.
  destruct (analyze_body cfg world ticker mode now s) as [[d|e] s1] eqn:Hbody.
  - left. exists d. pose proof Hbody as Hok.
    apply analyze_body_ok in Hok
      as (? & ? & ? & ? & ? & ? & ? & ? & ? & ? & ? & _ & _ & _ & _ & _ & _ & _ & _ & _
          & _ & _ & _ & _ & ->).
    split; reflexivity.
  - right. exists e, s1. split; [reflexivity|].
    assert (s1 = s) as ->; [|reflexivity].
    revert Hbody.
    unfold analyze_body, bind, lift, get, raise, ret.
    intros Hrun. split_run Hrun; injection Hrun as _ <-; reflexivity.
Qed.

(** X14. No exception leaves [analyze], and it writes nothing but the log:
    either it returns the dict of a result and the engine is untouched, or
    it returns the dict [{"error": str(e)}] of the exception [e] that its
    [try] block raised, and has logged one ERROR record with that
    message. *)
Theorem analyze_never_raises (ticker mode : string) (now : Time) (s : Engine) :
  (exists a price,
      analyze cfg world ticker mode now s
      = (Ok (result_dict world ticker a price now), s))
  \/ (exists e,
        fst (analyze_body cfg world ticker mode now s) = Raise e
        /\ analyze cfg world ticker mode now s
           = (Ok (error_dict e), log_eng ERROR ("Ошибка анализа: " ++ str_exc e) s)).
Proof.
  destruct (analyze_cases ticker mode now s) as [(d & Hbody & Hrun)|(e & s1 & Hbody & Hrun)].
  - left. apply analyze_body_ok in Hbody
      as (? & ? & ? & ? & ? & ? & ? & ? & a & a' & c & _ & _ & _ & _ & _ & _ & _ & _ & _
          & _ & _ & _ & -> & _).
    exists a', (_convert_quotation (c_close c)). exact Hrun.
  - right. exists e. rewrite Hbody. split; [reflexivity|exact Hrun].
Qed.

Lemma dom_result_dict (ticker : string) (a : Analysis) (price : F) (now : Time) :
  dom (result_dict world ticker a price now) = result_keys.
Proof.
  unfold result_dict, result_keys. rewrite !dom_insert_L, dom_empty_L. set_solver.
Qed.

Lemma dom_error_dict (e : PyExc) : dom (error_dict (F:=F) e) = {["error"]}.
Proof. unfold error_dict. rewrite dom_insert_L, dom_empty_L. set_solver. Qed.

(** X15. The dict that [analyze] returns has either the single key [error]
    or exactly the seven keys of a result; an error never comes with a part
    of a result. *)
Theorem analyze_keys (ticker mode : string) (now : Time) (s : Engine) :
  exists d,
    fst (analyze cfg world ticker mode now s) = Ok d
    /\ (dom d = {["error"]} \/ dom d = result_keys).
Proof.
  destruct (analyze_cases ticker mode now s) as [(d & Hbody & Hrun)|(e & s1 & Hbody & Hrun)];
    rewrite Hrun; eexists; (split; [reflexivity|]).
  - right. apply analyze_body_ok in Hbody
      as (? & ? & ? & ? & ? & ? & ? & ? & a & a' & c & _ & _ & _ & _ & _ & _ & _ & _ & _
          & _ & _ & _ & -> & _).
    apply dom_result_dict.
  - left. apply dom_error_dict.
Qed.

(** X16. A result is only made of candles: when [analyze] returns a dict
    without the key [error], the candles it fetched were not empty and were
    at least [min_candles], whatever the sign of [min_candles]. *)
Theorem result_needs_candles (ticker mode : string) (now : Time) (s s' : Engine)
    (d : gmap string (Value F)) :
  analyze cfg world ticker mode now s = (Ok d, s') ->
  d !! "error" = None ->
  exists params figi n_days ival candles needed,
    strategy_params cfg mode = Ok params
    /\ days params = Some n_days /\ interval params = Some ival
    /\ min_candles params = Some needed
    /\ get_candles world figi n_days ival = Ok candles
    /\ candles <> []
    /\ needed <= Z.of_nat (length candles).
Proof.
  intros Hrun Herr.
  apply analyze_without_error in Hrun; [|exact Herr].
  apply analyze_body_ok in Hrun
    as (items & instrument & params & figi & n_days & ival & candles & needed & a & a' & c
        & _ & _ & Hparams & _ & Hdays & Hival & Hcandles & Hmin & Hlen & _ & _ & Hlast
        & _ & _).
  exists params, figi, n_days, ival, candles, needed.
  repeat (split; [assumption|]). split.
  - intros ->. discriminate Hlast.
  - apply Z.ltb_ge. exact Hlen.
Qed.

(** What the model step has computed when it returns. *)
Lemma ml_analysis_cases (m : Model) (candles : list HistoricCandle) (a a' : Analysis) :
  ml_analysis cfg world m candles a = Ok a' ->
  (truth world m = Ok false /\ a' = a)
  \/ (exists c row label proba,
        truth world m = Ok true
        /\ last candles = Some c
        /\ comprehension (feature a (c_volume c)) (ML_features cfg) = Ok row
        /\ predict world m row = Ok label
        /\ predict_proba world m row = Ok proba
        /\ an_decision a' = (if Z.eqb label 1 then "Покупать" else "Продавать")
        /\ an_ml_confidence a' = Some (f_mul proba (f_of_int 100))).
Proof.
  unfold ml_analysis, last_item. intros Hrun.
  destruct (truth world m) as [[|]|];
    [|injection Hrun as <-; left; split; reflexivity|discriminate].
  right.
  destruct (last candles) as [c|]; [|discriminate].
  destruct (comprehension (feature a (c_volume c)) (ML_features cfg)) as [row|] eqn:Hrow;
    [|discriminate].
  destruct (predict world m row) as [label|] eqn:Hlabel; [|discriminate].
  destruct (predict_proba world m row) as [proba|] eqn:Hproba; [|discriminate].
  injection Hrun as <-. exists c, row, label, proba.
  repeat split; try reflexivity; assumption.
Qed.

(** X17. The decision of a result is one of three strings, and which one is
    decided by the model step alone: with no model, or a model that is
    false as a bool, the decision is "Держать" and the confidence the int
    0; otherwise the decision is "Покупать" exactly when the label that
    [predict] gives for the features (in the order of
    [ML_SETTINGS["features"]]) is 1, "Продавать" for any other label, and
    the confidence is the float [predict_proba * 100]. *)
Theorem analyze_decision (ticker mode : string) (now : Time) (s s' : Engine)
    (d : gmap string (Value F)) :
  analyze cfg world ticker mode now s = (Ok d, s') ->
  d !! "error" = None ->
  ((ml_model s = None \/ exists m, ml_model s = Some m /\ truth world m = Ok false)
   /\ d !! "decision" = Some (VStr "Держать")
   /\ d !! "confidence" = Some (VInt 0))
  \/ (exists m row label proba,
        ml_model s = Some m /\ truth world m = Ok true
        /\ predict world m row = Ok label
        /\ predict_proba world m row = Ok proba
        /\ length row = length (ML_features cfg)
        /\ d !! "decision"
           = Some (VStr (if Z.eqb label 1 then "Покупать" else "Продавать"))
        /\ d !! "confidence" = Some (VFloat (f_mul proba (f_of_int 100)))).
Proof.
  intros Hrun Herr.
  apply analyze_without_error in Hrun; [|exact Herr].
  apply analyze_body_ok in Hrun
    as (items & instrument & params & figi & n_days & ival & candles & needed & a & a' & c
        & _ & _ & _ & _ & _ & _ & _ & _ & _ & Hta & Hml & _ & -> & _).
  destruct (technical_analysis_ok _ _ _ _ _ Hta)
    as (? & ? & ? & ? & _ & _ & _ & _ & _ & _ & _ & Hdec & Hconf).
  destruct (ml_model s) as [m|].
  - apply ml_analysis_cases in Hml
      as [[Hfalse ->]|(c' & row & label & proba & Htrue & _ & Hrow & Hp & Hpp & Hd & Hc)].
    + left. split; [right; eauto|]. unfold result_dict. rewrite Hdec, Hconf.
      split; reflexivity.
    + right. exists m, row, label, proba. repeat (split; [assumption || reflexivity|]).
      split.
      * clear - Hrow. revert row Hrow.
        induction (ML_features cfg) as [|k ks IH]; intros row Hrow.
        -- injection Hrow as <-. reflexivity.
        -- cbn [comprehension] in Hrow.
           destruct (feature a (c_volume c') k); [|discriminate].
           destruct (comprehension (feature a (c_volume c')) ks); [|discriminate].
           injection Hrow as <-. cbn. f_equal. apply IH. reflexivity.
      * unfold result_dict. rewrite Hd, Hc. split; reflexivity.
  - injection Hml as <-. left. split; [left; reflexivity|].
    unfold result_dict. rewrite Hdec, Hconf. split; reflexivity.
Qed.

(** X18. [analyze] depends on its ticker only through [str.upper]: on two
    tickers that have the same upper-casing it returns the same dict, the
    value under [ticker] included, and leaves the same engine. *)
Theorem analyze_same_upper (ticker ticker' mode : string) (now : Time) (s : Engine) :
  str_upper world ticker = str_upper world ticker' ->
  analyze cfg world ticker mode now s = analyze cfg world ticker' mode now s.
Proof.
  intros Hsame. unfold analyze, analyze_body, result_dict. rewrite Hsame. reflexivity.
Qed.

(** X19. A result needs the whole configuration: if [Config] has no
    [STRATEGY_PARAMS], or its [RISK_MANAGEMENT] lacks one of the two
    multipliers, every call of [analyze] returns an error, whatever the
    ticker, the mode and the answers of the world. *)
Theorem analyze_needs_config (ticker mode : string) (now : Time) (s : Engine) :
  STRATEGY_PARAMS cfg = None
  \/ RISK_MANAGEMENT cfg !! "stop_loss_multiplier" = None
  \/ RISK_MANAGEMENT cfg !! "take_profit_multiplier" = None ->
  exists e,
    analyze cfg world ticker mode now s
    = (Ok (error_dict e), log_eng ERROR ("Ошибка анализа: " ++ str_exc e) s).
Proof.
  intros Hcfg.
  destruct (analyze_cases ticker mode now s) as [(d & Hbody & _)|(e & s1 & _ & Hrun)];
    [exfalso|exists e; exact Hrun].
  apply analyze_body_ok in Hbody
    as (items & instrument & params & figi & n_days & ival & candles & needed & a & a' & c
        & _ & _ & Hparams & _ & _ & _ & _ & _ & _ & Hta & _).
  destruct (technical_analysis_ok _ _ _ _ _ Hta)
    as (? & ? & sl & tp & _ & _ & _ & Hsl & Htp & _).
  destruct Hcfg as [Hnone|[Hnone|Hnone]].
  - unfold strategy_params in Hparams. rewrite Hnone in Hparams. discriminate.
  - congruence.
  - congruence.
Qed.

(** A training, as the code runs it: two log records and nothing else. *)
Lemma train_model_run (now : Time) (s : Engine) :
  train_model cfg world now s
  = (Ok tt,
     log_eng ERROR ("❌ Ошибка обучения: 'coroutine' object is not subscriptable")
       (log_eng INFO "🔄 Начало обучения модели..." s)).
Proof. reflexivity. Qed.

(** X20. The retraining task fails the same way at every cycle: after any
    number of cycles of [_init_ml], [ml_model] and [last_trained] are what
    they were, and each cycle has added two records to the log, the start
    of the training and the TypeError of line 128. *)
Theorem init_ml_cycles (nows : list Time) (s : Engine) :
  exists s',
    _init_ml cfg world nows s = (Ok tt, s')
    /\ ml_model s' = ml_model s
    /\ last_trained s' = last_trained s
    /\ eng_log s'
       = eng_log s
         ++ flat_map
              (fun _ : Time =>
                 [{| levelname := INFO; message := "🔄 Начало обучения модели..." |};
                  {| levelname := ERROR;
                     message := "❌ Ошибка обучения: "
                                ++ "'coroutine' object is not subscriptable" |}])
              nows.
Proof.
  revert s. induction nows as [|now nows IH]; intros s.
  - exists s. cbn. rewrite app_nil_r. repeat split.
  - cbn [_init_ml flat_map]. unfold bind. rewrite train_model_run.
    destruct (IH (log_eng ERROR
                    ("❌ Ошибка обучения: 'coroutine' object is not subscriptable")
                    (log_eng INFO "🔄 Начало обучения модели..." s)))
      as (s' & Hrun & Hm & Ht & Hlog).
    exists s'. rewrite Hrun. split; [reflexivity|].
    split; [exact Hm|]. split; [exact Ht|].
    rewrite Hlog. cbn. rewrite <- !app_assoc. reflexivity.
Qed.

(** X21. Lines 129-149 of [train_model], had line 128 given them the
    instruments, replace the model before they know whether it can be
    fitted.  A run that fails before the classifier is constructed leaves
    the engine untouched; from then on [ml_model] is the new object as
    [fit] leaves it, also when [fit] raises, and [last_trained] is set
    exactly when [fit] returns, also when [score] raises after it. *)
Theorem train_on_replaces_model_before_fit (now : Time)
    (instruments : list (gmap string string)) (s s' : Engine) (r : PyResult unit) :
  train_on cfg world now instruments s = (r, s') ->
  (s' = s /\ exists e, r = Raise e)
  \/ (exists m X y,
        new_model world = Ok m
        /\ ml_model s' = Some (fst (fit world m X y))
        /\ match snd (fit world m X y) with
           | Some e => r = Raise e /\ last_trained s' = last_trained s
           | None => last_trained s' = Some now
           end).
Proof.
  unfold train_on, bind, lift, modify, raise.
  destruct (training_frames cfg world instruments) as [data|e];
    [|intros [= <- <-]; left; eauto].
  destruct (pd_concat world data) as [full_data|e]; [|intros [= <- <-]; left; eauto].
  destruct (pd_select world full_data (ML_features cfg)) as [X|e];
    [|intros [= <- <-]; left; eauto].
  destruct (pd_column world full_data "target") as [y|e]; [|intros [= <- <-]; left; eauto].
  destruct (new_model world) as [m|e]; [|intros [= <- <-]; left; eauto].
  intros Hrun. right. exists m, X, y. split; [reflexivity|].
  destruct (fit world m X y) as [m' [e|]]; cbn [fst snd] in *.
  - injection Hrun as <- <-. repeat split; reflexivity.
  - destruct (score_pct world m' X y); injection Hrun as <- <-; split; reflexivity.
Qed.

End EngineMore.

Section EngineRunFacts.
Context {F Model DataFrame : Type} `{PyFloat F}.
Variable cfg : Config F.

Lemma run_engine_call_keeps_model (s : @TradingEngine Model)
    (c : @EngineCall F Model DataFrame) :
  ml_model (run_engine_call cfg s c) = ml_model s
  /\ last_trained (run_engine_call cfg s c) = last_trained s.
Proof.
  destruct c as [world now|world ticker mode now]; cbn [run_engine_call].
  - rewrite train_model_run. split; reflexivity.
  - destruct (analyze_cases cfg world ticker mode now s)
      as [(d & _ & ->)|(e & s1 & _ & ->)]; split; reflexivity.
Qed.

Lemma fold_engine_calls_keep_model (calls : list (@EngineCall F Model DataFrame))
    (s : @TradingEngine Model) :
  ml_model (fold_left (run_engine_call cfg) calls s) = ml_model s
  /\ last_trained (fold_left (run_engine_call cfg) calls s) = last_trained s.
Proof.
  revert s. induction calls as [|c calls IH]; intros s; [split; reflexivity|].
  cbn [fold_left]. destruct (IH (run_engine_call cfg s c)) as [A B].
  destruct (run_engine_call_keeps_model s c) as [C D]. split; congruence.
Qed.

(** X22. The engine of a running process never has a model: after any
    sequence of trainings and analyses made on the engine that [__init__]
    leaves, [ml_model] and [last_trained] are still [None]. *)
Theorem model_is_never_trained (calls : list (@EngineCall F Model DataFrame)) :
  ml_model (engine_after cfg calls) = None
  /\ last_trained (engine_after cfg calls) = None.
Proof. apply (fold_engine_calls_keep_model calls init_engine). Qed.

(** X23. So the process never recommends to buy or to sell: whatever
    trainings and analyses came before, a call of [analyze] returns an
    error or a result whose decision is "Держать" and whose confidence is
    the int 0. *)
Theorem analyze_only_ever_holds (calls : list (@EngineCall F Model DataFrame))
    (world : World F Model DataFrame) (ticker mode : string) (now : Time) :
  exists d,
    fst (analyze cfg world ticker mode now (engine_after cfg calls)) = Ok d
    /\ (is_Some (d !! "error")
        \/ (d !! "decision" = Some (VStr "Держать")
            /\ d !! "confidence" = Some (VInt 0))).
Proof.
  destruct (fold_engine_calls_keep_model calls init_engine) as [Hnone _].
  fold (engine_after cfg calls) in Hnone. cbn in Hnone.
  destruct (analyze_cases cfg world ticker mode now (engine_after cfg calls))
    as [(d & Hbody & ->)|(e & s1 & _ & ->)]; eexists; (split; [reflexivity|]).
  - right. apply analyze_body_ok in Hbody
      as (? & ? & ? & ? & ? & ? & ? & ? & a & a' & c & _ & _ & _ & _ & _ & _ & _ & _ & _
          & Hta & Hml & _ & -> & _).
    rewrite Hnone in Hml. injection Hml as <-.
    destruct (technical_analysis_ok _ _ _ _ _ Hta)
      as (? & ? & ? & ? & _ & _ & _ & _ & _ & _ & _ & Hdec & Hconf).
    unfold result_dict. rewrite Hdec, Hconf. split; reflexivity.
  - left. eexists. reflexivity.
Qed.

End EngineRunFacts.

(* ===================================================================== *)
(** * The handlers                                                       *)
(* ===================================================================== *)

Section HandlerFacts.
Context {F Model DataFrame : Type} `{PyFloat F}.
Variable cfg : Config F.
Variable str_float : F -> string.
Variable format_2f : F -> string.
Variable telegram : nat -> option PyExc.

Abbreviation TheBot := (@Bot Model).

(** An answer that Telegram takes. *)
Lemma answer_delivered (text : string) (markup : Keyboard) (b : TheBot) :
  telegram (answer_calls b) = None ->
  answer telegram text markup b
  = (Ok tt, {| fsm_state := fsm_state b; fsm_data := fsm_data b;
               trading_engine := trading_engine b;
               answers := answers b ++ [{| ans_text := text; ans_markup := markup |}];
               answer_calls := S (answer_calls b); bot_log := bot_log b |}).
Proof. intros Htg. unfold answer. rewrite Htg. reflexivity. Qed.

(** [analyze] returns, whatever it is given. *)
Lemma analyze_returns (world : World F Model DataFrame) (ticker mode : string)
    (now : Time) (s : @TradingEngine Model) :
  exists d s', analyze cfg world ticker mode now s = (Ok d, s').
Proof.
  destruct (analyze_cases cfg world ticker mode now s)
    as [(d & _ & ->)|(e & s1 & _ & ->)]; eauto.
Qed.

(** X24. [process_mode] stores the chosen mode and wipes it at once: when
    its confirmation is delivered, the chat is left with no state and no
    data, so that the mode a later [process_ticker] reads is the default
    "short_term"; the mode stays stored only when the confirmation could
    not be delivered, the exception of [answer] leaving the handler before
    [state.clear()]. *)
Theorem process_mode_forgets_the_mode (text : string) (b : TheBot) :
  let mode := if contains "Краткосрочный" text then "short_term" else "long_term" in
  match telegram (answer_calls b) with
  | None =>
      exists b',
        process_mode telegram (Some text) b = (Ok tt, b')
        /\ fsm_state b' = None /\ fsm_data b' = ∅
        /\ stored_mode (fsm_data b') = "short_term"
        /\ answers b' = answers b ++ [{| ans_text := "✅ Режим изменён на: " ++ text;
                                         ans_markup := main_keyboard |}]
  | Some e =>
      exists b',
        process_mode telegram (Some text) b = (Raise e, b')
        /\ fsm_state b' = fsm_state b
        /\ stored_mode (fsm_data b') = mode
        /\ answers b' = answers b
  end.
Proof.
  intros mode. unfold process_mode, bind, state_update_data, state_clear, modify, answer.
  cbn [answer_calls]. destruct (telegram (answer_calls b)) as [e|].
  - eexists. split; [reflexivity|]. cbn. repeat split.
    unfold stored_mode. rewrite lookup_insert_eq. reflexivity.
  - eexists. split; [reflexivity|]. cbn. repeat split.
Qed.

(** [get_top_instruments] on any world. *)
Lemma get_top_instruments_value (world : World F Model DataFrame) :
  get_top_instruments world
  = match shares world with
    | Raise e => Raise e
    | Ok items => Ok (map instrument_dict (take 5 items))
    end.
Proof.
  unfold get_top_instruments, await, get_instruments.
  destruct (shares world) as [items|e]; [|reflexivity].
  rewrite sorted_desc_equal_keys.
  - rewrite firstn_map. reflexivity.
  - intros i Hi. apply in_map_iff in Hi as (item & <- & _).
    unfold volume_key. rewrite instrument_dict_volume. reflexivity.
Qed.

Lemma top_lines_of_shares (idx : nat) (items : list Share) :
  top_lines idx (map instrument_dict items) = Ok (top_lines_from (idx + 1) items).
Proof.
  revert idx. induction items as [|item items IH]; intros idx; [reflexivity|].
  cbn [map top_lines top_lines_from].
  assert (Ht : getitem (instrument_dict item) "ticker" = Ok (sh_ticker item)) by reflexivity.
  assert (Hn : getitem (instrument_dict item) "name" = Ok (sh_name item)) by reflexivity.
  rewrite Ht, Hn, IH. reflexivity.
Qed.

Lemma top_instruments_run (world : World F Model DataFrame) (b : TheBot) :
  telegram (answer_calls b) = None ->
  exists a logs,
    top_instruments telegram world b
    = (Ok tt, {| fsm_state := fsm_state b; fsm_data := fsm_data b;
                 trading_engine := trading_engine b;
                 answers := answers b ++ [a];
                 answer_calls := S (answer_calls b);
                 bot_log := bot_log b ++ logs |})
    /\ match shares world with
       | Ok items =>
           a = {| ans_text := "📈 Топ-5 инструментов:" ++ nl
                              ++ String.concat nl (top_lines_from 1 (take 5 items));
                  ans_markup := main_keyboard |}
           /\ logs = []
       | Raise e =>
           a = {| ans_text := "⚠️ Ошибка получения данных"; ans_markup := main_keyboard |}
           /\ logs = [{| levelname := ERROR; message := str_exc e |}]
       end.
Proof.
  intros Htg. unfold top_instruments, try_except, bind, lift.
  rewrite get_top_instruments_value.
  destruct (shares world) as [items|e].
  - rewrite top_lines_of_shares, answer_delivered by exact Htg.
    eexists _, []. rewrite app_nil_r. split; [reflexivity|]. split; reflexivity.
  - unfold log_bot, modify. rewrite answer_delivered by exact Htg.
    eexists _, _. split; [reflexivity|]. split; reflexivity.
Qed.

(** X25. [top_instruments] answers once and changes neither the state nor
    the data of the chat.  When the directory can be listed, the answer is
    the header and one line per share for the first five shares of the
    listing, in the order of the listing and numbered from 1 (the header
    alone when the listing is empty); when the listing raises, the
    exception is logged with its message and the answer is the error
    text. *)
Theorem top_instruments_reply (world : World F Model DataFrame) (b : TheBot) :
  telegram (answer_calls b) = None ->
  exists b',
    top_instruments telegram world b = (Ok tt, b')
    /\ fsm_state b' = fsm_state b /\ fsm_data b' = fsm_data b
    /\ match shares world with
       | Ok items =>
           answers b'
           = answers b
             ++ [{| ans_text := "📈 Топ-5 инструментов:" ++ nl
                                ++ String.concat nl (top_lines_from 1 (take 5 items));
                    ans_markup := main_keyboard |}]
           /\ bot_log b' = bot_log b
       | Raise e =>
           answers b'
           = answers b ++ [{| ans_text := "⚠️ Ошибка получения данных";
                              ans_markup := main_keyboard |}]
           /\ bot_log b' = bot_log b ++ [{| levelname := ERROR; message := str_exc e |}]
       end.
Proof.
  intros Htg. destruct (top_instruments_run world b Htg) as (a & logs & -> & Hcase).
  eexists. split; [reflexivity|]. cbn. split; [reflexivity|]. split; [reflexivity|].
  destruct (shares world) as [items|e]; destruct Hcase as [-> ->];
    rewrite ?app_nil_r; split; reflexivity.
Qed.

(** What [process_ticker] does with a message that is not the back button,
    when Telegram takes its answer. *)
Lemma process_ticker_run (world : World F Model DataFrame) (text : option string)
    (now : Time) (b : TheBot) :
  match text with Some t => String.eqb t "↩️ Назад" | None => false end = false ->
  telegram (answer_calls b) = None ->
  exists a eng logs,
    process_ticker cfg str_float format_2f telegram world text now b
    = (Ok tt, {| fsm_state := None; fsm_data := ∅; trading_engine := eng;
                 answers := answers b ++ [{| ans_text := a; ans_markup := main_keyboard |}];
                 answer_calls := S (answer_calls b);
                 bot_log := bot_log b ++ logs |})
    /\ ((text = None /\ eng = trading_engine b /\ a = failure_text
         /\ logs = [{| levelname := ERROR;
                        message := "Ошибка анализа: "
                                   ++ "'NoneType' object has no attribute 'upper'" |}])
        \/ (exists t d,
              text = Some t
              /\ analyze cfg world (str_upper world t) (stored_mode (fsm_data b)) now
                   (trading_engine b) = (Ok d, eng)
              /\ ((format_response str_float format_2f (str_upper world t)
                     (stored_mode (fsm_data b)) d = Ok a /\ logs = [])
                  \/ (exists e,
                        format_response str_float format_2f (str_upper world t)
                          (stored_mode (fsm_data b)) d = Raise e
                        /\ a = failure_text
                        /\ logs = [{| levelname := ERROR;
                                       message := "Ошибка анализа: " ++ str_exc e |}])))).
Proof.
  intros Hback Htg. unfold process_ticker. rewrite Hback.
  unfold bind at 1, get. cbn beta iota.
  unfold try_except, bind, lift, on_engine, log_bot, state_clear, modify.
  destruct text as [t|]; cbn [text_upper].
  - destruct (analyze_returns world (str_upper world t) (stored_mode (fsm_data b)) now
                (trading_engine b)) as [d [eng Hrun]].
    rewrite Hrun.
    destruct (format_response str_float format_2f (str_upper world t) (stored_mode (fsm_data b)) d)
      as [resp|e] eqn:Hresp.
    + rewrite answer_delivered by exact Htg. cbn.
      exists resp, eng, []. rewrite app_nil_r. split; [reflexivity|].
      right. exists t, d. split; [reflexivity|]. split; [exact Hrun|].
      left. split; [exact Hresp|reflexivity].
    + rewrite answer_delivered by exact Htg. cbn.
      exists failure_text, eng, [{| levelname := ERROR;
                                    message := "Ошибка анализа: " ++ str_exc e |}].
      split; [reflexivity|].
      right. exists t, d. split; [reflexivity|]. split; [exact Hrun|].
      right. exists e. split; [exact Hresp|]. split; reflexivity.
  - rewrite answer_delivered by exact Htg. cbn.
    eexists failure_text, (trading_engine b), _. split; [reflexivity|].
    left. repeat split; reflexivity.
Qed.

(** The dict of an error has no key [decision]. *)
Lemma format_response_error (ticker mode : string) (e : PyExc) :
  format_response str_float format_2f ticker mode (error_dict e)
  = Raise (KeyError "decision").
Proof. reflexivity. Qed.

(** The dict of a result is always rendered. *)
Lemma format_response_result (world : World F Model DataFrame) (ticker mode t : string)
    (a : Analysis) (price : F) (now : Time) :
  format_response str_float format_2f ticker mode (result_dict world t a price now)
  = Ok ("📊 Анализ " ++ ticker ++ " ("
        ++ (if String.eqb mode "short_term" then "Краткосрочный" else "Долгосрочный")
        ++ "):" ++ nl
        ++ "• Рекомендация: " ++ an_decision a ++ nl
        ++ "• Уверенность: "
        ++ match an_ml_confidence a with
           | Some x => str_float x
           | None => "0"
           end ++ "%" ++ nl
        ++ "• Цена: " ++ format_2f price ++ " RUB" ++ nl
        ++ "• Стоп-лосс: " ++ format_2f (an_stop_loss a) ++ nl
        ++ "• Тейк-профит: " ++ format_2f (an_take_profit a))%string.
Proof.
  unfold format_response, result_dict, getitem.
  rewrite lookup_insert_ne, lookup_insert_eq by discriminate.
  rewrite !lookup_insert_ne, lookup_insert_eq by discriminate.
  cbn [format_fixed].
  rewrite !lookup_insert_ne, lookup_insert_eq by discriminate.
  rewrite !lookup_insert_ne, lookup_insert_eq by discriminate.
  rewrite !lookup_insert_ne, lookup_insert_eq by discriminate.
  cbn [format_fixed format_plain]. destruct (an_ml_confidence a); reflexivity.
Qed.

(** X26. [process_ticker] reports every failure of [analyze] alike: when
    [analyze] returns the dict of an error, whatever the error, the handler
    logs KeyError 'decision', answers the one failure text, and clears the
    chat; the message of the error is in the log of the engine only. *)
Theorem process_ticker_reports_failures_alike (world : World F Model DataFrame)
    (t : string) (now : Time) (b : TheBot) (d : gmap string (Value F))
    (eng : @TradingEngine Model) :
  String.eqb t "↩️ Назад" = false ->
  telegram (answer_calls b) = None ->
  analyze cfg world (str_upper world t) (stored_mode (fsm_data b)) now (trading_engine b)
  = (Ok d, eng) ->
  is_Some (d !! "error") ->
  process_ticker cfg str_float format_2f telegram world (Some t) now b
  = (Ok tt, {| fsm_state := None; fsm_data := ∅; trading_engine := eng;
               answers := answers b ++ [{| ans_text := failure_text;
                                           ans_markup := main_keyboard |}];
               answer_calls := S (answer_calls b);
               bot_log := bot_log b ++ [{| levelname := ERROR;
                                           message := "Ошибка анализа: 'decision'" |}] |}).
Proof.
  intros Hback Htg Hrun Herr.
  destruct (process_ticker_run world (Some t) now b Hback Htg)
    as (a & eng' & logs & -> & [(Hnone & _)|(t' & d' & Ht & Hrun' & Hcase)]);
    [discriminate|].
  injection Ht as <-. rewrite Hrun in Hrun'. injection Hrun' as <- <-.
  assert (Hd : exists e, d = error_dict e).
  { destruct (analyze_cases cfg world (str_upper world t) (stored_mode (fsm_data b)) now
                (trading_engine b)) as [(d0 & Hbody & Hrun0)|(e & s1 & _ & Hrun0)];
      rewrite Hrun in Hrun0; injection Hrun0 as -> _; [|eauto].
    apply analyze_body_ok in Hbody
      as (? & ? & ? & ? & ? & ? & ? & ? & ? & ? & ? & _ & _ & _ & _ & _ & _ & _ & _ & _
          & _ & _ & _ & -> & _).
    destruct Herr as [v Hv]. discriminate Hv. }
  destruct Hd as [e ->]. rewrite format_response_error in Hcase.
  destruct Hcase as [[Hok _]|(e' & He' & -> & ->)]; [discriminate|].
  injection He' as <-. reflexivity.
Qed.

(** X27. A result of [analyze] is always rendered: when [analyze] returns a
    dict without the key [error], no key that the handler reads is missing
    and every number it formats is a float, the answer is the rendered
    analysis, nothing is logged by the handler, and the chat is cleared. *)
Theorem process_ticker_renders_results (world : World F Model DataFrame)
    (t : string) (now : Time) (b : TheBot) (d : gmap string (Value F))
    (eng : @TradingEngine Model) :
  String.eqb t "↩️ Назад" = false ->
  telegram (answer_calls b) = None ->
  analyze cfg world (str_upper world t) (stored_mode (fsm_data b)) now (trading_engine b)
  = (Ok d, eng) ->
  d !! "error" = None ->
  exists response,
    format_response str_float format_2f (str_upper world t) (stored_mode (fsm_data b)) d
    = Ok response
    /\ process_ticker cfg str_float format_2f telegram world (Some t) now b
       = (Ok tt, {| fsm_state := None; fsm_data := ∅; trading_engine := eng;
                    answers := answers b ++ [{| ans_text := response;
                                                ans_markup := main_keyboard |}];
                    answer_calls := S (answer_calls b);
                    bot_log := bot_log b |}).
Proof.
  intros Hback Htg Hrun Herr.
  destruct (process_ticker_run world (Some t) now b Hback Htg)
    as (a & eng' & logs & -> & [(Hnone & _)|(t' & d' & Ht & Hrun' & Hcase)]);
    [discriminate|].
  injection Ht as <-. rewrite Hrun in Hrun'. injection Hrun' as <- <-.
  pose proof Hrun as Hbody. apply analyze_without_error in Hbody; [|exact Herr].
  apply analyze_body_ok in Hbody
    as (? & ? & ? & ? & ? & ? & ? & ? & a0 & a' & c & _ & _ & _ & _ & _ & _ & _ & _ & _
        & _ & _ & _ & Hd & _).
  rewrite Hd in Hcase. rewrite format_response_result in Hcase.
  destruct Hcase as [[Hok ->]|(e' & He' & _)]; [|discriminate].
  exists a. split; [rewrite Hd, format_response_result; exact Hok|].
  rewrite app_nil_r. reflexivity.
Qed.

Lemma process_mode_run (text : string) (b : TheBot) :
  telegram (answer_calls b) = None ->
  process_mode telegram (Some text) b
  = (Ok tt, {| fsm_state := None; fsm_data := ∅; trading_engine := trading_engine b;
               answers := answers b ++ [{| ans_text := "✅ Режим изменён на: " ++ text;
                                           ans_markup := main_keyboard |}];
               answer_calls := S (answer_calls b); bot_log := bot_log b |}).
Proof.
  intros Htg. unfold process_mode, bind, state_update_data, state_clear, modify, answer.
  cbn [answer_calls]. rewrite Htg. reflexivity.
Qed.

(** What a handler does when Telegram takes its answer: it returns, it has
    answered once, and it leaves no data in a chat that had none. *)
Lemma run_handler_delivered (c : @HandlerCall F Model DataFrame) (b : TheBot) :
  telegram (answer_calls b) = None ->
  exists b' a,
    run_handler cfg str_float format_2f telegram c b = (Ok tt, b')
    /\ answers b' = answers b ++ [a]
    /\ answer_calls b' = S (answer_calls b)
    /\ (fsm_data b = ∅ -> fsm_data b' = ∅).
Proof.
  intros Htg. destruct c as [| |world| |text|world text now|]; cbn [run_handler].
  - unfold cmd_start, bind, state_clear, modify. rewrite answer_delivered by exact Htg.
    eexists _, _. repeat split; reflexivity.
  - unfold analyze_instrument, bind, state_set_state, modify.
    rewrite answer_delivered by exact Htg.
    eexists _, _. split; [reflexivity|]. cbn. repeat split. intros Hd; exact Hd.
  - destruct (top_instruments_run world b Htg) as (a & logs & -> & _).
    eexists _, a. split; [reflexivity|]. cbn. repeat split. intros Hd; exact Hd.
  - unfold change_mode, bind, state_set_state, modify.
    rewrite answer_delivered by exact Htg.
    eexists _, _. split; [reflexivity|]. cbn. repeat split. intros Hd; exact Hd.
  - rewrite process_mode_run by exact Htg. eexists _, _. repeat split; reflexivity.
  - destruct (match text with Some t => String.eqb t "↩️ Назад" | None => false end)
      eqn:Hback.
    + unfold process_ticker. rewrite Hback.
      unfold bind, state_clear, modify. rewrite answer_delivered by exact Htg.
      eexists _, _. repeat split; reflexivity.
    + destruct (process_ticker_run world text now b Hback Htg)
        as (a & eng & logs & -> & _).
      eexists _, _. repeat split; reflexivity.
  - unfold back_handler, bind, state_clear, modify. rewrite answer_delivered by exact Htg.
    eexists _, _. repeat split; reflexivity.
Qed.

(** X28. No exception leaves a handler unless [message.answer] raises it:
    when Telegram takes the answer, each of the seven handlers returns and
    has answered exactly once. *)
Theorem handlers_answer_once (c : @HandlerCall F Model DataFrame) (b : TheBot) :
  telegram (answer_calls b) = None ->
  exists b' a,
    run_handler cfg str_float format_2f telegram c b = (Ok tt, b')
    /\ answers b' = answers b ++ [a]
    /\ answer_calls b' = S (answer_calls b).
Proof.
  intros Htg. destruct (run_handler_delivered c b Htg) as (b' & a & A & B & C & _).
  exists b', a. repeat split; assumption.
Qed.

(** X29. The mode that a user picks is never used: as long as Telegram
    takes the answers, after any sequence of messages the chat holds no
    data, so that every [process_ticker] calls [analyze] with the default
    "short_term". *)
Theorem mode_is_never_used (calls : list (@HandlerCall F Model DataFrame)) (b : TheBot) :
  (forall k, telegram k = None) ->
  fsm_data b = ∅ ->
  fsm_data (bot_after cfg str_float format_2f telegram calls b) = ∅
  /\ stored_mode (fsm_data (bot_after cfg str_float format_2f telegram calls b))
     = "short_term".
Proof.
  intros Htg. revert b. induction calls as [|c calls IH]; intros b Hdata.
  - cbn. rewrite Hdata. split; reflexivity.
  - cbn [bot_after fold_left].
    destruct (run_handler_delivered c b (Htg _)) as (b' & a & Hrun & _ & _ & Hkeep).
    rewrite Hrun. cbn [snd]. apply IH. apply Hkeep, Hdata.
Qed.

End HandlerFacts.

(* ===================================================================== *)
(** * The further properties on examples                                 *)
(* ===================================================================== *)

Lemma subscribe_connected_witness :
  (lkoh ∉ subscriptions connected_service)
  /\ ws connected_service = Some peer
  /\ accepts peer 1
  /\ exists s',
       subscribe shipped_config lkoh connected_service = (Ok tt, s')
       /\ subscriptions s' = {[lkoh]} ∪ subscriptions connected_service
       /\ wire s' = wire connected_service
                    ++ [(ws_id peer, subscribe_frame shipped_config lkoh)]
       /\ orderbooks s' = orderbooks connected_service
       /\ candles_cache s' = candles_cache connected_service.
Proof.
  split; [intros Hin; vm_compute in Hin; discriminate Hin|].
  split; [reflexivity|]. split; [exact I|].
  apply (subscribe_connected shipped_config lkoh connected_service peer);
    [intros Hin; vm_compute in Hin; discriminate Hin|reflexivity|exact I].
Defined.

Lemma subscribed_figi_is_sent_on_next_connect_witness :
  accepts peer (size (subscriptions (snd (subscribe shipped_config lkoh two_subscriptions))))
  /\ In (ws_id peer, subscribe_frame shipped_config lkoh)
        (wire (snd (streaming_turn shipped_config (Accepted peer)
                      (snd (subscribe shipped_config lkoh two_subscriptions))))).
Proof.
  split; [exact I|].
  apply (subscribed_figi_is_sent_on_next_connect shipped_config lkoh two_subscriptions peer).
  exact I.
Defined.

Lemma subscribe_after_connection_ended_witness :
  (lkoh ∉ subscriptions
            (snd (streaming_turn shipped_config (Accepted peer) two_subscriptions)))
  /\ subscribe shipped_config lkoh
       (snd (streaming_turn shipped_config (Accepted peer) two_subscriptions))
     = (Raise (ExternalError "ConnectionClosed"),
        set_subscriptions (fun subs => {[lkoh]} ∪ subs)
          (snd (streaming_turn shipped_config (Accepted peer) two_subscriptions))).
Proof.
  split; [intros Hin; vm_compute in Hin; discriminate Hin|].
  apply (subscribe_after_connection_ended shipped_config peer two_subscriptions lkoh).
  intros Hin; vm_compute in Hin; discriminate Hin.
Defined.

Lemma process_orderbook_overwrites_witness :
  p_figi sber_update_json = Some sber /\ p_figi sber_update_empty = Some sber
  /\ match build_snapshot (F:=Q) sber_update_empty 1700000005 with
     | Ok _ =>
         _process_orderbook sber_update_empty 1700000005
           (snd (_process_orderbook sber_update_json 1700000000 (@init_service Q)))
         = _process_orderbook sber_update_empty 1700000005 init_service
     | Raise e =>
         _process_orderbook sber_update_empty 1700000005
           (snd (_process_orderbook sber_update_json 1700000000 (@init_service Q)))
         = (Raise e, snd (_process_orderbook sber_update_json 1700000000 init_service))
     end.
Proof.
  split; [reflexivity|]. split; [reflexivity|].
  apply (process_orderbook_overwrites (@init_service Q) sber_update_json sber_update_empty
           1700000000 1700000005 sber); reflexivity.
Defined.

(** Both ways round on updates that a frame can carry: the update without
    levels is stored and replaces nothing it should not; the update with
    levels raises and leaves the stored snapshot of the earlier one. *)
Example process_orderbook_later_update_raises :
  let s1 := snd (_process_orderbook sber_update_empty 1700000000 (@init_service Q)) in
  orderbooks s1 !! sber = Some {| bids := []; asks := []; timestamp := 1700000000 |}
  /\ _process_orderbook sber_update_json 1700000005 s1
     = (Raise (AttributeError "object has no attribute 'price'"), s1).
Proof. split; reflexivity. Qed.

Lemma process_orderbook_commutes_witness :
  p_figi sber_update = Some sber /\ p_figi gazp_update = Some gazp /\ sber <> gazp
  /\ snd (_process_orderbook gazp_update 1700000002
            (snd (_process_orderbook sber_update 1700000000 (@init_service Q))))
     = snd (_process_orderbook sber_update 1700000000
              (snd (_process_orderbook gazp_update 1700000002 init_service))).
Proof.
  split; [reflexivity|]. split; [reflexivity|]. split; [discriminate|].
  apply (process_orderbook_commutes (@init_service Q) sber_update gazp_update
           1700000000 1700000002 sber gazp); [reflexivity|reflexivity|discriminate].
Defined.

(** The service once it has read the first two frames of [noisy_peer]. *)
(** Three turns: the connection is refused, then a connection is read to
    its end, then a connection delivers an update decoded from JSON.  The
    first and the third have failed. *)
Example start_streaming_failures :
  let attempts := [Refused (ExternalError "refused"); Accepted tidy_peer;
                   Accepted noisy_peer] in
  turn_failures shipped_config attempts (@init_service Q)
  = [ExternalError "refused"; AttributeError "object has no attribute 'price'"]
  /\ svc_log (snd (start_streaming shipped_config attempts (@init_service Q)))
     = [{| levelname := ERROR; message := "Ошибка подключения: refused" |};
        {| levelname := ERROR;
           message := "Ошибка подключения: object has no attribute 'price'" |}]
  /\ slept (snd (start_streaming shipped_config attempts (@init_service Q))) = [5; 5].
Proof. repeat split; vm_compute; reflexivity. Qed.

Lemma stream_stops_at_bad_frame_witness :
  ws (set_ws (Some noisy_peer) two_subscriptions) = Some noisy_peer
  /\ inbox noisy_peer
     = [(1700000001, Decoded (Some "ping") None);
        (1700000002, Decoded (Some "orderbook") (Some gazp_update))]
       ++ (1700000003, Decoded (Some "orderbook") (Some sber_update_json))
       :: [(1700000004, Decoded (Some "orderbook") (Some sber_update))]
  /\ _stream_handler (set_ws (Some noisy_peer) two_subscriptions)
     = (Raise (AttributeError "object has no attribute 'price'"),
        snd (_process_orderbook gazp_update 1700000002
               (set_ws (Some noisy_peer) two_subscriptions))).
Proof.
  split; [reflexivity|]. split; [reflexivity|].
  apply (stream_stops_at_bad_frame
           (set_ws (Some noisy_peer) two_subscriptions)
           (snd (_process_orderbook gazp_update 1700000002
                   (set_ws (Some noisy_peer) two_subscriptions)))
           noisy_peer
           [(1700000001, Decoded (Some "ping") None);
            (1700000002, Decoded (Some "orderbook") (Some gazp_update))]
           [(1700000004, Decoded (Some "orderbook") (Some sber_update))]
           (1700000003, Decoded (Some "orderbook") (Some sber_update_json))
           (AttributeError "object has no attribute 'price'")); reflexivity.
Defined.

Lemma clean_close_has_no_backoff_witness :
  accepts tidy_peer (size (subscriptions two_subscriptions))
  /\ read_error tidy_peer = None
  /\ exists s',
       streaming_turn shipped_config (Accepted tidy_peer) two_subscriptions = (Ok tt, s')
       /\ slept s' = slept two_subscriptions
       /\ svc_log s' = svc_log two_subscriptions
       /\ wire s' = wire two_subscriptions
                    ++ map (fun figi => (ws_id tidy_peer, subscribe_frame shipped_config figi))
                         (elements (subscriptions two_subscriptions)).
Proof.
  split; [exact I|]. split; [reflexivity|].
  apply (clean_close_has_no_backoff shipped_config tidy_peer two_subscriptions);
    [exact I| |reflexivity].
  repeat constructor.
  - exists "ping", None. split; [reflexivity|]. intros Hev. discriminate Hev.
  - exists "orderbook", (Some gazp_update). split; [reflexivity|]. intros _.
    eexists gazp_update, gazp, _. repeat split; reflexivity.
Defined.

Lemma wire_ok_is_kept_witness :
  wire_ok shipped_config (@init_service Q)
  /\ (forall figi, wire_ok shipped_config (snd (subscribe shipped_config figi init_service)))
  /\ (forall a, wire_ok shipped_config (snd (streaming_turn shipped_config a init_service)))
  /\ (forall data now,
        wire_ok shipped_config (snd (_process_orderbook data now (@init_service Q)))).
Proof.
  split; [constructor|].
  apply (wire_ok_is_kept shipped_config (@init_service Q)). constructor.
Defined.

Lemma result_needs_candles_witness :
  analyze demo_config demo_world "gazp" "short_term" 1700000000 trained_engine
  = (Ok demo_result, trained_engine)
  /\ demo_result !! "error" = None
  /\ exists params figi n_days ival candles needed,
       strategy_params demo_config "short_term" = Ok params
       /\ days params = Some n_days /\ interval params = Some ival
       /\ min_candles params = Some needed
       /\ get_candles demo_world figi n_days ival = Ok candles
       /\ candles <> []
       /\ needed <= Z.of_nat (length candles).
Proof.
  split; [reflexivity|]. split; [reflexivity|].
  apply (result_needs_candles demo_config demo_world "gazp" "short_term" 1700000000
           trained_engine trained_engine demo_result); reflexivity.
Defined.

Lemma analyze_decision_witness :
  analyze demo_config demo_world "gazp" "short_term" 1700000000 trained_engine
  = (Ok demo_result, trained_engine)
  /\ demo_result !! "error" = None
  /\ (((ml_model trained_engine = None
        \/ exists m, ml_model trained_engine = Some m /\ truth demo_world m = Ok false)
       /\ demo_result !! "decision" = Some (VStr "Держать")
       /\ demo_result !! "confidence" = Some (VInt 0))
      \/ (exists m row label proba,
            ml_model trained_engine = Some m /\ truth demo_world m = Ok true
            /\ predict demo_world m row = Ok label
            /\ predict_proba demo_world m row = Ok proba
            /\ length row = length (ML_features demo_config)
            /\ demo_result !! "decision"
               = Some (VStr (if Z.eqb label 1 then "Покупать" else "Продавать"))
            /\ demo_result !! "confidence" = Some (VFloat (f_mul proba (f_of_int 100))))).
Proof.
  split; [reflexivity|]. split; [reflexivity|].
  apply (analyze_decision demo_config demo_world "gazp" "short_term" 1700000000
           trained_engine trained_engine demo_result); reflexivity.
Defined.

Lemma analyze_same_upper_witness :
  str_upper demo_world "gazp" = str_upper demo_world "GaZp"
  /\ analyze demo_config demo_world "gazp" "short_term" 1700000000 trained_engine
     = analyze demo_config demo_world "GaZp" "short_term" 1700000000 trained_engine.
Proof.
  split; [reflexivity|].
  apply (analyze_same_upper demo_config demo_world "gazp" "GaZp" "short_term"
           1700000000 trained_engine).
  reflexivity.
Defined.

Lemma analyze_needs_config_witness :
  STRATEGY_PARAMS (@shipped_config Q _) = None
  /\ exists e,
       analyze shipped_config demo_world "gazp" "short_term" 1700000000 demo_engine
       = (Ok (error_dict e), log_eng ERROR ("Ошибка анализа: " ++ str_exc e) demo_engine).
Proof.
  split; [reflexivity|].
  apply (analyze_needs_config shipped_config demo_world "gazp" "short_term" 1700000000
           demo_engine).
  left. reflexivity.
Defined.

Lemma train_on_replaces_model_before_fit_witness :
  train_on shipped_config unfit_world 1700000000 [instrument_dict sber_share] demo_engine
  = (Raise (ValueError "Unknown label type"),
     set_ml_model (Some false) (set_ml_model (Some false) demo_engine))
  /\ ((set_ml_model (Some false) (set_ml_model (Some false) demo_engine) = demo_engine
       /\ exists e, Raise (ValueError "Unknown label type") = Raise (A:=unit) e)
      \/ (exists m X y,
            new_model unfit_world = Ok m
            /\ ml_model (set_ml_model (Some false) (set_ml_model (Some false) demo_engine))
               = Some (fst (fit unfit_world m X y))
            /\ match snd (fit unfit_world m X y) with
               | Some e =>
                   Raise (ValueError "Unknown label type") = Raise (A:=unit) e
                   /\ last_trained
                        (set_ml_model (Some false) (set_ml_model (Some false) demo_engine))
                      = last_trained demo_engine
               | None =>
                   last_trained
                     (set_ml_model (Some false) (set_ml_model (Some false) demo_engine))
                   = Some 1700000000
               end)).
Proof.
  split; [reflexivity|].
  apply (train_on_replaces_model_before_fit shipped_config unfit_world 1700000000
           [instrument_dict sber_share] demo_engine).
  reflexivity.
Defined.

Lemma top_instruments_reply_witness :
  online (answer_calls fresh_bot) = None
  /\ exists b',
       top_instruments online offline_world fresh_bot = (Ok tt, b')
       /\ fsm_state b' = fsm_state fresh_bot /\ fsm_data b' = fsm_data fresh_bot
       /\ match shares offline_world with
          | Ok items =>
              answers b'
              = answers fresh_bot
                ++ [{| ans_text := "📈 Топ-5 инструментов:" ++ nl
                                   ++ String.concat nl (top_lines_from 1 (take 5 items));
                       ans_markup := main_keyboard |}]
              /\ bot_log b' = bot_log fresh_bot
          | Raise e =>
              answers b'
              = answers fresh_bot ++ [{| ans_text := "⚠️ Ошибка получения данных";
                                         ans_markup := main_keyboard |}]
              /\ bot_log b'
                 = bot_log fresh_bot ++ [{| levelname := ERROR; message := str_exc e |}]
          end.
Proof.
  split; [reflexivity|].
  apply (top_instruments_reply online offline_world fresh_bot). reflexivity.
Defined.

(** The answer of [top_instruments] on the directory of the example. *)
Example top_instruments_text :
  map ans_text (answers (snd (top_instruments online demo_world fresh_bot)))
  = [("📈 Топ-5 инструментов:" ++ nl ++ "1. SBER (Sberbank)" ++ nl
      ++ "2. GAZP (Gazprom)")%string].
Proof. vm_compute. reflexivity. Qed.

Lemma process_ticker_reports_failures_alike_witness :
  String.eqb "sber" "↩️ Назад" = false
  /\ online (answer_calls waiting_bot) = None
  /\ analyze demo_config demo_world (str_upper demo_world "sber") (stored_mode (fsm_data waiting_bot))
       1700000000 (trading_engine waiting_bot)
     = (Ok (error_dict (ValueError "Недостаточно данных")),
        log_eng ERROR "Ошибка анализа: Недостаточно данных" trained_engine)
  /\ process_ticker demo_config show_q show_q online demo_world (Some "sber") 1700000000
       waiting_bot
     = (Ok tt, {| fsm_state := None; fsm_data := ∅;
                  trading_engine :=
                    log_eng ERROR "Ошибка анализа: Недостаточно данных" trained_engine;
                  answers := answers waiting_bot
                             ++ [{| ans_text := failure_text;
                                    ans_markup := main_keyboard |}];
                  answer_calls := S (answer_calls waiting_bot);
                  bot_log := bot_log waiting_bot
                             ++ [{| levelname := ERROR;
                                    message := "Ошибка анализа: 'decision'" |}] |}).
Proof.
  split; [reflexivity|]. split; [reflexivity|]. split; [reflexivity|].
  apply (process_ticker_reports_failures_alike demo_config show_q show_q online demo_world
           "sber" 1700000000 waiting_bot
           (error_dict (ValueError "Недостаточно данных"))
           (log_eng ERROR "Ошибка анализа: Недостаточно данных" trained_engine));
    [reflexivity|reflexivity|reflexivity|eexists; reflexivity].
Defined.

Lemma process_ticker_renders_results_witness :
  String.eqb "gazp" "↩️ Назад" = false
  /\ online (answer_calls waiting_bot) = None
  /\ analyze demo_config demo_world (str_upper demo_world "gazp") (stored_mode (fsm_data waiting_bot))
       1700000000 (trading_engine waiting_bot)
     = (Ok demo_result, trained_engine)
  /\ demo_result !! "error" = None
  /\ exists response,
       format_response show_q show_q (str_upper demo_world "gazp") (stored_mode (fsm_data waiting_bot))
         demo_result = Ok response
       /\ process_ticker demo_config show_q show_q online demo_world (Some "gazp")
            1700000000 waiting_bot
          = (Ok tt, {| fsm_state := None; fsm_data := ∅; trading_engine := trained_engine;
                       answers := answers waiting_bot
                                  ++ [{| ans_text := response;
                                         ans_markup := main_keyboard |}];
                       answer_calls := S (answer_calls waiting_bot);
                       bot_log := bot_log waiting_bot |}).
Proof.
  split; [reflexivity|]. split; [reflexivity|]. split; [reflexivity|].
  split; [reflexivity|].
  apply (process_ticker_renders_results demo_config show_q show_q online demo_world
           "gazp" 1700000000 waiting_bot demo_result trained_engine); reflexivity.
Defined.

Lemma handlers_answer_once_witness :
  online (answer_calls fresh_bot) = None
  /\ exists b' a,
       run_handler demo_config show_q show_q online
         (CallProcessTicker demo_world (Some "gazp") 1700000000) fresh_bot = (Ok tt, b')
       /\ answers b' = answers fresh_bot ++ [a]
       /\ answer_calls b' = S (answer_calls fresh_bot).
Proof.
  split; [reflexivity|].
  apply (handlers_answer_once demo_config show_q show_q online
           (CallProcessTicker demo_world (Some "gazp") 1700000000) fresh_bot).
  reflexivity.
Defined.

(** A user picks the long-term mode and then asks for an analysis. *)
Lemma mode_is_never_used_witness :
  (forall k, online k = None)
  /\ fsm_data fresh_bot = ∅
  /\ fsm_data
       (bot_after demo_config show_q show_q online
          [CallChangeMode; CallProcessMode "Долгосрочный (1 день)"; CallAnalyzeInstrument;
           CallProcessTicker demo_world (Some "gazp") 1700000000] fresh_bot) = ∅
  /\ stored_mode
       (fsm_data
          (bot_after demo_config show_q show_q online
             [CallChangeMode; CallProcessMode "Долгосрочный (1 день)";
              CallAnalyzeInstrument;
              CallProcessTicker demo_world (Some "gazp") 1700000000] fresh_bot))
     = "short_term".
Proof.
  split; [intros k; reflexivity|]. split; [reflexivity|].
  apply (mode_is_never_used demo_config show_q show_q online
           [CallChangeMode; CallProcessMode "Долгосрочный (1 день)"; CallAnalyzeInstrument;
            CallProcessTicker demo_world (Some "gazp") 1700000000] fresh_bot);
    [intros k; reflexivity|reflexivity].
Defined.

(** In that chat the analysis is headed "Краткосрочный", the short term. *)
Example long_term_choice_is_lost :
  match last (answers
                (bot_after demo_config show_q show_q online
                   [CallChangeMode; CallProcessMode "Долгосрочный (1 день)";
                    CallAnalyzeInstrument;
                    CallProcessTicker demo_world (Some "gazp") 1700000000] fresh_bot)) with
  | Some a => contains "📊 Анализ GAZP (Краткосрочный)" (ans_text a) = true
  | None => False
  end.
Proof. vm_compute. reflexivity. Qed.
